(** * aggregate_materials_final.py: the materials aggregation pipeline

    A shallow embedding of the script [aggregate_materials_final.py] and of
    the part of pandas it calls.  The script loads six spreadsheets into
    DataFrames, fixes three fields, cleans every text column, chains five
    left merges, reorders the columns, fills the nulls with ["N/A"] and
    exports the table.

    Modelling choices, each following what the script does with pandas 1.x/2.x
    (the in-place [replace] through [data['storage'][...]] reaches the frame
    only in those versions):
    - a cell is a missing value, a Python [str], an integer or an
      integer-valued float (what [read_excel] gives for a number in a column
      that also has blanks); other floats, booleans and dates are left out;
    - a string is a [string] whose characters stand for the code points
      0..255;
    - a Series is the list of its cells and its dtype is read off them:
      [int64] when all are integers, [float64] when all are floats or
      missing, [object] otherwise (a column that [read_excel] builds is of
      one of these three shapes); a merge that brings missing values into an
      integer column leaves the integers as they are;
    - a DataFrame is column-major: the row count and the labelled columns;
    - an exception is a value of [exn] in an error monad;
    - the process is a state monad over the log file, the console and the
      result file, with [exit] and uncaught exceptions as outcomes; log
      lines carry their level and text, with elapsed times and check marks
      left out; an export that fails leaves in the result file what the
      writer saved, which the state of the files decides.

    Two things pandas does are not in the model: [merge] raises
    ValueError when a text key column meets a numeric one, and [apply] on a
    frame without rows returns a frame, so that line 88 raises ValueError on
    an empty Materials sheet.  The model compares the key cells (no text
    matches a number) and maps over no rows.  The statements that could
    depend on it take the result of the pipeline as a hypothesis, or are
    about sheets that have rows.

    The properties come in two kinds: those of [pipeline] on any six loaded
    frames, and those that follow named columns, stated on the six sheets
    with the columns of the data model ([Sheet]). *)

From Stdlib Require Import List String Ascii ZArith Lia Bool Arith PeanoNat.
From Stdlib Require Import DecimalString Sorted.
Import ListNotations.
Open Scope string_scope.
Open Scope list_scope.

(** ** Python built-ins *)

Module Py.

(** [str.isspace] on the code points below 256. *)
Definition isspace (c : ascii) : bool :=
  let n := nat_of_ascii c in
  (((9 <=? n) && (n <=? 13)) || ((28 <=? n) && (n <=? 32))
   || (n =? 133) || (n =? 160))%nat.

Fixpoint lstrip (s : string) : string :=
  match s with
  | EmptyString => EmptyString
  | String c s' => if isspace c then lstrip s' else s
  end.

Fixpoint rstrip (s : string) : string :=
  match s with
  | EmptyString => EmptyString
  | String c s' =>
      match rstrip s' with
      | EmptyString => if isspace c then EmptyString else String c EmptyString
      | t => String c t
      end
  end.

(** [s.strip()] *)
Definition strip (s : string) : string := rstrip (lstrip s).

Fixpoint zeros (n : nat) : string :=
  match n with
  | O => EmptyString
  | S n' => String "0"%char (zeros n')
  end.

Definition is_sign (c : ascii) : bool :=
  (Ascii.eqb c "+"%char) || (Ascii.eqb c "-"%char).

(** [s.zfill(width)]: pads on the left with zeros up to [width], after a
    leading sign; a string already that long is returned as it is.  (Before
    pandas 1.5 [Series.str.zfill] put the zeros before the sign; the length
    is the same.) *)
Definition zfill (width : nat) (s : string) : string :=
  let fill := width - String.length s in
  match s with
  | String c rest =>
      if is_sign c then String c (zeros fill ++ rest) else zeros fill ++ s
  | EmptyString => zeros fill
  end.

Fixpoint drop (n : nat) (s : string) : string :=
  match n, s with
  | O, _ => s
  | S n', String _ s' => drop n' s'
  | S _, EmptyString => EmptyString
  end.

(** [s[-k:]]: the last [k] characters, the whole string when it is
    shorter. *)
Definition slice_last (k : nat) (s : string) : string :=
  drop (String.length s - k) s.

(** [str(n)] for an [int]. *)
Definition str_int (z : Z) : string := NilZero.string_of_int (Z.to_int z).

(** [str(x)] for an integer-valued [float] below 1e16 in magnitude. *)
Definition str_float (z : Z) : string := str_int z ++ ".0".

(** A string of white space only, the empty one included. *)
Fixpoint blank (s : string) : bool :=
  match s with
  | EmptyString => true
  | String c s' => isspace c && blank s'
  end.

End Py.

(** ** Cells, Series *)

Inductive cell : Type :=
| NA                (* NaN, None, pd.NA *)
| Str (s : string)
| Int (z : Z)
| Flt (z : Z).      (* an integer-valued float64 *)

Definition cell_eqb (a b : cell) : bool :=
  match a, b with
  | NA, NA => true
  | Str s, Str t => String.eqb s t
  | Int x, Int y => Z.eqb x y
  | Flt x, Flt y => Z.eqb x y
  | _, _ => false
  end.

(** [pd.isna] *)
Definition isna (c : cell) : bool :=
  match c with NA => true | _ => false end.

(** [str(x)] on the Python object in a cell. *)
Definition py_str (c : cell) : string :=
  match c with
  | NA => "nan"
  | Str s => s
  | Int z => Py.str_int z
  | Flt z => Py.str_float z
  end.

Inductive dtype : Type := int64 | float64 | object.

Definition dtype_eqb (a b : dtype) : bool :=
  match a, b with
  | int64, int64 | float64, float64 | object, object => true
  | _, _ => false
  end.

Definition is_int (c : cell) : bool :=
  match c with Int _ => true | _ => false end.

Definition is_float (c : cell) : bool :=
  match c with Flt _ | NA => true | _ => false end.

Definition is_str (c : cell) : bool :=
  match c with Str _ => true | _ => false end.

Definition Series : Type := list cell.

(** The dtype of a column: an empty column and one with anything else than
    numbers is [object]. *)
Definition dtype_of (v : Series) : dtype :=
  match v with
  | [] => object
  | _ => if forallb is_int v then int64
         else if forallb is_float v then float64
         else object
  end.

Module Series_.

(** [s.astype(str)] *)
Definition astype_str (v : Series) : Series :=
  map (fun c => Str (py_str c)) v.

(** [s.str.f()]: a cell that holds no string gives NaN. *)
Definition str_map (f : string -> string) (v : Series) : Series :=
  map (fun c => match c with Str s => Str (f s) | _ => NA end) v.

Definition str_zfill (w : nat) : Series -> Series := str_map (Py.zfill w).
Definition str_strip : Series -> Series := str_map Py.strip.

(** [s.replace(old, new)] for scalars. *)
Definition replace (old new : cell) (v : Series) : Series :=
  map (fun c => if cell_eqb c old then new else c) v.

(** [s.fillna(x)] *)
Definition fillna (x : cell) (v : Series) : Series :=
  map (fun c => if isna c then x else c) v.

End Series_.

(** ** Exceptions *)

Inductive exn : Type :=
| KeyError (key : string)
| TypeError (msg : string)
| MergeError (msg : string).

Inductive result (A : Type) : Type :=
| Ok (a : A)
| Raise (e : exn).

Arguments Ok {A} a.
Arguments Raise {A} e.

Definition bind {A B : Type} (m : result A) (k : A -> result B) : result B :=
  match m with
  | Ok a => k a
  | Raise e => Raise e
  end.

Notation "x <- m ;; k" := (bind m (fun x => k))
  (at level 61, m at next level, right associativity).

Fixpoint mapM {A B : Type} (f : A -> result B) (l : list A) : result (list B) :=
  match l with
  | [] => Ok []
  | a :: l' => b <- f a ;; bs <- mapM f l' ;; Ok (b :: bs)
  end.

(** ** DataFrames *)

Record DataFrame : Type := mkDF {
  nrows : nat;                       (* len(df) *)
  cols : list (string * Series)      (* the labelled columns, in order *)
}.

Definition mem (s : string) (l : list string) : bool :=
  existsb (String.eqb s) l.

Module DF.

(** [df.columns] *)
Definition columns (df : DataFrame) : list string := map fst (cols df).

Fixpoint lookup (c : string) (l : list (string * Series)) : option Series :=
  match l with
  | [] => None
  | (n, v) :: l' => if String.eqb n c then Some v else lookup c l'
  end.

(** [df[c]] *)
Definition getitem (df : DataFrame) (c : string) : result Series :=
  match lookup c (cols df) with
  | Some v => Ok v
  | None => Raise (KeyError c)
  end.

Fixpoint update (c : string) (v : Series) (l : list (string * Series))
  : list (string * Series) :=
  match l with
  | [] => [(c, v)]
  | (n, w) :: l' =>
      if String.eqb n c then (n, v) :: l' else (n, w) :: update c v l'
  end.

(** [df[c] = v]: the column is replaced where it stands, a new label is
    added at the end. *)
Definition setitem (df : DataFrame) (c : string) (v : Series) : DataFrame :=
  mkDF (nrows df) (update c v (cols df)).

(** [df.drop(columns=[c])] *)
Definition drop_column (df : DataFrame) (c : string) : result DataFrame :=
  if mem c (columns df)
  then Ok (mkDF (nrows df)
                (filter (fun p => negb (String.eqb (fst p) c)) (cols df)))
  else Raise (KeyError c).

(** [df[[c1, ..., cn]]]: the named columns in the order asked for; a label
    carried by several columns brings all of them. *)
Definition getitem_list (df : DataFrame) (names : list string)
  : result DataFrame :=
  cs <- mapM (fun c =>
                match filter (fun p => String.eqb (fst p) c) (cols df) with
                | [] => Raise (KeyError c)
                | l => Ok l
                end) names ;;
  Ok (mkDF (nrows df) (List.concat cs)).

(** [df.fillna(x)] *)
Definition fillna (x : cell) (df : DataFrame) : DataFrame :=
  mkDF (nrows df) (map (fun p => (fst p, Series_.fillna x (snd p))) (cols df)).

(** The row at position [i] as [apply(axis=1)] hands it to its function:
    a Series indexed by the column labels. *)
Definition row : Type := list (string * cell).

Definition iloc (df : DataFrame) (i : nat) : row :=
  map (fun p => (fst p, nth i (snd p) NA)) (cols df).

Fixpoint row_lookup (c : string) (r : row) : option cell :=
  match r with
  | [] => None
  | (n, v) :: r' => if String.eqb n c then Some v else row_lookup c r'
  end.

(** [row[c]] *)
Definition row_get (r : row) (c : string) : result cell :=
  match row_lookup c r with
  | Some v => Ok v
  | None => Raise (KeyError c)
  end.

(** [df.apply(f, axis=1)] for an [f] that returns a scalar: [f] on every
    row in turn, the first exception ends the call.  (On a frame without
    rows pandas does not call [f] row by row; the model is the map over the
    rows.) *)
Definition apply_rows (f : row -> result cell) (df : DataFrame)
  : result Series :=
  mapM (fun i => f (iloc df i)) (seq 0 (nrows df)).

(** *** Left merge *)

(** Two join keys match when they are the same string or the same number;
    a missing key matches a missing key. *)
Definition key_eqb (a b : cell) : bool :=
  match a, b with
  | NA, NA => true
  | Str s, Str t => String.eqb s t
  | (Int x | Flt x), (Int y | Flt y) => Z.eqb x y
  | _, _ => false
  end.

Fixpoint keys_eqb (k1 k2 : list cell) : bool :=
  match k1, k2 with
  | [], [] => true
  | a :: k1', b :: k2' => key_eqb a b && keys_eqb k1' k2'
  | _, _ => false
  end.

(** The first [n] rows of the columns [ks], side by side. *)
Definition zip_rows (ks : list Series) (n : nat) : list (list cell) :=
  map (fun i => map (fun v => nth i v NA) ks) (seq 0 n).

(** The key of every row: the cells of the [on] columns. *)
Definition key_rows (df : DataFrame) (on : list string)
  : result (list (list cell)) :=
  ks <- mapM (getitem df) on ;;
  Ok (zip_rows ks (nrows df)).

(** The positions of the right rows whose key is [k], in right order. *)
Definition matches (k : list cell) (rk : list (list cell)) : list nat :=
  map fst (filter (fun p => keys_eqb k (snd p))
                  (combine (seq 0 (List.length rk)) rk)).

(** The rows of a left join: every left row in order, once per matching
    right row, and once with no right row when nothing matches. *)
Definition left_indexer (lk rk : list (list cell))
  : list (nat * option nat) :=
  flat_map (fun p =>
              match matches (snd p) rk with
              | [] => [(fst p, None)]
              | ms => map (fun j => (fst p, Some j)) ms
              end)
           (combine (seq 0 (List.length lk)) lk).

Definition take_left (idx : list (nat * option nat)) (v : Series) : Series :=
  map (fun p => nth (fst p) v NA) idx.

Definition take_right (idx : list (nat * option nat)) (v : Series) : Series :=
  map (fun p => match snd p with Some j => nth j v NA | None => NA end) idx.

(** [Index.duplicated()]: true at every occurrence of a label but the
    first. *)
Fixpoint duplicated_from (seen l : list string) : list bool :=
  match l with
  | [] => []
  | x :: l' => mem x seen :: duplicated_from (x :: seen) l'
  end.

Definition duplicated : list string -> list bool := duplicated_from [].

(** The labels that the suffixes made collide. *)
Definition suffix_dups (before after : list string) : bool :=
  existsb (fun p => fst p && negb (snd p))
          (combine (duplicated after) (duplicated before)).

(** [left.merge(right, on=on, how='left')].  The result has the columns of
    [left], then those of [right] that are no key; a label of both sides
    that is no key gets the suffix [_x] on the left and [_y] on the right.
    pandas refuses to merge a text key with a numeric one; the model
    compares the cells instead, and no such pair matches. *)
Definition merge (left right : DataFrame) (on : list string)
  : result DataFrame :=
  rk <- key_rows right on ;;
  lk <- key_rows left on ;;
  let idx := left_indexer lk rk in
  let overlap n :=
    negb (mem n on) && mem n (columns left) && mem n (columns right) in
  let lcols :=
    map (fun p => (if overlap (fst p) then (fst p ++ "_x")%string else fst p,
                   take_left idx (snd p))) (cols left) in
  let rcols :=
    map (fun p => (if overlap (fst p) then (fst p ++ "_y")%string else fst p,
                   take_right idx (snd p)))
        (filter (fun p => negb (mem (fst p) on)) (cols right)) in
  if suffix_dups (columns left) (map fst lcols)
     || suffix_dups (map fst (filter (fun p => negb (mem (fst p) on))
                                     (cols right)))
                    (map fst rcols)
  then Raise (MergeError "Passing 'suffixes' which cause duplicate columns")
  else Ok (mkDF (List.length idx) (lcols ++ rcols)).

End DF.

(** The column [c] of [df], empty when there is none. *)
Definition col (df : DataFrame) (c : string) : Series :=
  match DF.lookup c (cols df) with
  | Some v => v
  | None => []
  end.

(** ** The script *)

(** The dict [data]: its six keys are fixed by the script, in this order. *)
Record Data : Type := mkData {
  materials : DataFrame;
  plants : DataFrame;
  storage : DataFrame;
  suppliers : DataFrame;
  supplier_names : DataFrame;
  manufacturer_names : DataFrame
}.

(** *** Field fixes (lines 59, 88-97) *)

(** [data['storage']['DeletedStorageLevel'].replace(' ', 'ACTIVE', inplace=True)] *)
Definition replace_deleted (d : Data) : result Data :=
  v <- DF.getitem (storage d) "DeletedStorageLevel" ;;
  Ok (mkData (materials d) (plants d)
             (DF.setitem (storage d) "DeletedStorageLevel"
                         (Series_.replace (Str " ") (Str "ACTIVE") v))
             (suppliers d) (supplier_names d) (manufacturer_names d)).

(** [lambda row: 'TC00000000' + row['MaterialReference'][-2:]
            if pd.isna(row['TypeCode']) else row['TypeCode']] *)
Definition typecode_lambda (row : DF.row) : result cell :=
  tc <- DF.row_get row "TypeCode" ;;
  if isna tc then
    mr <- DF.row_get row "MaterialReference" ;;
    match mr with
    | Str s => Ok (Str ("TC00000000" ++ Py.slice_last 2 s))
    | _ => Raise (TypeError "object is not subscriptable")
    end
  else Ok tc.

(** [data['materials']['TypeCode'] = data['materials'].apply(..., axis=1)] *)
Definition fill_typecode (d : Data) : result Data :=
  v <- DF.apply_rows typecode_lambda (materials d) ;;
  Ok (mkData (DF.setitem (materials d) "TypeCode" v) (plants d) (storage d)
             (suppliers d) (supplier_names d) (manufacturer_names d)).

(** [df['Plant'] = df['Plant'].astype(str).str.zfill(4)] *)
Definition pad_plant (df : DataFrame) : result DataFrame :=
  v <- DF.getitem df "Plant" ;;
  Ok (DF.setitem df "Plant" (Series_.str_zfill 4 (Series_.astype_str v))).

Definition pad_plants (d : Data) : result Data :=
  p <- pad_plant (plants d) ;;
  s <- pad_plant (storage d) ;;
  Ok (mkData (materials d) p s
             (suppliers d) (supplier_names d) (manufacturer_names d)).

(** *** Cleaning (lines 109-119) *)

(** The body of the inner loop on one column. *)
Definition clean_column (v : Series) : Series :=
  if dtype_eqb (dtype_of v) object then
    Series_.replace (Str "nan") NA
      (Series_.replace (Str "") NA
         (Series_.str_strip (Series_.astype_str v)))
  else v.

Definition clean (df : DataFrame) : DataFrame :=
  mkDF (nrows df) (map (fun p => (fst p, clean_column (snd p))) (cols df)).

Definition clean_data (d : Data) : Data :=
  mkData (clean (materials d)) (clean (plants d)) (clean (storage d))
         (clean (suppliers d)) (clean (supplier_names d))
         (clean (manufacturer_names d)).

(** *** Aggregation (lines 144-175) *)

Definition step1 (d : Data) : result DataFrame :=
  r <- DF.merge (materials d) (manufacturer_names d) ["ManufacturerID"] ;;
  DF.drop_column r "ManufacturerID".

Definition step2 (d : Data) (r : DataFrame) : result DataFrame :=
  DF.merge r (plants d) ["MaterialReference"].

Definition step3 (d : Data) (r : DataFrame) : result DataFrame :=
  DF.merge r (suppliers d) ["MaterialReference"].

Definition step4 (d : Data) (r : DataFrame) : result DataFrame :=
  r' <- DF.merge r (supplier_names d) ["SupplierID"] ;;
  DF.drop_column r' "SupplierID".

Definition step5 (d : Data) (r : DataFrame) : result DataFrame :=
  DF.merge r (storage d) ["MaterialReference"; "Plant"].

Definition aggregate (d : Data) : result DataFrame :=
  r1 <- step1 d ;;
  r2 <- step2 d r1 ;;
  r3 <- step3 d r2 ;;
  r4 <- step4 d r3 ;;
  step5 d r4.

(** *** Formatting (lines 186-211) *)

Definition output_columns : list string :=
  [ "MaterialReference"; "ManufacturerName"; "ArticleNumber"; "TypeCode";
    "ShortText"; "Plant"; "Disposition"; "ReporderPoint"; "SupplierName";
    "SupplierArticleNumber"; "StorageLocation"; "StorageBin";
    "DeletedStorageLevel" ].

Definition reorder (r : DataFrame) : result DataFrame :=
  DF.getitem_list r output_columns.

Definition fill_na (r : DataFrame) : DataFrame := DF.fillna (Str "N/A") r.

(** The stages between loading and export, on the loaded tables. *)
Definition prepare (d : Data) : result Data :=
  d1 <- replace_deleted d ;;
  d2 <- fill_typecode d1 ;;
  d3 <- pad_plants d2 ;;
  Ok (clean_data d3).

Definition pipeline (d : Data) : result DataFrame :=
  d' <- prepare d ;;
  r <- aggregate d' ;;
  r' <- reorder r ;;
  Ok (fill_na r').

(** ** The process: files, log, console, exit status *)

(** What [pd.read_excel(file, sheet_name=sheet)] does. *)
Inductive load (A : Type) : Type :=
| Loaded (a : A)
| FileNotFoundError (msg : string)
| OtherError (msg : string).      (* any other [Exception] *)

Arguments Loaded {A} a.
Arguments FileNotFoundError {A} msg.
Arguments OtherError {A} msg.

Definition load_bind {A B : Type} (m : load A) (k : A -> load B) : load B :=
  match m with
  | Loaded a => k a
  | FileNotFoundError e => FileNotFoundError e
  | OtherError e => OtherError e
  end.

Record World : Type := mkWorld {
  read_excel : string -> string -> load DataFrame;
  (* the exception raised inside the [try] block of the export, if any,
     with what that leaves in [result.xlsx]: nothing when [pd.ExcelWriter]
     could not open the file, otherwise what the writer saves when the
     [with] block is left by the exception *)
  write_error : option (string * option DataFrame)
}.

(** The dict literal of lines 30-37: the six reads in order, the first one
    that raises ends the [try] block. *)
Definition read_all (w : World) : load Data :=
  load_bind (read_excel w "materials.xlsx" "materials") (fun m =>
  load_bind (read_excel w "plants.xlsx" "plants") (fun p =>
  load_bind (read_excel w "storage.xlsx" "storage") (fun st =>
  load_bind (read_excel w "suppliers.xlsx" "suppliers") (fun su =>
  load_bind (read_excel w "supplier-names.xlsx" "supplier-names") (fun sn =>
  load_bind (read_excel w "manufacturer-names.xlsx" "manufacturer-names")
            (fun mn => Loaded (mkData m p st su sn mn))))))).

Inductive level : Type := INFO | ERROR.

Record Effects : Type := mkEff {
  log : list (level * string);      (* log.txt *)
  console : list string;            (* stdout *)
  result_xlsx : option DataFrame    (* the sheet written to result.xlsx *)
}.

Inductive flow (A : Type) : Type :=
| Continue (a : A)
| Exit (status : Z)               (* [exit(n)] *)
| Uncaught (e : exn).             (* traceback, the interpreter exits with 1 *)

Arguments Continue {A} a.
Arguments Exit {A} status.
Arguments Uncaught {A} e.

Definition Proc (A : Type) : Type := Effects -> flow A * Effects.

Definition ret {A : Type} (a : A) : Proc A := fun s => (Continue a, s).

Definition seqP {A B : Type} (m : Proc A) (k : A -> Proc B) : Proc B :=
  fun s =>
    match m s with
    | (Continue a, s') => k a s'
    | (Exit n, s') => (Exit n, s')
    | (Uncaught e, s') => (Uncaught e, s')
    end.

Notation "x <~ m ;; k" := (seqP m (fun x => k))
  (at level 61, m at next level, right associativity).
Notation "m >> k" := (seqP m (fun _ => k))
  (at level 61, right associativity).

Definition logging (l : level) (msg : string) : Proc unit :=
  fun s => (Continue tt, mkEff (log s ++ [(l, msg)]) (console s) (result_xlsx s)).

Definition print (msg : string) : Proc unit :=
  fun s => (Continue tt, mkEff (log s) (console s ++ [msg]) (result_xlsx s)).

Definition exit {A : Type} (n : Z) : Proc A := fun s => (Exit n, s).

(** A stage outside any [try]: its exception is not caught. *)
Definition lift {A : Type} (r : result A) : Proc A :=
  fun s => match r with
           | Ok a => (Continue a, s)
           | Raise e => (Uncaught e, s)
           end.

Definition to_excel (df : DataFrame) : Proc unit :=
  fun s => (Continue tt, mkEff (log s) (console s) (Some df)).

(** A write that fails: the file holds what the writer saved on its way
    out, and is as before when the writer never opened it. *)
Definition failed_write (saved : option DataFrame) : Proc unit :=
  fun s => (Continue tt,
            mkEff (log s) (console s)
                  (match saved with
                   | Some df => Some df
                   | None => result_xlsx s
                   end)).

Fixpoint repeat_str (s : string) (n : nat) : string :=
  match n with
  | O => EmptyString
  | S n' => s ++ repeat_str s n'
  end.

Definition rule : string := repeat_str "=" 80.

Definition len_str (df : DataFrame) : string :=
  Py.str_int (Z.of_nat (nrows df)).

(** [len(df.columns)] in a message. *)
Definition width_str (df : DataFrame) : string :=
  Py.str_int (Z.of_nat (List.length (cols df))).

(** [str(list(df.columns))] for labels that [repr] shows between single
    quotes as they are, which holds for those of the output. *)
Definition repr_labels (l : list string) : string :=
  ("[" ++ String.concat ", " (map (fun c => "'" ++ c ++ "'")%string l)
   ++ "]")%string.

(** [df.isna().sum().sum()] *)
Definition count_na (df : DataFrame) : nat :=
  list_sum (map (fun p => List.length (filter isna (snd p))) (cols df)).

(** Lines 29-50. *)
Definition load_data (w : World) : Proc Data :=
  match read_all w with
  | Loaded d =>
      logging INFO "All files loaded successfully" >>
      logging INFO rule >>
      ret d
  | FileNotFoundError e =>
      logging ERROR ("File not found: " ++ e) >>
      print ("Error: " ++ e) >>
      exit 1
  | OtherError e =>
      logging ERROR ("An unexpected error occurred: " ++ e) >>
      print ("Error: " ++ e) >>
      exit 1
  end.

Definition log_cleaned (key : string) (df : DataFrame) : Proc unit :=
  logging INFO ("Cleaning " ++ key ++ " dataset...") >>
  logging INFO ("Cleaned " ++ key ++ ": " ++ len_str df ++ " rows").

Definition log_step (n : string) (r : DataFrame) : Proc unit :=
  logging INFO ("Step " ++ n ++ " completed: " ++ len_str r ++ " rows").

(** Lines 246-257. *)
Definition export (w : World) (r : DataFrame) : Proc unit :=
  match write_error w with
  | None =>
      to_excel r >>
      logging INFO ("Successfully exported " ++ len_str r
                    ++ " rows to result.xlsx") >>
      print ("Successfully exported " ++ len_str r ++ " rows to result.xlsx")
  | Some (e, saved) =>
      failed_write saved >>
      logging ERROR ("Error exporting to Excel: " ++ e) >>
      print ("Error exporting to Excel: " ++ e) >>
      exit 1
  end.

(** Lines 55-101. *)
Definition transformations (d : Data) : Proc Data :=
  logging INFO rule >>
  logging INFO "Applying transformations..." >>
  d <~ lift (replace_deleted d) ;;
  logging INFO "Replaced whitespace with 'ACTIVE' in DeletedStorageLevel" >>
  print "Data Quality Summary:" >>
  print "Handling null values in TypeCode..." >>
  d <~ lift (fill_typecode d) ;;
  print ("Null TypeCode count after filling: "
         ++ Py.str_int (Z.of_nat (List.length
                                    (filter isna (col (materials d) "TypeCode"))))) >>
  logging INFO "Filled null TypeCode values" >>
  d <~ lift (pad_plants d) ;;
  logging INFO "Converted Plant column to string with leading zeros" >>
  logging INFO "Transformations applied successfully." >>
  logging INFO rule >>
  ret d.

(** Lines 106-124. *)
Definition cleaning (d : Data) : Proc Data :=
  logging INFO "Starting data cleaning process..." >>
  let d := clean_data d in
  log_cleaned "materials" (materials d) >>
  log_cleaned "plants" (plants d) >>
  log_cleaned "storage" (storage d) >>
  log_cleaned "suppliers" (suppliers d) >>
  log_cleaned "supplier_names" (supplier_names d) >>
  log_cleaned "manufacturer_names" (manufacturer_names d) >>
  logging INFO "Data cleaning completed" >>
  print "Data cleaning completed" >>
  ret d.

(** Lines 137-180. *)
Definition aggregation (d : Data) : Proc DataFrame :=
  logging INFO rule >>
  logging INFO "Starting data aggregation process..." >>
  logging INFO "Step 1: Merging materials with manufacturer names..." >>
  r <~ lift (step1 d) ;;
  log_step "1" r >>
  logging INFO "Step 2: Merging with plants data..." >>
  r <~ lift (step2 d r) ;;
  log_step "2" r >>
  logging INFO "Step 3: Merging with suppliers data..." >>
  r <~ lift (step3 d r) ;;
  log_step "3" r >>
  logging INFO "Step 4: Adding supplier names..." >>
  r <~ lift (step4 d r) ;;
  log_step "4" r >>
  logging INFO "Step 5: Merging with storage data..." >>
  r <~ lift (step5 d r) ;;
  log_step "5" r >>
  logging INFO "Aggregation completed successfully" >>
  logging INFO ("Final result: " ++ len_str r ++ " rows, "
                ++ width_str r ++ " columns") >>
  logging INFO rule >>
  ret r.

(** Lines 185-238. *)
Definition formatting (r : DataFrame) : Proc DataFrame :=
  logging INFO "Formatting result columns..." >>
  r <~ lift (reorder r) ;;
  logging INFO ("Columns formatted: " ++ repr_labels (DF.columns r)) >>
  logging INFO "Filling null values with 'N/A'..." >>
  let r := fill_na r in
  print ("Remaining null values: " ++ Py.str_int (Z.of_nat (count_na r))) >>
  logging INFO ("Remaining null values after filling: "
                ++ Py.str_int (Z.of_nat (count_na r))) >>
  print "FINAL RESULT SUMMARY" >>
  print ("Total rows: " ++ len_str r) >>
  ret r.

(** The script from its first line to its last.  The console keeps the
    progress lines; the printed statistics and previews are left out, and
    so are the check marks and the elapsed times of the messages. *)
Definition after_loading (w : World) (d : Data) : Proc unit :=
  d <~ transformations d ;;
  d <~ cleaning d ;;
  r <~ aggregation d ;;
  r <~ formatting r ;;
  logging INFO "Starting export to Excel..." >>
  export w r >>
  print "Process completed successfully!".

Definition main (w : World) : Proc unit :=
  print "Logging configured - output will be written to log.txt" >>
  logging INFO rule >>
  logging INFO "Starting data loading process..." >>
  d <~ load_data w ;;
  after_loading w d.

Definition start : Effects := mkEff [] [] None.

(** The exit status of the interpreter. *)
Definition exit_status {A : Type} (f : flow A) : Z :=
  match f with
  | Continue _ => 0
  | Exit n => n
  | Uncaught _ => 1
  end.

Definition run (w : World) : flow unit * Effects := main w start.

(** ** The six sheets

    The script reads the columns below by name; the tables they belong to
    are those of the data model.  A sheet is the list of its rows. *)

Module Sheet.

Record Material : Type := mkMaterial {
  m_MaterialReference : cell;
  m_ManufacturerID : cell;
  m_ArticleNumber : cell;
  m_TypeCode : cell;
  m_ShortText : cell
}.

Record ManufacturerName : Type := mkManufacturerName {
  mn_ManufacturerID : cell;
  mn_ManufacturerName : cell
}.

Record Plant : Type := mkPlant {
  p_MaterialReference : cell;
  p_Plant : cell;
  p_Disposition : cell;
  p_ReporderPoint : cell
}.

Record Supplier : Type := mkSupplier {
  s_MaterialReference : cell;
  s_SupplierID : cell;
  s_SupplierArticleNumber : cell
}.

Record SupplierName : Type := mkSupplierName {
  sn_SupplierID : cell;
  sn_SupplierName : cell
}.

Record Storage : Type := mkStorage {
  st_MaterialReference : cell;
  st_Plant : cell;
  st_StorageLocation : cell;
  st_StorageBin : cell;
  st_DeletedStorageLevel : cell
}.

Definition materials_frame (l : list Material) : DataFrame :=
  mkDF (List.length l)
       [ ("MaterialReference", map m_MaterialReference l);
         ("ManufacturerID", map m_ManufacturerID l);
         ("ArticleNumber", map m_ArticleNumber l);
         ("TypeCode", map m_TypeCode l);
         ("ShortText", map m_ShortText l) ].

Definition manufacturer_names_frame (l : list ManufacturerName) : DataFrame :=
  mkDF (List.length l)
       [ ("ManufacturerID", map mn_ManufacturerID l);
         ("ManufacturerName", map mn_ManufacturerName l) ].

Definition plants_frame (l : list Plant) : DataFrame :=
  mkDF (List.length l)
       [ ("MaterialReference", map p_MaterialReference l);
         ("Plant", map p_Plant l);
         ("Disposition", map p_Disposition l);
         ("ReporderPoint", map p_ReporderPoint l) ].

Definition suppliers_frame (l : list Supplier) : DataFrame :=
  mkDF (List.length l)
       [ ("MaterialReference", map s_MaterialReference l);
         ("SupplierID", map s_SupplierID l);
         ("SupplierArticleNumber", map s_SupplierArticleNumber l) ].

Definition supplier_names_frame (l : list SupplierName) : DataFrame :=
  mkDF (List.length l)
       [ ("SupplierID", map sn_SupplierID l);
         ("SupplierName", map sn_SupplierName l) ].

Definition storage_frame (l : list Storage) : DataFrame :=
  mkDF (List.length l)
       [ ("MaterialReference", map st_MaterialReference l);
         ("Plant", map st_Plant l);
         ("StorageLocation", map st_StorageLocation l);
         ("StorageBin", map st_StorageBin l);
         ("DeletedStorageLevel", map st_DeletedStorageLevel l) ].

Record Sheets : Type := mkSheets {
  materials_rows : list Material;
  plants_rows : list Plant;
  storage_rows : list Storage;
  suppliers_rows : list Supplier;
  supplier_names_rows : list SupplierName;
  manufacturer_names_rows : list ManufacturerName
}.

(** The six frames [read_excel] builds from the sheets. *)
Definition frames (x : Sheets) : Data :=
  mkData (materials_frame (materials_rows x))
         (plants_frame (plants_rows x))
         (storage_frame (storage_rows x))
         (suppliers_frame (suppliers_rows x))
         (supplier_names_frame (supplier_names_rows x))
         (manufacturer_names_frame (manufacturer_names_rows x)).

End Sheet.

(** * Properties *)

(** ** The pipeline on the six sheets, stage by stage *)

(** The indexer of the merge of [l] and [r] on their [on] columns. *)
Definition indexer (l r : DataFrame) (on : list string)
  : list (nat * option nat) :=
  DF.left_indexer (DF.zip_rows (map (col l) on) (nrows l))
                  (DF.zip_rows (map (col r) on) (nrows r)).

Section Stages.

Import Sheet.

Variable x : Sheets.
(* the TypeCode column after the backfill *)
Variable tc : Series.

Definition fixed : Data :=
  mkData
    (mkDF (List.length (materials_rows x))
       [ ("MaterialReference", map m_MaterialReference (materials_rows x));
         ("ManufacturerID", map m_ManufacturerID (materials_rows x));
         ("ArticleNumber", map m_ArticleNumber (materials_rows x));
         ("TypeCode", tc);
         ("ShortText", map m_ShortText (materials_rows x)) ])
    (mkDF (List.length (plants_rows x))
       [ ("MaterialReference", map p_MaterialReference (plants_rows x));
         ("Plant", Series_.str_zfill 4
                     (Series_.astype_str (map p_Plant (plants_rows x))));
         ("Disposition", map p_Disposition (plants_rows x));
         ("ReporderPoint", map p_ReporderPoint (plants_rows x)) ])
    (mkDF (List.length (storage_rows x))
       [ ("MaterialReference", map st_MaterialReference (storage_rows x));
         ("Plant", Series_.str_zfill 4
                     (Series_.astype_str (map st_Plant (storage_rows x))));
         ("StorageLocation", map st_StorageLocation (storage_rows x));
         ("StorageBin", map st_StorageBin (storage_rows x));
         ("DeletedStorageLevel",
          Series_.replace (Str " ") (Str "ACTIVE")
            (map st_DeletedStorageLevel (storage_rows x))) ])
    (suppliers_frame (suppliers_rows x))
    (supplier_names_frame (supplier_names_rows x))
    (manufacturer_names_frame (manufacturer_names_rows x)).

(** The six tables as the merges see them. *)
Definition prepared : Data := clean_data fixed.

Definition idx1 := indexer (materials prepared) (manufacturer_names prepared)
                           ["ManufacturerID"].

Definition r1 : DataFrame :=
  let l := materials prepared in
  let r := manufacturer_names prepared in
  mkDF (List.length idx1)
    [ ("MaterialReference", DF.take_left idx1 (col l "MaterialReference"));
      ("ArticleNumber", DF.take_left idx1 (col l "ArticleNumber"));
      ("TypeCode", DF.take_left idx1 (col l "TypeCode"));
      ("ShortText", DF.take_left idx1 (col l "ShortText"));
      ("ManufacturerName", DF.take_right idx1 (col r "ManufacturerName")) ].

Definition idx2 := indexer r1 (plants prepared) ["MaterialReference"].

Definition r2 : DataFrame :=
  let r := plants prepared in
  mkDF (List.length idx2)
    [ ("MaterialReference", DF.take_left idx2 (col r1 "MaterialReference"));
      ("ArticleNumber", DF.take_left idx2 (col r1 "ArticleNumber"));
      ("TypeCode", DF.take_left idx2 (col r1 "TypeCode"));
      ("ShortText", DF.take_left idx2 (col r1 "ShortText"));
      ("ManufacturerName", DF.take_left idx2 (col r1 "ManufacturerName"));
      ("Plant", DF.take_right idx2 (col r "Plant"));
      ("Disposition", DF.take_right idx2 (col r "Disposition"));
      ("ReporderPoint", DF.take_right idx2 (col r "ReporderPoint")) ].

Definition idx3 := indexer r2 (suppliers prepared) ["MaterialReference"].

Definition r3 : DataFrame :=
  let r := suppliers prepared in
  mkDF (List.length idx3)
    [ ("MaterialReference", DF.take_left idx3 (col r2 "MaterialReference"));
      ("ArticleNumber", DF.take_left idx3 (col r2 "ArticleNumber"));
      ("TypeCode", DF.take_left idx3 (col r2 "TypeCode"));
      ("ShortText", DF.take_left idx3 (col r2 "ShortText"));
      ("ManufacturerName", DF.take_left idx3 (col r2 "ManufacturerName"));
      ("Plant", DF.take_left idx3 (col r2 "Plant"));
      ("Disposition", DF.take_left idx3 (col r2 "Disposition"));
      ("ReporderPoint", DF.take_left idx3 (col r2 "ReporderPoint"));
      ("SupplierID", DF.take_right idx3 (col r "SupplierID"));
      ("SupplierArticleNumber",
       DF.take_right idx3 (col r "SupplierArticleNumber")) ].

Definition idx4 := indexer r3 (supplier_names prepared) ["SupplierID"].

Definition r4 : DataFrame :=
  let r := supplier_names prepared in
  mkDF (List.length idx4)
    [ ("MaterialReference", DF.take_left idx4 (col r3 "MaterialReference"));
      ("ArticleNumber", DF.take_left idx4 (col r3 "ArticleNumber"));
      ("TypeCode", DF.take_left idx4 (col r3 "TypeCode"));
      ("ShortText", DF.take_left idx4 (col r3 "ShortText"));
      ("ManufacturerName", DF.take_left idx4 (col r3 "ManufacturerName"));
      ("Plant", DF.take_left idx4 (col r3 "Plant"));
      ("Disposition", DF.take_left idx4 (col r3 "Disposition"));
      ("ReporderPoint", DF.take_left idx4 (col r3 "ReporderPoint"));
      ("SupplierArticleNumber",
       DF.take_left idx4 (col r3 "SupplierArticleNumber"));
      ("SupplierName", DF.take_right idx4 (col r "SupplierName")) ].

Definition idx5 := indexer r4 (storage prepared) ["MaterialReference"; "Plant"].

Definition r5 : DataFrame :=
  let r := storage prepared in
  mkDF (List.length idx5)
    [ ("MaterialReference", DF.take_left idx5 (col r4 "MaterialReference"));
      ("ArticleNumber", DF.take_left idx5 (col r4 "ArticleNumber"));
      ("TypeCode", DF.take_left idx5 (col r4 "TypeCode"));
      ("ShortText", DF.take_left idx5 (col r4 "ShortText"));
      ("ManufacturerName", DF.take_left idx5 (col r4 "ManufacturerName"));
      ("Plant", DF.take_left idx5 (col r4 "Plant"));
      ("Disposition", DF.take_left idx5 (col r4 "Disposition"));
      ("ReporderPoint", DF.take_left idx5 (col r4 "ReporderPoint"));
      ("SupplierArticleNumber",
       DF.take_left idx5 (col r4 "SupplierArticleNumber"));
      ("SupplierName", DF.take_left idx5 (col r4 "SupplierName"));
      ("StorageLocation", DF.take_right idx5 (col r "StorageLocation"));
      ("StorageBin", DF.take_right idx5 (col r "StorageBin"));
      ("DeletedStorageLevel",
       DF.take_right idx5 (col r "DeletedStorageLevel")) ].

(** The exported table. *)
Definition exported : DataFrame :=
  mkDF (List.length idx5)
    (map (fun c => (c, Series_.fillna (Str "N/A") (col r5 c)))
         output_columns).

Lemma step1_sheets : step1 prepared = Ok r1.
Proof. reflexivity. Qed.

Lemma step2_sheets : step2 prepared r1 = Ok r2.
Proof. reflexivity. Qed.

Lemma step3_sheets : step3 prepared r2 = Ok r3.
Proof. reflexivity. Qed.

Lemma step4_sheets : step4 prepared r3 = Ok r4.
Proof. reflexivity. Qed.

Lemma step5_sheets : step5 prepared r4 = Ok r5.
Proof. reflexivity. Qed.

Lemma aggregate_sheets : aggregate prepared = Ok r5.
Proof.
  unfold aggregate.
  rewrite step1_sheets; cbn [bind].
  rewrite step2_sheets; cbn [bind].
  rewrite step3_sheets; cbn [bind].
  rewrite step4_sheets; cbn [bind].
  apply step5_sheets.
Qed.

Lemma reorder_sheets : reorder r5 = Ok (mkDF (List.length idx5)
    (map (fun c => (c, col r5 c)) output_columns)).
Proof. reflexivity. Qed.

End Stages.

(** ** Strings *)

Lemma lstrip_head (s : string) :
  Py.lstrip s = EmptyString \/
  exists c t, Py.lstrip s = String c t /\ Py.isspace c = false.
Proof.
  induction s as [|c s IH]; simpl.
  - now left.
  - destruct (Py.isspace c) eqn:E.
    + exact IH.
    + right. now exists c, s.
Qed.

Lemma rstrip_head (c : ascii) (s : string) :
  Py.isspace c = false -> exists t, Py.rstrip (String c s) = String c t.
Proof.
  intros E. simpl. destruct (Py.rstrip s).
  - rewrite E. now exists EmptyString.
  - now eexists.
Qed.

Lemma strip_head (s : string) :
  Py.strip s = EmptyString \/
  exists c t, Py.strip s = String c t /\ Py.isspace c = false.
Proof.
  unfold Py.strip.
  destruct (lstrip_head s) as [E | (c & t & E & Hc)]; rewrite E.
  - now left.
  - right. destruct (rstrip_head c t Hc) as (t' & Ht).
    now exists c, t'.
Qed.

(** What [strip] leaves is empty or is no blank. *)
Lemma strip_not_blank (s : string) :
  Py.strip s <> EmptyString -> Py.blank (Py.strip s) = false.
Proof.
  intros Hne.
  destruct (strip_head s) as [E | (c & t & E & Hc)]; [contradiction|].
  rewrite E. simpl. now rewrite Hc.
Qed.

Lemma length_zeros (n : nat) : String.length (Py.zeros n) = n.
Proof. induction n; simpl; congruence. Qed.

Lemma length_append (s t : string) :
  String.length (s ++ t) = String.length s + String.length t.
Proof. induction s; simpl; congruence. Qed.

(** [zfill] pads and never cuts. *)
Lemma length_zfill (w : nat) (s : string) :
  String.length (Py.zfill w s) = Nat.max w (String.length s).
Proof.
  unfold Py.zfill. destruct s as [|c s].
  - rewrite length_zeros. simpl. lia.
  - destruct (Py.is_sign c); simpl;
      rewrite length_append, length_zeros; simpl; lia.
Qed.

Lemma zfill_long (w : nat) (s : string) :
  w <= String.length s -> Py.zfill w s = s.
Proof.
  intros H. unfold Py.zfill.
  replace (w - String.length s) with 0 by lia.
  destruct s as [|c s]; [reflexivity|].
  now destruct (Py.is_sign c).
Qed.

Lemma drop_append (p s : string) : Py.drop (String.length p) (p ++ s) = s.
Proof. induction p; simpl; auto. Qed.

(** [s[-2:]] is the last two characters of a string that has them. *)
Lemma slice_last_two (p : string) (a b : ascii) :
  Py.slice_last 2 (p ++ String a (String b EmptyString))
  = String a (String b EmptyString).
Proof.
  unfold Py.slice_last. rewrite length_append. simpl.
  replace (String.length p + 2 - 2) with (String.length p) by lia.
  apply drop_append.
Qed.

(** ** The cleaning loop, cell by cell *)

(** What the three assignments of the loop body make of one cell of a text
    column. *)
Definition clean_cell (c : cell) : cell :=
  let s := Py.strip (py_str c) in
  if String.eqb s "" then NA
  else if String.eqb s "nan" then NA
  else Str s.

Lemma clean_column_object (v : Series) :
  dtype_of v = object -> clean_column v = map clean_cell v.
Proof.
  intros H. unfold clean_column. rewrite H. simpl.
  unfold Series_.replace, Series_.str_strip, Series_.str_map,
    Series_.astype_str.
  rewrite !map_map. apply map_ext. intros c. unfold clean_cell.
  simpl. destruct (String.eqb (Py.strip (py_str c)) "") eqn:E1; simpl.
  - reflexivity.
  - now destruct (String.eqb (Py.strip (py_str c)) "nan").
Qed.

Lemma dtype_of_numeric (v : Series) :
  dtype_of v <> object -> Forall (fun c => is_str c = false) v.
Proof.
  unfold dtype_of. destruct v as [|a v]; [congruence|].
  destruct (forallb is_int (a :: v)) eqn:Ei.
  - intros _. rewrite forallb_forall in Ei. apply Forall_forall.
    intros c Hc. specialize (Ei c Hc). now destruct c.
  - destruct (forallb is_float (a :: v)) eqn:Ef; [|congruence].
    intros _. rewrite forallb_forall in Ef. apply Forall_forall.
    intros c Hc. specialize (Ef c Hc). now destruct c.
Qed.

Lemma dtype_object_dec (v : Series) :
  {dtype_of v = object} + {dtype_of v <> object}.
Proof. destruct (dtype_of v); (now left) || (right; discriminate). Qed.

Lemma clean_column_numeric (v : Series) :
  dtype_of v <> object -> clean_column v = v.
Proof.
  intros H. unfold clean_column. now destruct (dtype_of v).
Qed.

(** A column of strings is a text column. *)
Lemma dtype_of_strings (v : Series) :
  Forall (fun c => is_str c = true) v -> dtype_of v = object.
Proof.
  destruct v as [|a v]; [reflexivity|].
  intros H. inversion H as [|? ? Ha _]; subst.
  unfold dtype_of. destruct a; try discriminate. reflexivity.
Qed.

(** A column that holds one string is a text column. *)
Lemma dtype_of_has_str (v : Series) (s : string) :
  In (Str s) v -> dtype_of v = object.
Proof.
  intros H. destruct (dtype_object_dec v) as [E|E]; [exact E|].
  apply dtype_of_numeric in E. rewrite Forall_forall in E.
  now specialize (E _ H).
Qed.

(** No cell that passed the cleaning loop reads as a null. *)
Definition tidy (c : cell) : Prop :=
  match c with
  | Str s => s <> "" /\ s <> "nan" /\ Py.blank s = false
  | _ => True
  end.

Lemma clean_cell_tidy (c : cell) : tidy (clean_cell c).
Proof.
  unfold clean_cell.
  destruct (String.eqb (Py.strip (py_str c)) "") eqn:E1; simpl; [exact I|].
  destruct (String.eqb (Py.strip (py_str c)) "nan") eqn:E2; simpl; [exact I|].
  apply String.eqb_neq in E1. apply String.eqb_neq in E2.
  repeat split; auto. now apply strip_not_blank.
Qed.

Lemma clean_column_tidy (v : Series) : Forall tidy (clean_column v).
Proof.
  destruct (dtype_object_dec v) as [E|E].
  - rewrite (clean_column_object v E). apply Forall_forall.
    intros c Hc. apply in_map_iff in Hc. destruct Hc as (c0 & <- & _).
    apply clean_cell_tidy.
  - rewrite (clean_column_numeric v E).
    apply dtype_of_numeric in E.
    eapply Forall_impl; [|exact E]. intros c Hc. now destruct c.
Qed.

(** ** Left joins *)

Section LeftJoin.

Variable rk : list (list cell).

(** The rows that one left row gives. *)
Definition fan_out (p : nat * list cell) : list (nat * option nat) :=
  match DF.matches (snd p) rk with
  | [] => [(fst p, None)]
  | ms => map (fun j => (fst p, Some j)) ms
  end.

Lemma left_indexer_unfold (lk : list (list cell)) :
  DF.left_indexer lk rk
  = flat_map fan_out (combine (seq 0 (List.length lk)) lk).
Proof. reflexivity. Qed.

Lemma length_fan_out (p : nat * list cell) :
  List.length (fan_out p)
  = Nat.max 1 (List.length (DF.matches (snd p) rk)).
Proof.
  unfold fan_out. destruct (DF.matches (snd p) rk) as [|j ms] eqn:E.
  - reflexivity.
  - rewrite length_map. simpl. lia.
Qed.

Lemma length_flat_map_fan_out (a : nat) (lk : list (list cell)) :
  List.length (flat_map fan_out (combine (seq a (List.length lk)) lk))
  = list_sum (map (fun k => Nat.max 1 (List.length (DF.matches k rk))) lk).
Proof.
  revert a. induction lk as [|k lk IH]; intros a; simpl.
  - reflexivity.
  - rewrite length_app, length_fan_out, IH. reflexivity.
Qed.

Lemma length_left_indexer (lk : list (list cell)) :
  List.length (DF.left_indexer lk rk)
  = list_sum (map (fun k => Nat.max 1 (List.length (DF.matches k rk))) lk).
Proof. apply length_flat_map_fan_out. Qed.

Lemma list_sum_ge_length (f : list cell -> nat) (lk : list (list cell)) :
  (forall k, 1 <= f k) -> List.length lk <= list_sum (map f lk).
Proof.
  intros Hf. induction lk as [|k lk IH]; simpl.
  - lia.
  - specialize (Hf k). lia.
Qed.

(** A left join keeps every left row. *)
Lemma left_indexer_ge (lk : list (list cell)) :
  List.length lk <= List.length (DF.left_indexer lk rk).
Proof.
  rewrite length_left_indexer. apply list_sum_ge_length. intros k. lia.
Qed.

(** It adds rows exactly when a left row matches several right rows. *)
Lemma left_indexer_eq_iff (lk : list (list cell)) :
  List.length (DF.left_indexer lk rk) = List.length lk <->
  Forall (fun k => List.length (DF.matches k rk) <= 1) lk.
Proof.
  rewrite length_left_indexer.
  induction lk as [|k lk IH]; cbn [map list_sum fold_right List.length].
  - split; auto.
  - pose proof (list_sum_ge_length
                  (fun k => Nat.max 1 (List.length (DF.matches k rk))) lk
                  (fun k => Nat.le_max_l _ _)) as Hge.
    unfold list_sum in *.
    split.
    + intros H. constructor; [lia|]. apply IH. lia.
    + intros H. inversion H as [|? ? H1 H2]; subst.
      apply IH in H2. lia.
Qed.

Lemma in_combine_seq (a i : nat) (k : list cell) (lk : list (list cell)) :
  In (i, k) (combine (seq a (List.length lk)) lk) <->
  a <= i /\ nth_error lk (i - a) = Some k.
Proof.
  revert a. induction lk as [|k0 lk IH]; intros a; simpl.
  - split; [tauto|]. intros [_ H]. now destruct (i - a).
  - rewrite IH. split.
    + intros [H | [Ha H]].
      * inversion H; subst. split; [lia|].
        now replace (i - i) with 0 by lia.
      * split; [lia|].
        replace (i - a) with (S (i - S a)) by lia. exact H.
    + intros [Ha H]. destruct (i - a) as [|n] eqn:E.
      * left. inversion H; subst. f_equal. lia.
      * right. split; [lia|].
        now replace (i - S a) with n by lia.
Qed.

Lemma in_matches (k : list cell) (j : nat) :
  In j (DF.matches k rk) <->
  exists r, nth_error rk j = Some r /\ DF.keys_eqb k r = true.
Proof.
  unfold DF.matches. rewrite in_map_iff. split.
  - intros ((j' & r) & Hj & Hin). simpl in Hj. subst j'.
    apply filter_In in Hin. destruct Hin as [Hin Hk]. simpl in Hk.
    apply in_combine_seq in Hin. destruct Hin as [_ Hin].
    rewrite Nat.sub_0_r in Hin. now exists r.
  - intros (r & Hr & Hk). exists (j, r). split; [reflexivity|].
    apply filter_In. split; [|exact Hk].
    apply in_combine_seq. rewrite Nat.sub_0_r. split; [lia|exact Hr].
Qed.

(** Where the rows of the join come from. *)
Lemma in_left_indexer (lk : list (list cell)) (i : nat) (oj : option nat) :
  In (i, oj) (DF.left_indexer lk rk) <->
  exists k, nth_error lk i = Some k /\
            match oj with
            | Some j => In j (DF.matches k rk)
            | None => DF.matches k rk = []
            end.
Proof.
  rewrite left_indexer_unfold, in_flat_map. split.
  - intros ((i' & k) & Hin & Hfan).
    apply in_combine_seq in Hin. rewrite Nat.sub_0_r in Hin.
    destruct Hin as [_ Hin]. unfold fan_out in Hfan.
    cbn [fst snd] in Hfan.
    destruct (DF.matches k rk) as [|j0 ms] eqn:E.
    + destruct Hfan as [Hfan|[]]. inversion Hfan; subst. now exists k.
    + change (In (i, oj) (map (fun j => (i', Some j)) (j0 :: ms))) in Hfan.
      apply in_map_iff in Hfan. destruct Hfan as (j & Hj & Hjin).
      inversion Hj; subst. exists k. split; [exact Hin|].
      rewrite E. exact Hjin.
  - intros (k & Hk & Hoj). exists (i, k). split.
    + apply in_combine_seq. rewrite Nat.sub_0_r. split; [lia|exact Hk].
    + unfold fan_out. cbn [fst snd]. destruct oj as [j|].
      * destruct (DF.matches k rk) as [|j0 ms] eqn:E; [contradiction|].
        apply in_map_iff. now exists j.
      * rewrite Hoj. now left.
Qed.

(** Every left row is in the join. *)
Lemma left_indexer_cover (lk : list (list cell)) (i : nat) :
  i < List.length lk -> exists oj, In (i, oj) (DF.left_indexer lk rk).
Proof.
  intros Hi. destruct (nth_error lk i) as [k|] eqn:E.
  - destruct (DF.matches k rk) as [|j ms] eqn:Em.
    + exists None. apply in_left_indexer. exists k. now rewrite Em.
    + exists (Some j). apply in_left_indexer. exists k. rewrite Em.
      split; [exact E|now left].
  - apply nth_error_None in E. lia.
Qed.

Lemma left_indexer_bound (lk : list (list cell)) (i : nat) (oj : option nat) :
  In (i, oj) (DF.left_indexer lk rk) -> i < List.length lk.
Proof.
  intros H. apply in_left_indexer in H. destruct H as (k & Hk & _).
  apply nth_error_Some. congruence.
Qed.

Lemma matches_nil (k : list cell) :
  (forall r, In r rk -> DF.keys_eqb k r = false) -> DF.matches k rk = [].
Proof.
  intros H. destruct (DF.matches k rk) as [|j ms] eqn:E; [reflexivity|].
  assert (Hin : In j (DF.matches k rk)) by (rewrite E; now left).
  apply in_matches in Hin. destruct Hin as (r & Hr & Hk).
  apply nth_error_In in Hr. rewrite (H r Hr) in Hk. discriminate.
Qed.

End LeftJoin.

Lemma length_zip_rows (ks : list Series) (n : nat) :
  List.length (DF.zip_rows ks n) = n.
Proof. unfold DF.zip_rows. now rewrite length_map, length_seq. Qed.

Lemma nth_error_zip_rows (ks : list Series) (n i : nat) :
  i < n ->
  nth_error (DF.zip_rows ks n) i = Some (map (fun v => nth i v NA) ks).
Proof.
  intros Hi. unfold DF.zip_rows. rewrite nth_error_map.
  rewrite nth_error_seq. rewrite (proj2 (Nat.ltb_lt i n) Hi). reflexivity.
Qed.

(** *** Gathering the cells *)

Lemma length_take_left (idx : list (nat * option nat)) (v : Series) :
  List.length (DF.take_left idx v) = List.length idx.
Proof. apply length_map. Qed.

Lemma length_take_right (idx : list (nat * option nat)) (v : Series) :
  List.length (DF.take_right idx v) = List.length idx.
Proof. apply length_map. Qed.

Lemma nth_default_In (v : Series) (i : nat) :
  nth i v NA = NA \/ In (nth i v NA) v.
Proof.
  destruct (Nat.lt_ge_cases i (List.length v)) as [H|H].
  - right. now apply nth_In.
  - left. now apply nth_overflow.
Qed.

(** A merged column holds cells of the column it comes from, and missing
    values. *)
Lemma in_take_left (idx : list (nat * option nat)) (v : Series) (c : cell) :
  In c (DF.take_left idx v) -> c = NA \/ In c v.
Proof.
  unfold DF.take_left. rewrite in_map_iff. intros (p & <- & _).
  apply nth_default_In.
Qed.

Lemma in_take_right (idx : list (nat * option nat)) (v : Series) (c : cell) :
  In c (DF.take_right idx v) -> c = NA \/ In c v.
Proof.
  unfold DF.take_right. rewrite in_map_iff. intros (p & <- & _).
  destruct (snd p); [apply nth_default_In | now left].
Qed.

Lemma Forall_take_left (P : cell -> Prop) idx (v : Series) :
  P NA -> Forall P v -> Forall P (DF.take_left idx v).
Proof.
  intros H0 Hv. apply Forall_forall. intros c Hc.
  apply in_take_left in Hc. destruct Hc as [-> | Hc]; [exact H0|].
  rewrite Forall_forall in Hv. now apply Hv.
Qed.

Lemma Forall_take_right (P : cell -> Prop) idx (v : Series) :
  P NA -> Forall P v -> Forall P (DF.take_right idx v).
Proof.
  intros H0 Hv. apply Forall_forall. intros c Hc.
  apply in_take_right in Hc. destruct Hc as [-> | Hc]; [exact H0|].
  rewrite Forall_forall in Hv. now apply Hv.
Qed.

(** A left join loses no cell of a left column. *)
Lemma take_left_keeps (lk rk : list (list cell)) (v : Series) (c : cell) :
  List.length v <= List.length lk ->
  In c v -> In c (DF.take_left (DF.left_indexer lk rk) v).
Proof.
  intros Hlen Hc. apply In_nth with (d := NA) in Hc.
  destruct Hc as (i & Hi & <-).
  destruct (left_indexer_cover rk lk i) as (oj & Hin); [lia|].
  unfold DF.take_left. apply in_map_iff. now exists (i, oj).
Qed.

(** ** What every stage keeps *)

(** Every cell of the frame satisfies [P]. *)
Definition all_cells (P : cell -> Prop) (df : DataFrame) : Prop :=
  forall n v, In (n, v) (cols df) -> Forall P v.

Lemma bind_ok {A B : Type} (m : result A) (k : A -> result B) (b : B) :
  bind m k = Ok b -> exists a, m = Ok a /\ k a = Ok b.
Proof. destruct m as [a|e]; simpl; [now exists a | discriminate]. Qed.

(** The shape of a merge that succeeds. *)
Lemma merge_ok (l r : DataFrame) (on : list string) (m : DataFrame) :
  DF.merge l r on = Ok m ->
  exists lk rk,
    DF.key_rows l on = Ok lk /\ DF.key_rows r on = Ok rk /\
    List.length lk = nrows l /\
    nrows m = List.length (DF.left_indexer lk rk) /\
    forall n v, In (n, v) (cols m) ->
      (exists v0, v = DF.take_left (DF.left_indexer lk rk) v0 /\
                  exists n0, In (n0, v0) (cols l))
      \/ (exists v0, v = DF.take_right (DF.left_indexer lk rk) v0 /\
                     exists n0, In (n0, v0) (cols r)).
Proof.
  unfold DF.merge. intros H.
  apply bind_ok in H. destruct H as (rk & Hrk & H).
  apply bind_ok in H. destruct H as (lk & Hlk & H).
  exists lk, rk. split; [exact Hlk|]. split; [exact Hrk|].
  split.
  { unfold DF.key_rows in Hlk. apply bind_ok in Hlk.
    destruct Hlk as (ks & _ & Hlk). inversion Hlk. apply length_zip_rows. }
  match type of H with (if ?b then _ else _) = _ => destruct b end;
    [discriminate|].
  inversion H; subst m; clear H. simpl. split; [reflexivity|].
  intros n v Hin. apply in_app_or in Hin. destruct Hin as [Hin|Hin].
  - left. apply in_map_iff in Hin. destruct Hin as ((n0 & v0) & Heq & Hin).
    inversion Heq; subst. exists v0. split; [reflexivity|]. now exists n0.
  - right. apply in_map_iff in Hin. destruct Hin as ((n0 & v0) & Heq & Hin).
    inversion Heq; subst. apply filter_In in Hin. destruct Hin as [Hin _].
    exists v0. split; [reflexivity|]. now exists n0.
Qed.

Lemma key_rows_col (df : DataFrame) (on : list string) (lk : list (list cell)) :
  DF.key_rows df on = Ok lk ->
  lk = DF.zip_rows (map (col df) on) (nrows df).
Proof.
  unfold DF.key_rows. intros H.
  apply bind_ok in H. destruct H as (ks & Hks & H). inversion H. f_equal.
  clear H H1. revert ks Hks. induction on as [|c on IH]; simpl; intros ks Hks.
  - now inversion Hks.
  - apply bind_ok in Hks. destruct Hks as (v & Hv & Hks).
    apply bind_ok in Hks. destruct Hks as (vs & Hvs & Hks).
    inversion Hks. rewrite (IH vs Hvs). f_equal.
    unfold DF.getitem in Hv. unfold col.
    destruct (DF.lookup c (cols df)); now inversion Hv.
Qed.

(** The rows of a merge that succeeds are those of [indexer]. *)
Lemma merge_indexer (l r : DataFrame) (on : list string) (m : DataFrame) :
  DF.merge l r on = Ok m -> nrows m = List.length (indexer l r on).
Proof.
  intros H. apply merge_ok in H.
  destruct H as (lk & rk & Hlk & Hrk & _ & Hn & _).
  apply key_rows_col in Hlk. apply key_rows_col in Hrk.
  unfold indexer. now rewrite Hn, Hlk, Hrk.
Qed.

Lemma merge_all_cells (P : cell -> Prop) (l r m : DataFrame) on :
  P NA -> all_cells P l -> all_cells P r ->
  DF.merge l r on = Ok m -> all_cells P m.
Proof.
  intros H0 Hl Hr Hm. apply merge_ok in Hm.
  destruct Hm as (lk & rk & _ & _ & _ & _ & Hcols).
  intros n v Hin. destruct (Hcols n v Hin) as [(v0 & -> & n0 & Hv0) | (v0 & -> & n0 & Hv0)].
  - apply Forall_take_left; [exact H0 | now apply (Hl n0)].
  - apply Forall_take_right; [exact H0 | now apply (Hr n0)].
Qed.

Lemma merge_nrows (l r m : DataFrame) on :
  DF.merge l r on = Ok m -> nrows l <= nrows m.
Proof.
  intros Hm. apply merge_ok in Hm.
  destruct Hm as (lk & rk & _ & _ & Hlen & Hn & _).
  rewrite Hn, <- Hlen. apply left_indexer_ge.
Qed.

Lemma drop_column_ok (df : DataFrame) (c : string) (df' : DataFrame) :
  DF.drop_column df c = Ok df' ->
  nrows df' = nrows df /\
  cols df' = filter (fun p => negb (String.eqb (fst p) c)) (cols df).
Proof.
  unfold DF.drop_column. destruct (mem c (DF.columns df)); [|discriminate].
  intros H. inversion H. now split.
Qed.

Lemma drop_column_all_cells (P : cell -> Prop) (df df' : DataFrame) c :
  all_cells P df -> DF.drop_column df c = Ok df' -> all_cells P df'.
Proof.
  intros Hdf H. apply drop_column_ok in H. destruct H as [_ Hc].
  intros n v Hin. rewrite Hc in Hin. apply filter_In in Hin.
  now apply (Hdf n).
Qed.

Lemma mapM_ok {A B : Type} (f : A -> result B) (l : list A) (bs : list B) :
  mapM f l = Ok bs -> Forall2 (fun a b => f a = Ok b) l bs.
Proof.
  revert bs. induction l as [|a l IH]; simpl; intros bs H.
  - inversion H. constructor.
  - apply bind_ok in H. destruct H as (b & Hb & H).
    apply bind_ok in H. destruct H as (bs' & Hbs & H).
    inversion H; subst. constructor; auto.
Qed.

Lemma getitem_list_ok (df : DataFrame) (names : list string) df' :
  DF.getitem_list df names = Ok df' ->
  nrows df' = nrows df /\
  forall n v, In (n, v) (cols df') -> In (n, v) (cols df) /\ In n names.
Proof.
  unfold DF.getitem_list. intros H.
  apply bind_ok in H. destruct H as (cs & Hcs & H).
  inversion H; subst df'; clear H. simpl. split; [reflexivity|].
  intros n v Hin. apply in_concat in Hin. destruct Hin as (l & Hl & Hin).
  apply mapM_ok in Hcs.
  revert Hl. induction Hcs as [|c l0 names' cs' Hc _ IH]; intros Hl.
  - destruct Hl.
  - destruct Hl as [->|Hl].
    + destruct (filter (fun p => String.eqb (fst p) c) (cols df)) eqn:E;
        [discriminate|].
      inversion Hc; subst l. rewrite <- E in Hin.
      apply filter_In in Hin. destruct Hin as [Hin Hn]. simpl in Hn.
      apply String.eqb_eq in Hn. subst. split; [exact Hin | now left].
    + destruct (IH Hl) as [H1 H2]. split; [exact H1 | now right].
Qed.

Lemma clean_all_tidy (df : DataFrame) : all_cells tidy (clean df).
Proof.
  intros n v Hin. unfold clean in Hin. simpl in Hin.
  apply in_map_iff in Hin. destruct Hin as ((n0 & v0) & Heq & _).
  inversion Heq; subst. apply clean_column_tidy.
Qed.

Lemma prepare_ok (d d' : Data) :
  prepare d = Ok d' ->
  exists d3, d' = clean_data d3 /\ nrows (materials d3) = nrows (materials d).
Proof.
  unfold prepare. intros H.
  apply bind_ok in H. destruct H as (d1 & H1 & H).
  apply bind_ok in H. destruct H as (d2 & H2 & H).
  apply bind_ok in H. destruct H as (d3 & H3 & H).
  inversion H; subst d'; clear H. exists d3. split; [reflexivity|].
  unfold replace_deleted in H1. apply bind_ok in H1.
  destruct H1 as (v1 & _ & H1). inversion H1; subst d1; clear H1.
  unfold fill_typecode in H2. apply bind_ok in H2.
  destruct H2 as (v2 & _ & H2). inversion H2; subst d2; clear H2.
  unfold pad_plants in H3. apply bind_ok in H3.
  destruct H3 as (p & _ & H3). apply bind_ok in H3.
  destruct H3 as (s & _ & H3). inversion H3; subst d3; clear H3.
  reflexivity.
Qed.

Lemma aggregate_ok (d : Data) (r5 : DataFrame) :
  aggregate d = Ok r5 ->
  exists r1 r2 r3 r4,
    step1 d = Ok r1 /\ step2 d r1 = Ok r2 /\ step3 d r2 = Ok r3 /\
    step4 d r3 = Ok r4 /\ step5 d r4 = Ok r5.
Proof.
  unfold aggregate. intros H.
  apply bind_ok in H. destruct H as (r1 & H1 & H).
  apply bind_ok in H. destruct H as (r2 & H2 & H).
  apply bind_ok in H. destruct H as (r3 & H3 & H).
  apply bind_ok in H. destruct H as (r4 & H4 & H).
  now exists r1, r2, r3, r4.
Qed.

Lemma pipeline_ok (d : Data) (out : DataFrame) :
  pipeline d = Ok out ->
  exists d' r5 r,
    prepare d = Ok d' /\ aggregate d' = Ok r5 /\ reorder r5 = Ok r /\
    out = fill_na r.
Proof.
  unfold pipeline. intros H.
  apply bind_ok in H. destruct H as (d' & H1 & H).
  apply bind_ok in H. destruct H as (r5 & H2 & H).
  apply bind_ok in H. destruct H as (r & H3 & H).
  inversion H. now exists d', r5, r.
Qed.

Lemma aggregate_all_tidy (d : Data) (r5 : DataFrame) :
  aggregate (clean_data d) = Ok r5 -> all_cells tidy r5.
Proof.
  intros H. apply aggregate_ok in H.
  destruct H as (r1 & r2 & r3 & r4 & H1 & H2 & H3 & H4 & H5).
  unfold step1 in H1. apply bind_ok in H1. destruct H1 as (m1 & Hm1 & H1).
  unfold step4 in H4. apply bind_ok in H4. destruct H4 as (m4 & Hm4 & H4).
  unfold step2 in H2. unfold step3 in H3. unfold step5 in H5.
  simpl in Hm1, H2, H3, Hm4, H5.
  assert (T1 : all_cells tidy r1).
  { eapply drop_column_all_cells; [|exact H1].
    eapply merge_all_cells; [exact I| | |exact Hm1]; apply clean_all_tidy. }
  assert (T2 : all_cells tidy r2).
  { eapply merge_all_cells; [exact I|exact T1| |exact H2]. apply clean_all_tidy. }
  assert (T3 : all_cells tidy r3).
  { eapply merge_all_cells; [exact I|exact T2| |exact H3]. apply clean_all_tidy. }
  assert (T4 : all_cells tidy r4).
  { eapply drop_column_all_cells; [|exact H4].
    eapply merge_all_cells; [exact I|exact T3| |exact Hm4]. apply clean_all_tidy. }
  eapply merge_all_cells; [exact I|exact T4| |exact H5]. apply clean_all_tidy.
Qed.

(** ** Nulls in the export *)

(** C3: the export is the joined and reordered table with every null cell
    replaced by the string N/A and every other cell as it was; no cell of
    the export is null, the empty string, the string nan or a string of
    white space only. *)
Theorem nulls_render_as_NA (d : Data) (out : DataFrame) :
  pipeline d = Ok out ->
  exists d' r5 r,
    prepare d = Ok d' /\ aggregate d' = Ok r5 /\ reorder r5 = Ok r /\
    nrows out = nrows r /\
    cols out
    = map (fun p => (fst p, map (fun c => match c with
                                          | NA => Str "N/A"
                                          | _ => c
                                          end) (snd p))) (cols r) /\
    forall n v c, In (n, v) (cols out) -> In c v ->
      c <> NA /\ c <> Str "" /\ c <> Str "nan" /\
      forall s, c = Str s -> Py.blank s = false.
Proof.
  intros H. apply pipeline_ok in H.
  destruct H as (d' & r5 & r & Hp & Ha & Hr & ->).
  exists d', r5, r. repeat (split; [assumption || reflexivity|]).
  split.
  { unfold fill_na, DF.fillna, Series_.fillna. simpl.
    apply map_ext. intros [n v]. simpl. f_equal.
    apply map_ext. intros c. now destruct c. }
  destruct (prepare_ok d d' Hp) as (d3 & -> & _).
  apply aggregate_all_tidy in Ha.
  apply getitem_list_ok in Hr. destruct Hr as [_ Hr].
  intros n v c Hin Hc. unfold fill_na, DF.fillna in Hin. simpl in Hin.
  apply in_map_iff in Hin. destruct Hin as ((n0 & v0) & Heq & Hin).
  inversion Heq; subst; clear Heq. simpl in Hc.
  apply Hr in Hin. destruct Hin as [Hin _].
  apply Ha in Hin. rewrite Forall_forall in Hin.
  unfold Series_.fillna in Hc. apply in_map_iff in Hc.
  destruct Hc as (c0 & <- & Hc0). specialize (Hin c0 Hc0).
  destruct c0 as [|s|z|z]; simpl in *.
  - repeat split; try discriminate. intros s Hs. now inversion Hs.
  - destruct Hin as (H1 & H2 & H3).
    repeat split; congruence.
  - repeat split; discriminate.
  - repeat split; discriminate.
Qed.

(** ** Row counts *)

(** Every left row of the join has at most one matching right row. *)
Definition single_match (l r : DataFrame) (on : list string) : Prop :=
  forall lk rk,
    DF.key_rows l on = Ok lk -> DF.key_rows r on = Ok rk ->
    Forall (fun k => List.length (DF.matches k rk) <= 1) lk.

Lemma merge_rows (l r m : DataFrame) (on : list string) :
  DF.merge l r on = Ok m ->
  nrows l <= nrows m /\ (nrows m = nrows l <-> single_match l r on).
Proof.
  intros Hm. split; [now apply merge_nrows in Hm|].
  apply merge_ok in Hm.
  destruct Hm as (lk & rk & Hlk & Hrk & Hlen & Hn & _).
  rewrite Hn, <- Hlen, left_indexer_eq_iff. split.
  - intros H lk' rk' Hlk' Hrk'.
    rewrite Hlk in Hlk'. rewrite Hrk in Hrk'.
    inversion Hlk'; inversion Hrk'; subst. exact H.
  - intros H. now apply H.
Qed.

(** C6: the export has at least as many rows as Materials, no join of the
    chain loses a row, and the export has exactly as many rows as Materials
    if and only if, in each of the five joins, every left row matches at
    most one right row. *)
Theorem row_count_of_export (d : Data) (out : DataFrame) :
  pipeline d = Ok out ->
  nrows (materials d) <= nrows out /\
  exists d' r1 r2 r3 r4 r5,
    prepare d = Ok d' /\
    step1 d' = Ok r1 /\ step2 d' r1 = Ok r2 /\ step3 d' r2 = Ok r3 /\
    step4 d' r3 = Ok r4 /\ step5 d' r4 = Ok r5 /\
    nrows (materials d) <= nrows r1 /\ nrows r1 <= nrows r2 /\
    nrows r2 <= nrows r3 /\ nrows r3 <= nrows r4 /\ nrows r4 <= nrows r5 /\
    nrows r5 = nrows out /\
    (nrows out = nrows (materials d) <->
     single_match (materials d') (manufacturer_names d') ["ManufacturerID"] /\
     single_match r1 (plants d') ["MaterialReference"] /\
     single_match r2 (suppliers d') ["MaterialReference"] /\
     single_match r3 (supplier_names d') ["SupplierID"] /\
     single_match r4 (storage d') ["MaterialReference"; "Plant"]).
Proof.
  intros H. apply pipeline_ok in H.
  destruct H as (d' & r5 & r & Hp & Ha & Hr & ->).
  apply aggregate_ok in Ha.
  destruct Ha as (r1 & r2 & r3 & r4 & H1 & H2 & H3 & H4 & H5).
  destruct (prepare_ok d d' Hp) as (d3 & Hd' & Hn0).
  assert (Hn0' : nrows (materials d') = nrows (materials d))
    by (subst d'; exact Hn0).
  pose proof H1 as S1. pose proof H4 as S4.
  unfold step1 in S1. apply bind_ok in S1. destruct S1 as (m1 & Hm1 & D1).
  unfold step4 in S4. apply bind_ok in S4. destruct S4 as (m4 & Hm4 & D4).
  apply drop_column_ok in D1. destruct D1 as [D1 _].
  apply drop_column_ok in D4. destruct D4 as [D4 _].
  destruct (merge_rows _ _ _ _ Hm1) as [L1 E1].
  destruct (merge_rows _ _ _ _ H2) as [L2 E2].
  destruct (merge_rows _ _ _ _ H3) as [L3 E3].
  destruct (merge_rows _ _ _ _ Hm4) as [L4 E4].
  destruct (merge_rows _ _ _ _ H5) as [L5 E5].
  apply getitem_list_ok in Hr. destruct Hr as [Hr _].
  assert (Hout : nrows (fill_na r) = nrows r5) by (simpl; exact Hr).
  rewrite Hout. split; [lia|].
  exists d', r1, r2, r3, r4, r5.
  repeat (split; [assumption || lia|]).
  rewrite <- E1, <- E2, <- E3, <- E4, <- E5. lia.
Qed.

(** ** The TypeCode backfill on the Materials sheet *)

Lemma mapM_seq_nth {A B : Type} (F : nat -> result B) (g : A -> result B)
      (l : list A) (a : nat) :
  (forall i x, nth_error l i = Some x -> F (a + i) = g x) ->
  mapM F (seq a (List.length l)) = mapM g l.
Proof.
  revert a. induction l as [|x l IH]; intros a H; simpl.
  - reflexivity.
  - rewrite <- (H 0 x eq_refl), Nat.add_0_r.
    rewrite (IH (S a)); [reflexivity|].
    intros i y Hy. rewrite <- (H (S i) y Hy). f_equal. lia.
Qed.

Lemma nth_map_some {A : Type} (f : A -> cell) (l : list A) (i : nat) (x : A) :
  nth_error l i = Some x -> nth i (map f l) NA = f x.
Proof.
  intros H. apply nth_error_nth. now rewrite nth_error_map, H.
Qed.

(** The row that [apply] hands to the lambda. *)
Definition material_row (m : Sheet.Material) : DF.row :=
  [ ("MaterialReference", Sheet.m_MaterialReference m);
    ("ManufacturerID", Sheet.m_ManufacturerID m);
    ("ArticleNumber", Sheet.m_ArticleNumber m);
    ("TypeCode", Sheet.m_TypeCode m);
    ("ShortText", Sheet.m_ShortText m) ].

Lemma iloc_materials (l : list Sheet.Material) (i : nat) (m : Sheet.Material) :
  nth_error l i = Some m ->
  DF.iloc (Sheet.materials_frame l) i = material_row m.
Proof.
  intros H. unfold DF.iloc, Sheet.materials_frame, material_row. simpl.
  now rewrite !(nth_map_some _ l i m H).
Qed.

Lemma apply_rows_materials (l : list Sheet.Material) :
  DF.apply_rows typecode_lambda (Sheet.materials_frame l)
  = mapM (fun m => typecode_lambda (material_row m)) l.
Proof.
  unfold DF.apply_rows.
  change (nrows (Sheet.materials_frame l)) with (List.length l).
  apply mapM_seq_nth. intros i m Hm. simpl. now rewrite (iloc_materials l i m Hm).
Qed.

(** The lambda on a Materials row, case by case. *)
Lemma typecode_lambda_row (m : Sheet.Material) :
  typecode_lambda (material_row m)
  = match Sheet.m_TypeCode m, Sheet.m_MaterialReference m with
    | NA, Str s => Ok (Str ("TC00000000" ++ Py.slice_last 2 s))
    | NA, _ => Raise (TypeError "object is not subscriptable")
    | tc, _ => Ok tc
    end.
Proof.
  destruct m as [mr mid art tc st]. unfold typecode_lambda, material_row.
  simpl. destruct tc; simpl; try reflexivity; now destruct mr.
Qed.

Lemma mapM_nth_error {A B : Type} (f : A -> result B) (l : list A)
      (bs : list B) (i : nat) (a : A) :
  mapM f l = Ok bs -> nth_error l i = Some a ->
  exists b, f a = Ok b /\ nth_error bs i = Some b.
Proof.
  intros H. apply mapM_ok in H. revert i.
  induction H as [|x b l' bs' Hx _ IH]; intros i Hi.
  - now destruct i.
  - destruct i as [|i]; simpl in *.
    + inversion Hi; subst. now exists b.
    + now apply IH.
Qed.

Lemma mapM_total {A B : Type} (f : A -> result B) (l : list A) :
  (forall a, In a l -> exists b, f a = Ok b) -> exists bs, mapM f l = Ok bs.
Proof.
  induction l as [|a l IH]; intros H; simpl.
  - now exists [].
  - destruct (H a (or_introl eq_refl)) as (b & Hb).
    destruct IH as (bs & Hbs); [intros; apply H; now right|].
    exists (b :: bs). now rewrite Hb, Hbs.
Qed.

Lemma mapM_raise {A B : Type} (f : A -> result B) (l : list A) (a : A) (e : exn) :
  In a l -> f a = Raise e -> exists e', mapM f l = Raise e'.
Proof.
  induction l as [|x l IH]; intros Hin Ha; simpl.
  - destruct Hin.
  - destruct (f x) as [b|e0] eqn:Ex; simpl; [|now exists e0].
    destruct Hin as [->|Hin]; [congruence|].
    destruct (IH Hin Ha) as (e' & He'). rewrite He'. now exists e'.
Qed.

Lemma length_mapM {A B : Type} (f : A -> result B) (l : list A) (bs : list B) :
  mapM f l = Ok bs -> List.length bs = List.length l.
Proof.
  intros H. apply mapM_ok in H. symmetry. eapply Forall2_length; eauto.
Qed.

(** The frames after the field fixes and the cleaning, and the export, for
    the six sheets. *)
Lemma prepare_sheets (x : Sheet.Sheets) :
  prepare (Sheet.frames x)
  = tc <- DF.apply_rows typecode_lambda
                        (Sheet.materials_frame (Sheet.materials_rows x)) ;;
    Ok (prepared x tc).
Proof.
  unfold prepare, replace_deleted, fill_typecode. simpl.
  destruct (DF.apply_rows typecode_lambda
              (Sheet.materials_frame (Sheet.materials_rows x))); reflexivity.
Qed.

Lemma pipeline_sheets (x : Sheet.Sheets) :
  pipeline (Sheet.frames x)
  = tc <- DF.apply_rows typecode_lambda
                        (Sheet.materials_frame (Sheet.materials_rows x)) ;;
    Ok (exported x tc).
Proof.
  unfold pipeline. rewrite prepare_sheets.
  destruct (DF.apply_rows typecode_lambda
              (Sheet.materials_frame (Sheet.materials_rows x))) as [tc|e];
    [|reflexivity].
  cbn [bind]. rewrite aggregate_sheets. cbn [bind].
  rewrite reorder_sheets. reflexivity.
Qed.

(** C4: the backfill gives every Materials row with a missing TypeCode the
    string TC00000000 followed by the last two characters of its
    MaterialReference, and leaves the TypeCode of every other row as it
    is. *)
Theorem typecode_backfill (d d' : Data) (l : list Sheet.Material) :
  materials d = Sheet.materials_frame l ->
  fill_typecode d = Ok d' ->
  forall i m, nth_error l i = Some m ->
    (Sheet.m_TypeCode m <> NA ->
     nth_error (col (materials d') "TypeCode") i = Some (Sheet.m_TypeCode m))
    /\
    (Sheet.m_TypeCode m = NA ->
     (exists s, Sheet.m_MaterialReference m = Str s /\
                nth_error (col (materials d') "TypeCode") i
                = Some (Str ("TC00000000" ++ Py.slice_last 2 s))) /\
     forall p a b,
       Sheet.m_MaterialReference m
       = Str (p ++ String a (String b EmptyString)) ->
       nth_error (col (materials d') "TypeCode") i
       = Some (Str ("TC00000000" ++ String a (String b EmptyString)))).
Proof.
  intros Hm H i m Hi. unfold fill_typecode in H. rewrite Hm in H.
  rewrite apply_rows_materials in H.
  apply bind_ok in H. destruct H as (v & Hv & H).
  inversion H; subst d'; clear H.
  assert (Hcol : col (DF.setitem (Sheet.materials_frame l) "TypeCode" v)
                     "TypeCode" = v) by reflexivity.
  cbn [materials]. rewrite Hcol.
  destruct (mapM_nth_error _ l v i m Hv Hi) as (b & Hb & Hnth).
  rewrite typecode_lambda_row in Hb. rewrite Hnth. split.
  - intros Hne. destruct (Sheet.m_TypeCode m); congruence.
  - intros Hna. rewrite Hna in Hb.
    destruct (Sheet.m_MaterialReference m) as [|s|z|z] eqn:Emr;
      try discriminate.
    inversion Hb; subst b. split.
    + now exists s.
    + intros p a c Hs. inversion Hs; subst s.
      now rewrite slice_last_two.
Qed.

Definition backfill_example : Sheet.Sheets :=
  Sheet.mkSheets
    [ Sheet.mkMaterial (Str "ABC123XY") (Str "MF1") NA NA (Str "bolt");
      Sheet.mkMaterial (Str "M2") (Str "MF1") NA (Str "T7") NA ]
    [] [] [] [] [].

Lemma typecode_backfill_witness :
  exists d',
    fill_typecode (Sheet.frames backfill_example) = Ok d' /\
    nth_error (col (materials d') "TypeCode") 0 = Some (Str "TC00000000XY").
Proof.
  eexists. split; [reflexivity|].
  apply (proj2 (proj2 (typecode_backfill
                         (Sheet.frames backfill_example) _
                         (Sheet.materials_rows backfill_example)
                         eq_refl eq_refl 0 _ eq_refl) eq_refl)
         "ABC123" "X"%char "Y"%char eq_refl).
Defined.

(** ** Failures *)

Definition subscript_error : exn := TypeError "object is not subscriptable".

Lemma backfill_result (l : list Sheet.Material) :
  (exists v, mapM (fun m => typecode_lambda (material_row m)) l = Ok v) \/
  mapM (fun m => typecode_lambda (material_row m)) l = Raise subscript_error.
Proof.
  induction l as [|m l IH]; simpl.
  - left. now exists [].
  - rewrite typecode_lambda_row.
    destruct (Sheet.m_TypeCode m) as [|s|z|z]; simpl;
      try (destruct IH as [(v & ->) | ->]; simpl;
           [left; eexists; reflexivity | now right]).
    destruct (Sheet.m_MaterialReference m); simpl; try (now right);
      destruct IH as [(v & ->) | ->]; simpl;
      [left; eexists; reflexivity | now right].
Qed.

Lemma backfill_raises (l : list Sheet.Material) (m : Sheet.Material) :
  In m l -> Sheet.m_TypeCode m = NA ->
  (forall s, Sheet.m_MaterialReference m <> Str s) ->
  mapM (fun m => typecode_lambda (material_row m)) l = Raise subscript_error.
Proof.
  intros Hin Htc Hmr.
  destruct (backfill_result l) as [(v & Hv) | H]; [|exact H].
  apply In_nth_error in Hin. destruct Hin as (i & Hi).
  destruct (mapM_nth_error _ l v i m Hv Hi) as (b & Hb & _).
  rewrite typecode_lambda_row, Htc in Hb.
  destruct (Sheet.m_MaterialReference m) as [|s|z|z]; try discriminate.
  now elim (Hmr s).
Qed.

Lemma backfill_total (l : list Sheet.Material) :
  (forall m, In m l -> Sheet.m_TypeCode m = NA ->
             exists s, Sheet.m_MaterialReference m = Str s) ->
  exists v, mapM (fun m => typecode_lambda (material_row m)) l = Ok v.
Proof.
  intros H. apply mapM_total. intros m Hm. rewrite typecode_lambda_row.
  destruct (Sheet.m_TypeCode m) as [|s|z|z] eqn:E; try (eexists; reflexivity).
  destruct (H m Hm E) as (s & ->). eexists; reflexivity.
Qed.

(** The six reads of the dict literal. *)
Definition sources : list (string * string) :=
  [ ("materials.xlsx", "materials"); ("plants.xlsx", "plants");
    ("storage.xlsx", "storage"); ("suppliers.xlsx", "suppliers");
    ("supplier-names.xlsx", "supplier-names");
    ("manufacturer-names.xlsx", "manufacturer-names") ].

(** The six tables load together or not at all. *)
Lemma read_all_loaded (w : World) (d : Data) :
  read_all w = Loaded d ->
  forall f s, In (f, s) sources -> exists df, read_excel w f s = Loaded df.
Proof.
  unfold read_all, sources. intros H f s Hin.
  destruct (read_excel w "materials.xlsx" "materials") as [m| |] eqn:E1;
    try discriminate.
  destruct (read_excel w "plants.xlsx" "plants") as [p| |] eqn:E2;
    try discriminate.
  destruct (read_excel w "storage.xlsx" "storage") as [st| |] eqn:E3;
    try discriminate.
  destruct (read_excel w "suppliers.xlsx" "suppliers") as [su| |] eqn:E4;
    try discriminate.
  destruct (read_excel w "supplier-names.xlsx" "supplier-names")
    as [sn| |] eqn:E5; try discriminate.
  destruct (read_excel w "manufacturer-names.xlsx" "manufacturer-names")
    as [mn| |] eqn:E6; try discriminate.
  simpl in Hin.
  repeat (destruct Hin as [Hin|Hin];
          [inversion Hin; subst; eexists; eassumption|]).
  destruct Hin.
Qed.

(** C7: when one of the six spreadsheets is missing or does not load, the
    run logs the error, prints it, and exits with status 1; nothing but the
    start of the loading is in the log, no transformation has run and no
    result file is written. *)
Theorem load_failure_is_fatal (w : World) :
  (exists f s, In (f, s) sources /\ forall df, read_excel w f s <> Loaded df) ->
  exists e msg,
    (read_all w = FileNotFoundError e /\ msg = ("File not found: " ++ e)%string
     \/ read_all w = OtherError e
        /\ msg = ("An unexpected error occurred: " ++ e)%string) /\
    run w
    = (Exit 1,
       mkEff [ (INFO, rule); (INFO, "Starting data loading process...");
               (ERROR, msg) ]
             [ "Logging configured - output will be written to log.txt";
               ("Error: " ++ e)%string ]
             None) /\
    exit_status (fst (run w)) <> 0%Z /\
    ~ In (INFO, "Applying transformations...") (log (snd (run w))) /\
    result_xlsx (snd (run w)) = None.
Proof.
  intros (f & s & Hin & Hfail).
  destruct (read_all w) as [d|e|e] eqn:E.
  - destruct (read_all_loaded w d E f s Hin) as (df & Hdf).
    now elim (Hfail df).
  - exists e, ("File not found: " ++ e)%string.
    assert (R : run w
                = (Exit 1,
                   mkEff [ (INFO, rule);
                           (INFO, "Starting data loading process...");
                           (ERROR, ("File not found: " ++ e)%string) ]
                         [ "Logging configured - output will be written to log.txt";
                           ("Error: " ++ e)%string ]
                         None)).
    { unfold run, main, load_data. rewrite E. reflexivity. }
    rewrite R. split; [now left|]. split; [reflexivity|].
    split; [discriminate|]. split; [|reflexivity].
    simpl. intros [H|[H|[H|[]]]]; discriminate.
  - exists e, ("An unexpected error occurred: " ++ e)%string.
    assert (R : run w
                = (Exit 1,
                   mkEff [ (INFO, rule);
                           (INFO, "Starting data loading process...");
                           (ERROR, ("An unexpected error occurred: " ++ e)%string) ]
                         [ "Logging configured - output will be written to log.txt";
                           ("Error: " ++ e)%string ]
                         None)).
    { unfold run, main, load_data. rewrite E. reflexivity. }
    rewrite R. split; [now right|]. split; [reflexivity|].
    split; [discriminate|]. split; [|reflexivity].
    simpl. intros [H|[H|[H|[]]]]; discriminate.
Qed.

(** A world where [storage.xlsx] is missing and every other file holds an
    empty sheet. *)
Definition world_without_storage : World :=
  mkWorld (fun f _ => if String.eqb f "storage.xlsx"
                      then FileNotFoundError "No such file: 'storage.xlsx'"
                      else Loaded (mkDF 0 []))
          None.

Lemma load_failure_is_fatal_witness :
  exists e msg,
    (read_all world_without_storage = FileNotFoundError e
     /\ msg = ("File not found: " ++ e)%string
     \/ read_all world_without_storage = OtherError e
        /\ msg = ("An unexpected error occurred: " ++ e)%string) /\
    run world_without_storage
    = (Exit 1,
       mkEff [ (INFO, rule); (INFO, "Starting data loading process...");
               (ERROR, msg) ]
             [ "Logging configured - output will be written to log.txt";
               ("Error: " ++ e)%string ]
             None) /\
    exit_status (fst (run world_without_storage)) <> 0%Z /\
    ~ In (INFO, "Applying transformations...")
         (log (snd (run world_without_storage))) /\
    result_xlsx (snd (run world_without_storage)) = None.
Proof.
  apply (load_failure_is_fatal world_without_storage).
  exists "storage.xlsx", "storage". split.
  - simpl. right. right. now left.
  - intros df. discriminate.
Defined.

Lemma fill_typecode_sheets (d : Data) (l : list Sheet.Material) :
  materials d = Sheet.materials_frame l ->
  fill_typecode d
  = v <- mapM (fun m => typecode_lambda (material_row m)) l ;;
    Ok (mkData (DF.setitem (materials d) "TypeCode" v) (plants d) (storage d)
               (suppliers d) (supplier_names d) (manufacturer_names d)).
Proof.
  intros H. unfold fill_typecode. now rewrite H, apply_rows_materials.
Qed.

(** The run when the backfill raises: the traceback ends it in the middle of
    the transformations. *)
Lemma run_backfill_raises (w : World) (x : Sheet.Sheets) (e : exn) :
  read_all w = Loaded (Sheet.frames x) ->
  fill_typecode (Sheet.frames x) = Raise e ->
  run w
  = (Uncaught e,
     mkEff [ (INFO, rule); (INFO, "Starting data loading process...");
             (INFO, "All files loaded successfully"); (INFO, rule);
             (INFO, rule); (INFO, "Applying transformations...");
             (INFO, "Replaced whitespace with 'ACTIVE' in DeletedStorageLevel") ]
           [ "Logging configured - output will be written to log.txt";
             "Data Quality Summary:";
             "Handling null values in TypeCode..." ]
           None).
Proof.
  intros Hload H.
  rewrite (fill_typecode_sheets (Sheet.frames x) (Sheet.materials_rows x)
                                eq_refl) in H.
  unfold run, main, load_data. rewrite Hload.
  unfold after_loading, transformations, seqP, logging, print, lift, ret,
    start, replace_deleted.
  cbn -[mapM fill_typecode].
  rewrite fill_typecode_sheets with (l := Sheet.materials_rows x)
    by reflexivity.
  destruct (mapM (fun m => typecode_lambda (material_row m))
                 (Sheet.materials_rows x)) as [v|e'].
  - discriminate.
  - simpl in H. inversion H. reflexivity.
Qed.

(** C9: the backfill returns only if every Materials row with a missing
    TypeCode has a string as MaterialReference, and on a sheet that has
    rows it does return then; with a row where both are missing the
    subscript raises a TypeError that nothing catches: the run ends with
    status 1, logs no error and writes no result file. *)
Theorem backfill_needs_reference (x : Sheet.Sheets) :
  ((exists d', fill_typecode (Sheet.frames x) = Ok d') ->
   forall m, In m (Sheet.materials_rows x) -> Sheet.m_TypeCode m = NA ->
             exists s, Sheet.m_MaterialReference m = Str s) /\
  (Sheet.materials_rows x <> [] ->
   (forall m, In m (Sheet.materials_rows x) -> Sheet.m_TypeCode m = NA ->
              exists s, Sheet.m_MaterialReference m = Str s) ->
   exists d', fill_typecode (Sheet.frames x) = Ok d') /\
  (forall m, In m (Sheet.materials_rows x) ->
             Sheet.m_TypeCode m = NA -> Sheet.m_MaterialReference m = NA ->
     fill_typecode (Sheet.frames x) = Raise subscript_error /\
     pipeline (Sheet.frames x) = Raise subscript_error /\
     forall w, read_all w = Loaded (Sheet.frames x) ->
       fst (run w) = Uncaught subscript_error /\
       exit_status (fst (run w)) = 1%Z /\
       Forall (fun p => fst p = INFO) (log (snd (run w))) /\
       result_xlsx (snd (run w)) = None).
Proof.
  pose proof (fill_typecode_sheets (Sheet.frames x) (Sheet.materials_rows x)
                                   eq_refl) as F.
  split; [|split].
  - intros (d' & Hd') m Hin Htc. rewrite F in Hd'.
    apply bind_ok in Hd'. destruct Hd' as (v & Hv & _).
    destruct (Sheet.m_MaterialReference m) as [|s|z|z] eqn:E;
      try (rewrite (backfill_raises _ m Hin Htc) in Hv;
           [discriminate | intros s; rewrite E; discriminate]).
    now exists s.
  - intros _ H. destruct (backfill_total _ H) as (v & Hv).
    rewrite F, Hv. eexists. reflexivity.
  - intros m Hin Htc Hmr.
    assert (R : fill_typecode (Sheet.frames x) = Raise subscript_error).
    { rewrite F, (backfill_raises _ m Hin Htc); [reflexivity|].
      intros s. rewrite Hmr. discriminate. }
    split; [exact R|]. split.
    { rewrite pipeline_sheets, apply_rows_materials.
      rewrite (backfill_raises _ m Hin Htc); [reflexivity|].
      intros s. rewrite Hmr. discriminate. }
    intros w Hw. rewrite (run_backfill_raises w x subscript_error Hw R).
    simpl. repeat split. repeat constructor.
Qed.

Definition both_missing_example : Sheet.Sheets :=
  Sheet.mkSheets
    [ Sheet.mkMaterial (Str "M1") (Str "MF1") NA (Str "T1") NA;
      Sheet.mkMaterial NA (Str "MF1") NA NA NA ]
    [] [] [] [] [].

Lemma backfill_needs_reference_witness :
  fill_typecode (Sheet.frames both_missing_example) = Raise subscript_error /\
  pipeline (Sheet.frames both_missing_example) = Raise subscript_error.
Proof.
  destruct (proj2 (proj2 (backfill_needs_reference both_missing_example))
                  (Sheet.mkMaterial NA (Str "MF1") NA NA NA)
                  (or_intror (or_introl eq_refl)) eq_refl eq_refl)
    as (H1 & H2 & _).
  exact (conj H1 H2).
Defined.

(** ** The columns of the export *)

(** The columns of [df] that carry the label [c]. *)
Definition hits (c : string) (df : DataFrame) : list (string * Series) :=
  filter (fun p => String.eqb (fst p) c) (cols df).

(** A label that no suffix of a merge can produce. *)
Definition plain (c : string) : bool :=
  negb (String.eqb (Py.slice_last 2 c) "_x")
  && negb (String.eqb (Py.slice_last 2 c) "_y").

Lemma plain_not_suffixed (c n : string) :
  plain c = true -> (n ++ "_x")%string <> c /\ (n ++ "_y")%string <> c.
Proof.
  unfold plain. intros H. apply andb_true_iff in H. destruct H as [Hx Hy].
  apply negb_true_iff in Hx. apply negb_true_iff in Hy.
  apply String.eqb_neq in Hx. apply String.eqb_neq in Hy.
  split; intros <-.
  - apply Hx. apply (slice_last_two n "_" "x").
  - apply Hy. apply (slice_last_two n "_" "y").
Qed.

Lemma filter_map_swap {A B : Type} (f : A -> B) (P : B -> bool) (l : list A) :
  filter P (map f l) = map f (filter (fun a => P (f a)) l).
Proof.
  induction l as [|a l IH]; simpl; [reflexivity|].
  destruct (P (f a)); simpl; now rewrite IH.
Qed.

Lemma filter_and_const {A : Type} (P : A -> bool) (b : bool) (l : list A) :
  filter (fun a => P a && b) l = if b then filter P l else [].
Proof.
  destruct b.
  - apply filter_ext. intros a. apply andb_true_r.
  - induction l as [|a l IH]; simpl; [reflexivity|].
    now rewrite andb_false_r.
Qed.

Lemma mem_false_hits (c : string) (df : DataFrame) :
  mem c (DF.columns df) = false -> hits c df = [].
Proof.
  unfold mem, DF.columns, hits. intros H.
  induction (cols df) as [|[n v] l IH]; simpl in *; [reflexivity|].
  apply orb_false_iff in H. destruct H as [H1 H2].
  rewrite String.eqb_sym, H1. now apply IH.
Qed.

(** A merge keeps a plain label on at most one column. *)
Lemma merge_hits (l r m : DataFrame) (on : list string) (c : string) :
  plain c = true ->
  DF.merge l r on = Ok m ->
  List.length (hits c l) <= 1 -> List.length (hits c r) <= 1 ->
  List.length (hits c m) <= 1.
Proof.
  intros Hc Hm Hl Hr. unfold DF.merge in Hm.
  apply bind_ok in Hm. destruct Hm as (rk & _ & Hm).
  apply bind_ok in Hm. destruct Hm as (lk & _ & Hm).
  match type of Hm with (if ?b then _ else _) = _ => destruct b end;
    [discriminate|].
  inversion Hm; subst m; clear Hm. unfold hits at 1. cbn [cols].
  rewrite filter_app, length_app, !filter_map_swap, !length_map.
  set (ov := fun n => negb (mem n on) && mem n (DF.columns l)
                      && mem n (DF.columns r)).
  assert (E1 : forall p : string * Series,
             String.eqb (fst (if ov (fst p) then (fst p ++ "_x")%string
                              else fst p,
                              DF.take_left (DF.left_indexer lk rk) (snd p))) c
             = String.eqb (fst p) c && negb (ov c)).
  { intros [n v]. cbn [fst snd]. destruct (ov n) eqn:En; cbn [fst].
    - destruct (String.eqb n c) eqn:E.
      + apply String.eqb_eq in E. subst n. rewrite En. simpl.
        apply String.eqb_neq. apply (plain_not_suffixed c c Hc).
      + simpl. apply String.eqb_neq. apply (plain_not_suffixed c n Hc).
    - destruct (String.eqb n c) eqn:E; [|reflexivity].
      apply String.eqb_eq in E. subst n. now rewrite En. }
  assert (E2 : forall p : string * Series,
             String.eqb (fst (if ov (fst p) then (fst p ++ "_y")%string
                              else fst p,
                              DF.take_right (DF.left_indexer lk rk) (snd p))) c
             = String.eqb (fst p) c && negb (ov c)).
  { intros [n v]. cbn [fst snd]. destruct (ov n) eqn:En; cbn [fst].
    - destruct (String.eqb n c) eqn:E.
      + apply String.eqb_eq in E. subst n. rewrite En. simpl.
        apply String.eqb_neq. apply (plain_not_suffixed c c Hc).
      + simpl. apply String.eqb_neq. apply (plain_not_suffixed c n Hc).
    - destruct (String.eqb n c) eqn:E; [|reflexivity].
      apply String.eqb_eq in E. subst n. now rewrite En. }
  rewrite (filter_ext _ _ E1), (filter_ext _ _ E2), !filter_and_const.
  fold ov. destruct (ov c) eqn:Eov; simpl; [lia|].
  assert (F : filter (fun p : string * Series => String.eqb (fst p) c)
                (filter (fun p => negb (mem (fst p) on)) (cols r))
              = if mem c on then [] else hits c r).
  { unfold hits. induction (cols r) as [|[n v] t IH]; simpl.
    - now destruct (mem c on).
    - destruct (mem n on) eqn:Emem; simpl.
      + destruct (String.eqb n c) eqn:E.
        * apply String.eqb_eq in E. subst n. rewrite Emem in *. exact IH.
        * exact IH.
      + destruct (String.eqb n c) eqn:E.
        * apply String.eqb_eq in E. subst n. rewrite Emem in *.
          now rewrite IH.
        * exact IH. }
  rewrite F. fold (hits c l). destruct (mem c on) eqn:Eon; simpl; [lia|].
  unfold ov in Eov. rewrite Eon in Eov. simpl in Eov.
  apply andb_false_iff in Eov. destruct Eov as [E|E].
  - rewrite (mem_false_hits c l E). simpl. lia.
  - rewrite (mem_false_hits c r E). simpl. lia.
Qed.

Lemma hits_labels (c : string) (df : DataFrame) :
  List.length (hits c df)
  = List.length (filter (fun n => String.eqb n c) (DF.columns df)).
Proof.
  unfold hits, DF.columns. rewrite filter_map_swap, length_map. reflexivity.
Qed.

Lemma NoDup_hits (c : string) (df : DataFrame) :
  NoDup (DF.columns df) -> List.length (hits c df) <= 1.
Proof.
  rewrite hits_labels. induction 1 as [|n l Hn _ IH]; simpl; [lia|].
  destruct (String.eqb n c) eqn:E; [|exact IH].
  apply String.eqb_eq in E. subst n. simpl.
  assert (F : filter (fun n => String.eqb n c) l = []).
  { clear IH. induction l as [|a l IH]; simpl; [reflexivity|].
    destruct (String.eqb a c) eqn:E.
    - apply String.eqb_eq in E. subst a. elim Hn. now left.
    - apply IH. intros H. apply Hn. now right. }
  rewrite F. simpl. lia.
Qed.

Lemma update_labels (c : string) (v : Series) (l : list (string * Series)) :
  map fst (DF.update c v l)
  = if mem c (map fst l) then map fst l else map fst l ++ [c].
Proof.
  unfold mem. induction l as [|[n w] l IH]; simpl; [reflexivity|].
  rewrite (String.eqb_sym c n). destruct (String.eqb n c); simpl.
  - reflexivity.
  - rewrite IH. now destruct (existsb (String.eqb c) (map fst l)).
Qed.

Lemma setitem_hits (c c' : string) (v : Series) (df : DataFrame) :
  List.length (hits c df) <= 1 ->
  List.length (hits c (DF.setitem df c' v)) <= 1.
Proof.
  rewrite !hits_labels. unfold DF.columns, DF.setitem. cbn [cols].
  rewrite update_labels. fold (DF.columns df).
  destruct (mem c' (DF.columns df)) eqn:E; [auto|].
  intros H. rewrite filter_app, length_app. simpl.
  destruct (String.eqb c' c) eqn:Ec; simpl; [|lia].
  apply String.eqb_eq in Ec. subst c'.
  rewrite <- hits_labels, (mem_false_hits c df E). simpl. lia.
Qed.

Lemma clean_hits (c : string) (df : DataFrame) :
  List.length (hits c (clean df)) = List.length (hits c df).
Proof.
  rewrite !hits_labels. unfold DF.columns, clean. cbn [cols].
  now rewrite map_map.
Qed.

Lemma length_filter_filter {A : Type} (P Q : A -> bool) (l : list A) :
  List.length (filter P (filter Q l)) <= List.length (filter P l).
Proof.
  induction l as [|a l IH]; simpl; [lia|].
  destruct (Q a); simpl; destruct (P a); simpl; lia.
Qed.

Lemma drop_column_hits (c c' : string) (df df' : DataFrame) :
  DF.drop_column df c' = Ok df' ->
  List.length (hits c df) <= 1 -> List.length (hits c df') <= 1.
Proof.
  intros H. apply drop_column_ok in H. destruct H as [_ H].
  unfold hits. rewrite H. intros Hle.
  etransitivity; [apply length_filter_filter | exact Hle].
Qed.

Lemma drop_column_absent (c : string) (df df' : DataFrame) :
  DF.drop_column df c = Ok df' -> ~ In c (DF.columns df').
Proof.
  intros H. apply drop_column_ok in H. destruct H as [_ H].
  unfold DF.columns. rewrite H. intros Hin.
  apply in_map_iff in Hin. destruct Hin as ((n & v) & Hn & Hin).
  simpl in Hn. subst n. apply filter_In in Hin. destruct Hin as [_ Hin].
  simpl in Hin. now rewrite String.eqb_refl in Hin.
Qed.

(** Asking for labels that each name one column gives exactly those
    columns. *)
Lemma getitem_list_columns (df df' : DataFrame) (names : list string) :
  DF.getitem_list df names = Ok df' ->
  (forall c, In c names -> List.length (hits c df) <= 1) ->
  DF.columns df' = names.
Proof.
  unfold DF.getitem_list. intros H Hu.
  apply bind_ok in H. destruct H as (cs & Hcs & H).
  inversion H; subst df'; clear H. unfold DF.columns. cbn [cols].
  apply mapM_ok in Hcs.
  induction Hcs as [|c l names' cs' Hc _ IH]; simpl; [reflexivity|].
  rewrite map_app, IH by (intros; apply Hu; now right). f_equal.
  specialize (Hu c (or_introl eq_refl)). unfold hits in Hu.
  destruct (filter (fun p => String.eqb (fst p) c) (cols df))
    as [|[n v] [|q t]] eqn:E; try discriminate; [|simpl in Hu; lia].
  inversion Hc; subst l. simpl. f_equal.
  assert (Hin : In (n, v) (filter (fun p => String.eqb (fst p) c) (cols df)))
    by (rewrite E; now left).
  apply filter_In in Hin. destruct Hin as [_ Hin]. simpl in Hin.
  now apply String.eqb_eq in Hin.
Qed.

(** Every label of the frame names one column. *)
Definition unique_labels (df : DataFrame) : Prop :=
  forall c, List.length (hits c df) <= 1.

(** The labels of the six loaded frames are unique, as [read_excel] makes
    them. *)
Definition loaded_labels (d : Data) : Prop :=
  NoDup (DF.columns (materials d)) /\ NoDup (DF.columns (plants d)) /\
  NoDup (DF.columns (storage d)) /\ NoDup (DF.columns (suppliers d)) /\
  NoDup (DF.columns (supplier_names d)) /\
  NoDup (DF.columns (manufacturer_names d)).

Lemma prepare_unique (d d' : Data) :
  loaded_labels d -> prepare d = Ok d' ->
  unique_labels (materials d') /\ unique_labels (plants d') /\
  unique_labels (storage d') /\ unique_labels (suppliers d') /\
  unique_labels (supplier_names d') /\ unique_labels (manufacturer_names d').
Proof.
  intros (N1 & N2 & N3 & N4 & N5 & N6) H. unfold prepare in H.
  apply bind_ok in H. destruct H as (d1 & H1 & H).
  apply bind_ok in H. destruct H as (d2 & H2 & H).
  apply bind_ok in H. destruct H as (d3 & H3 & H).
  inversion H; subst d'; clear H.
  unfold replace_deleted in H1. apply bind_ok in H1.
  destruct H1 as (v1 & _ & H1). inversion H1; subst d1; clear H1.
  unfold fill_typecode in H2. apply bind_ok in H2.
  destruct H2 as (v2 & _ & H2). inversion H2; subst d2; clear H2.
  unfold pad_plants in H3. apply bind_ok in H3.
  destruct H3 as (p & Hp & H3). apply bind_ok in H3.
  destruct H3 as (s & Hs & H3). inversion H3; subst d3; clear H3.
  unfold pad_plant in Hp, Hs.
  apply bind_ok in Hp. destruct Hp as (vp & _ & Hp).
  apply bind_ok in Hs. destruct Hs as (vs & _ & Hs).
  inversion Hp; subst p; clear Hp. inversion Hs; subst s; clear Hs.
  cbn [materials plants storage suppliers supplier_names manufacturer_names
       clean_data].
  repeat split; intros c; rewrite clean_hits;
    repeat apply setitem_hits; now apply NoDup_hits.
Qed.

Lemma plain_output_columns (c : string) :
  In c output_columns -> plain c = true.
Proof.
  unfold output_columns. simpl.
  intros H. repeat (destruct H as [<-|H]; [reflexivity|]). destruct H.
Qed.

(** C8: the export has exactly the 13 columns of the fixed list, in that
    order; ManufacturerID and SupplierID are not among them, each being
    dropped by the step that joined its names. *)
Theorem export_columns (d : Data) (out : DataFrame) :
  loaded_labels d ->
  pipeline d = Ok out ->
  DF.columns out
  = [ "MaterialReference"; "ManufacturerName"; "ArticleNumber"; "TypeCode";
      "ShortText"; "Plant"; "Disposition"; "ReporderPoint"; "SupplierName";
      "SupplierArticleNumber"; "StorageLocation"; "StorageBin";
      "DeletedStorageLevel" ] /\
  List.length (DF.columns out) = 13 /\
  ~ In "ManufacturerID" (DF.columns out) /\
  ~ In "SupplierID" (DF.columns out) /\
  exists d' r1 r2 r3 r4,
    prepare d = Ok d' /\
    step1 d' = Ok r1 /\ ~ In "ManufacturerID" (DF.columns r1) /\
    step2 d' r1 = Ok r2 /\ step3 d' r2 = Ok r3 /\
    step4 d' r3 = Ok r4 /\ ~ In "SupplierID" (DF.columns r4).
Proof.
  intros Hl H. apply pipeline_ok in H.
  destruct H as (d' & r5 & r & Hp & Ha & Hr & ->).
  apply aggregate_ok in Ha.
  destruct Ha as (r1 & r2 & r3 & r4 & H1 & H2 & H3 & H4 & H5).
  destruct (prepare_unique d d' Hl Hp) as (U1 & U2 & U3 & U4 & U5 & U6).
  pose proof H1 as S1. pose proof H4 as S4.
  unfold step1 in S1. apply bind_ok in S1. destruct S1 as (m1 & Hm1 & D1).
  unfold step4 in S4. apply bind_ok in S4. destruct S4 as (m4 & Hm4 & D4).
  assert (U : forall c, In c output_columns -> List.length (hits c r5) <= 1).
  { intros c Hc. apply plain_output_columns in Hc.
    eapply (merge_hits _ _ _ _ c Hc H5); [|apply U3].
    eapply drop_column_hits; [exact D4|].
    eapply (merge_hits _ _ _ _ c Hc Hm4); [|apply U5].
    eapply (merge_hits _ _ _ _ c Hc H3); [|apply U4].
    eapply (merge_hits _ _ _ _ c Hc H2); [|apply U2].
    eapply drop_column_hits; [exact D1|].
    eapply (merge_hits _ _ _ _ c Hc Hm1); [apply U1|apply U6]. }
  assert (C : DF.columns (fill_na r) = output_columns).
  { unfold fill_na, DF.fillna, DF.columns. cbn [cols]. rewrite map_map.
    cbn [fst]. apply (getitem_list_columns r5 r output_columns Hr U). }
  fold output_columns. rewrite C.
  split; [reflexivity|]. split; [reflexivity|].
  split; [unfold output_columns; simpl; intuition discriminate|].
  split; [unfold output_columns; simpl; intuition discriminate|].
  exists d', r1, r2, r3, r4.
  repeat (split; [assumption|]).
  split; [eapply drop_column_absent; exact D1|].
  repeat (split; [assumption|]).
  eapply drop_column_absent; exact D4.
Qed.

(** ** The Plant column *)

(** The Plant cell [c] after the padding and the cleaning. *)
Definition padded (c : cell) : cell :=
  clean_cell (Str (Py.zfill 4 (py_str c))).

Lemma padded_column (v : Series) :
  clean_column (Series_.str_zfill 4 (Series_.astype_str v)) = map padded v.
Proof.
  rewrite clean_column_object.
  - unfold Series_.str_zfill, Series_.str_map, Series_.astype_str.
    rewrite !map_map. reflexivity.
  - apply dtype_of_strings. apply Forall_forall. intros c Hc.
    unfold Series_.str_zfill, Series_.str_map, Series_.astype_str in Hc.
    rewrite map_map in Hc. apply in_map_iff in Hc.
    now destruct Hc as (c0 & <- & _).
Qed.

Lemma padded_cases (c : cell) :
  padded c = NA \/ padded c = Str (Py.strip (Py.zfill 4 (py_str c))).
Proof.
  unfold padded, clean_cell. cbn [py_str].
  destruct (String.eqb (Py.strip (Py.zfill 4 (py_str c))) ""); [now left|].
  destruct (String.eqb (Py.strip (Py.zfill 4 (py_str c))) "nan");
    [now left | now right].
Qed.

(** A missing Plant becomes the text 0nan and stays so. *)
Lemma padded_NA : padded NA = Str "0nan".
Proof. reflexivity. Qed.

(** No character of the string is white space. *)
Fixpoint nospace (s : string) : bool :=
  match s with
  | EmptyString => true
  | String c s' => negb (Py.isspace c) && nospace s'
  end.

Lemma lstrip_nospace (s : string) : nospace s = true -> Py.lstrip s = s.
Proof.
  destruct s as [|c s]; simpl; [reflexivity|].
  intros H. apply andb_true_iff in H. destruct H as [H _].
  apply negb_true_iff in H. now rewrite H.
Qed.

Lemma rstrip_nospace (s : string) : nospace s = true -> Py.rstrip s = s.
Proof.
  induction s as [|c s IH]; simpl; [reflexivity|].
  intros H. apply andb_true_iff in H. destruct H as [Hc Hs].
  apply negb_true_iff in Hc. rewrite (IH Hs), Hc. now destruct s.
Qed.

Lemma strip_nospace (s : string) : nospace s = true -> Py.strip s = s.
Proof.
  intros H. unfold Py.strip. rewrite (lstrip_nospace s H).
  now apply rstrip_nospace.
Qed.

Lemma nospace_append (s t : string) :
  nospace (s ++ t) = nospace s && nospace t.
Proof.
  induction s as [|c s IH]; simpl; [reflexivity|].
  now rewrite IH, andb_assoc.
Qed.

Lemma nospace_zeros (n : nat) : nospace (Py.zeros n) = true.
Proof. induction n; simpl; auto. Qed.

Lemma nospace_zfill (w : nat) (s : string) :
  nospace s = true -> nospace (Py.zfill w s) = true.
Proof.
  intros H. unfold Py.zfill. destruct s as [|c s].
  - apply nospace_zeros.
  - destruct (Py.is_sign c).
    + simpl in *. apply andb_true_iff in H. destruct H as [Hc Hs].
      now rewrite Hc, nospace_append, nospace_zeros, Hs.
    + now rewrite nospace_append, nospace_zeros, H.
Qed.

Lemma nospace_uint (d : Decimal.uint) :
  nospace (NilEmpty.string_of_uint d) = true.
Proof. induction d; simpl; auto. Qed.

Lemma nospace_str_int (n : Z) : nospace (Py.str_int n) = true.
Proof.
  unfold Py.str_int, NilZero.string_of_int, NilZero.string_of_uint.
  destruct (Z.to_int n) as [d|d]; destruct d;
    try reflexivity; apply nospace_uint || (simpl; apply nospace_uint).
Qed.

(** An integer Plant is its decimal text, padded: the cleaning changes
    nothing. *)
Lemma padded_int (n : Z) :
  padded (Int n) = Str (Py.zfill 4 (Py.str_int n)).
Proof.
  unfold padded, clean_cell. cbn [py_str].
  rewrite (strip_nospace _ (nospace_zfill 4 _ (nospace_str_int n))).
  pose proof (length_zfill 4 (Py.str_int n)) as L.
  destruct (String.eqb (Py.zfill 4 (Py.str_int n)) "") eqn:E1.
  - apply String.eqb_eq in E1. rewrite E1 in L.
    change (String.length "") with 0 in L. lia.
  - destruct (String.eqb (Py.zfill 4 (Py.str_int n)) "nan") eqn:E2;
      [|reflexivity].
    apply String.eqb_eq in E2. rewrite E2 in L.
    change (String.length "nan") with 3 in L. lia.
Qed.

Fixpoint all_from (ok : Z -> bool) (n : Z) (count : nat) : bool :=
  match count with
  | O => true
  | S c => ok n && all_from ok (n + 1) c
  end.

Lemma all_from_spec (ok : Z -> bool) (count : nat) (n m : Z) :
  all_from ok n count = true ->
  (n <= m < n + Z.of_nat count)%Z -> ok m = true.
Proof.
  revert n. induction count as [|c IH]; intros n H Hm.
  - lia.
  - cbn [all_from] in H. apply andb_true_iff in H. destruct H as [H1 H2].
    destruct (Z.eq_dec n m) as [->|Hne]; [exact H1|].
    apply (IH (n + 1)%Z H2). lia.
Qed.

Definition short (n : Z) : bool := (String.length (Py.str_int n) <=? 4)%nat.

Lemma short_checked : all_from short (-999) (Z.to_nat 10999) = true.
Proof. vm_compute. reflexivity. Qed.

(** The integers from -999 to 9999 are written with at most four
    characters. *)
Lemma str_int_short (n : Z) :
  (-999 <= n <= 9999)%Z -> String.length (Py.str_int n) <= 4.
Proof.
  intros Hn. apply Nat.leb_le.
  apply (all_from_spec short (Z.to_nat 10999) (-999) n short_checked). lia.
Qed.

Lemma in_fillna (x c : cell) (v : Series) :
  In c (Series_.fillna x v) -> c = x \/ (c <> NA /\ In c v).
Proof.
  unfold Series_.fillna. rewrite in_map_iff. intros (c0 & <- & Hc0).
  destruct c0; simpl; [now left| | |]; right; split; auto; discriminate.
Qed.

Lemma fillna_keeps (x c : cell) (v : Series) :
  c <> NA -> In c v -> In c (Series_.fillna x v).
Proof.
  intros Hc Hin. unfold Series_.fillna. apply in_map_iff. exists c.
  split; [|exact Hin]. now destruct c.
Qed.

Section Columns.

Import Sheet.

Variable x : Sheets.
Variable tc : Series.

Lemma prepared_plants_Plant :
  col (plants (prepared x tc)) "Plant" = map padded (map p_Plant (plants_rows x)).
Proof. apply padded_column. Qed.

Lemma prepared_storage_Plant :
  col (storage (prepared x tc)) "Plant"
  = map padded (map st_Plant (storage_rows x)).
Proof. apply padded_column. Qed.

Lemma prepared_storage_level :
  col (storage (prepared x tc)) "DeletedStorageLevel"
  = clean_column (Series_.replace (Str " ") (Str "ACTIVE")
                    (map st_DeletedStorageLevel (storage_rows x))).
Proof. reflexivity. Qed.

Lemma r2_Plant :
  col (r2 x tc) "Plant"
  = DF.take_right (idx2 x tc) (col (plants (prepared x tc)) "Plant").
Proof. reflexivity. Qed.

Lemma exported_Plant :
  col (exported x tc) "Plant"
  = Series_.fillna (Str "N/A")
      (DF.take_left (idx5 x tc)
         (DF.take_left (idx4 x tc)
            (DF.take_left (idx3 x tc) (col (r2 x tc) "Plant")))).
Proof. reflexivity. Qed.

Lemma exported_level :
  col (exported x tc) "DeletedStorageLevel"
  = Series_.fillna (Str "N/A")
      (DF.take_right (idx5 x tc)
         (col (storage (prepared x tc)) "DeletedStorageLevel")).
Proof. reflexivity. Qed.

Lemma nrows_r2 : nrows (r2 x tc) = List.length (idx2 x tc).
Proof. reflexivity. Qed.

Lemma nrows_r3 : nrows (r3 x tc) = List.length (idx3 x tc).
Proof. reflexivity. Qed.

Lemma nrows_r4 : nrows (r4 x tc) = List.length (idx4 x tc).
Proof. reflexivity. Qed.

End Columns.

Lemma pipeline_sheets_ok (x : Sheet.Sheets) (out : DataFrame) :
  pipeline (Sheet.frames x) = Ok out ->
  exists tc,
    mapM (fun m => typecode_lambda (material_row m)) (Sheet.materials_rows x)
    = Ok tc /\ out = exported x tc.
Proof.
  rewrite pipeline_sheets, apply_rows_materials. intros H.
  apply bind_ok in H. destruct H as (tc & Htc & H).
  inversion H. now exists tc.
Qed.

(** C2, as the code has it: a Plant value of the export, when it is not
    N/A, is the Plant cell of a Plants row coerced to a string, padded with
    zeros on the left and trimmed.  The padding brings a string to four
    characters and leaves a longer one as it is: for an integer cell the
    value has four characters or as many as the number has, so exactly four
    from -999 to 9999.  The Plant columns of Plants and of Storage get the
    same coercion and padding. *)
Theorem plant_is_padded (x : Sheet.Sheets) (out : DataFrame) :
  pipeline (Sheet.frames x) = Ok out ->
  (forall c, In c (col out "Plant") ->
     c = Str "N/A" \/
     exists p, In p (Sheet.plants_rows x) /\
               c = Str (Py.strip (Py.zfill 4 (py_str (Sheet.p_Plant p))))) /\
  (forall n : Z,
     Py.strip (Py.zfill 4 (py_str (Int n))) = Py.zfill 4 (Py.str_int n) /\
     String.length (Py.zfill 4 (Py.str_int n))
     = Nat.max 4 (String.length (Py.str_int n)) /\
     ((-999 <= n <= 9999)%Z ->
      String.length (Py.zfill 4 (Py.str_int n)) = 4)) /\
  exists d',
    prepare (Sheet.frames x) = Ok d' /\
    col (plants d') "Plant"
    = map (fun p => clean_cell (Str (Py.zfill 4 (py_str (Sheet.p_Plant p)))))
          (Sheet.plants_rows x) /\
    col (storage d') "Plant"
    = map (fun s => clean_cell (Str (Py.zfill 4 (py_str (Sheet.st_Plant s)))))
          (Sheet.storage_rows x).
Proof.
  intros H. destruct (pipeline_sheets_ok x out H) as (tc & Htc & ->).
  split; [|split].
  - intros c Hc. rewrite exported_Plant in Hc.
    apply in_fillna in Hc. destruct Hc as [->|[Hne Hc]]; [now left|].
    right.
    apply in_take_left in Hc. destruct Hc as [->|Hc]; [contradiction|].
    apply in_take_left in Hc. destruct Hc as [->|Hc]; [contradiction|].
    apply in_take_left in Hc. destruct Hc as [->|Hc]; [contradiction|].
    rewrite r2_Plant in Hc.
    apply in_take_right in Hc. destruct Hc as [->|Hc]; [contradiction|].
    rewrite prepared_plants_Plant, map_map in Hc.
    apply in_map_iff in Hc. destruct Hc as (p & <- & Hp).
    exists p. split; [exact Hp|].
    destruct (padded_cases (Sheet.p_Plant p)) as [E|E]; [contradiction|exact E].
  - intros n. split; [|split].
    + cbn [py_str]. apply strip_nospace, nospace_zfill, nospace_str_int.
    + apply length_zfill.
    + intros Hn. rewrite length_zfill. pose proof (str_int_short n Hn). lia.
  - exists (prepared x tc). split; [|split].
    + rewrite prepare_sheets, apply_rows_materials, Htc. reflexivity.
    + rewrite prepared_plants_Plant, map_map. reflexivity.
    + rewrite prepared_storage_Plant, map_map. reflexivity.
Qed.

(** One material in two plants, the second with a five-digit code. *)
Definition wide_plant_example : Sheet.Sheets :=
  Sheet.mkSheets
    [ Sheet.mkMaterial (Str "M1") (Str "MF1") (Str "A-1") (Str "T1")
                       (Str "bolt") ]
    [ Sheet.mkPlant (Str "M1") (Int 7) (Str "D1") (Int 5);
      Sheet.mkPlant (Str "M1") (Int 12345) (Str "D2") (Int 9) ]
    [] [] []
    [ Sheet.mkManufacturerName (Str "MF1") (Str "Acme") ].

Definition wide_plant_export : DataFrame :=
  mkDF 2
    [ ("MaterialReference", [Str "M1"; Str "M1"]);
      ("ManufacturerName", [Str "Acme"; Str "Acme"]);
      ("ArticleNumber", [Str "A-1"; Str "A-1"]);
      ("TypeCode", [Str "T1"; Str "T1"]);
      ("ShortText", [Str "bolt"; Str "bolt"]);
      ("Plant", [Str "0007"; Str "12345"]);
      ("Disposition", [Str "D1"; Str "D2"]);
      ("ReporderPoint", [Int 5; Int 9]);
      ("SupplierName", [Str "N/A"; Str "N/A"]);
      ("SupplierArticleNumber", [Str "N/A"; Str "N/A"]);
      ("StorageLocation", [Str "N/A"; Str "N/A"]);
      ("StorageBin", [Str "N/A"; Str "N/A"]);
      ("DeletedStorageLevel", [Str "N/A"; Str "N/A"]) ].

Lemma wide_plant_run :
  pipeline (Sheet.frames wide_plant_example) = Ok wide_plant_export.
Proof. vm_compute. reflexivity. Qed.

(** C2 as stated fails: the plant code 12345 is exported with its five
    characters. *)
Lemma plant_not_always_four :
  ~ (forall (x : Sheet.Sheets) (out : DataFrame),
       pipeline (Sheet.frames x) = Ok out ->
       forall c, In c (col out "Plant") -> c <> Str "N/A" ->
                 exists s, c = Str s /\ String.length s = 4).
Proof.
  intros H.
  destruct (H wide_plant_example wide_plant_export wide_plant_run
              (Str "12345")) as (s & Hs & Hlen).
  - simpl. right. now left.
  - discriminate.
  - inversion Hs; subst s. simpl in Hlen. discriminate.
Qed.

Lemma plant_is_padded_witness :
  Str "0007" = Str "N/A" \/
  exists p, In p (Sheet.plants_rows wide_plant_example) /\
            Str "0007"
            = Str (Py.strip (Py.zfill 4 (py_str (Sheet.p_Plant p)))).
Proof.
  apply (proj1 (plant_is_padded wide_plant_example wide_plant_export
                                wide_plant_run)).
  simpl. now left.
Defined.

(** ** DeletedStorageLevel *)

(** The table that the last join takes on its left. *)
Definition first_four (d : Data) : result DataFrame :=
  r1 <- step1 d ;;
  r2 <- step2 d r1 ;;
  r3 <- step3 d r2 ;;
  step4 d r3.

Lemma first_four_sheets (x : Sheet.Sheets) (tc : Series) :
  first_four (prepared x tc) = Ok (r4 x tc).
Proof.
  unfold first_four.
  rewrite step1_sheets; cbn [bind].
  rewrite step2_sheets; cbn [bind].
  rewrite step3_sheets; cbn [bind].
  apply step4_sheets.
Qed.

(** The stages on the six sheets, once the frames are prepared. *)
Lemma sheets_trace (x : Sheet.Sheets) (d' : Data) :
  prepare (Sheet.frames x) = Ok d' ->
  exists tc,
    mapM (fun m => typecode_lambda (material_row m)) (Sheet.materials_rows x)
    = Ok tc /\
    d' = prepared x tc /\
    pipeline (Sheet.frames x) = Ok (exported x tc).
Proof.
  intros H. rewrite prepare_sheets, apply_rows_materials in H.
  apply bind_ok in H. destruct H as (tc & Htc & H).
  inversion H. exists tc. split; [exact Htc|]. split; [reflexivity|].
  now rewrite pipeline_sheets, apply_rows_materials, Htc.
Qed.

Lemma nth_error_fillna (x : cell) (v : Series) (k : nat) (c : cell) :
  nth_error v k = Some c -> c <> NA ->
  nth_error (Series_.fillna x v) k = Some c.
Proof.
  intros H Hc. unfold Series_.fillna. rewrite nth_error_map, H. simpl.
  now destruct c.
Qed.

(** C5: a Storage row whose DeletedStorageLevel is a single space has
    ACTIVE in that column when the joins start, and every row of the export
    that the last join pairs with it has ACTIVE there; the cleaning alone
    would have made the space a null. *)
Theorem blank_level_is_active (x : Sheet.Sheets) (d' : Data)
        (t4 out : DataFrame) :
  prepare (Sheet.frames x) = Ok d' ->
  first_four d' = Ok t4 ->
  pipeline (Sheet.frames x) = Ok out ->
  clean_cell (Str " ") = NA /\
  forall j s,
    nth_error (Sheet.storage_rows x) j = Some s ->
    Sheet.st_DeletedStorageLevel s = Str " " ->
    nth_error (col (storage d') "DeletedStorageLevel") j
    = Some (Str "ACTIVE") /\
    forall k i,
      nth_error (indexer t4 (storage d') ["MaterialReference"; "Plant"]) k
      = Some (i, Some j) ->
      nth_error (col out "DeletedStorageLevel") k = Some (Str "ACTIVE").
Proof.
  intros Hp H4 H.
  destruct (sheets_trace x d' Hp) as (tc & Htc & -> & Hout).
  rewrite Hout in H. inversion H; subst out; clear H.
  rewrite first_four_sheets in H4. inversion H4; subst t4; clear H4.
  split; [reflexivity|].
  intros j s Hj Hs.
  assert (Hrep : nth_error (Series_.replace (Str " ") (Str "ACTIVE")
                              (map Sheet.st_DeletedStorageLevel
                                   (Sheet.storage_rows x))) j
                 = Some (Str "ACTIVE")).
  { unfold Series_.replace. rewrite !nth_error_map, Hj. simpl.
    now rewrite Hs. }
  assert (Hcol : nth_error (col (storage (prepared x tc))
                                "DeletedStorageLevel") j
                 = Some (Str "ACTIVE")).
  { rewrite prepared_storage_level, clean_column_object.
    - now rewrite nth_error_map, Hrep.
    - apply dtype_of_has_str with (s := "ACTIVE").
      eapply nth_error_In; exact Hrep. }
  split; [exact Hcol|].
  intros k i Hk. rewrite exported_level.
  apply nth_error_fillna; [|discriminate].
  unfold DF.take_right. change (idx5 x tc) with
    (indexer (r4 x tc) (storage (prepared x tc))
             ["MaterialReference"; "Plant"]).
  rewrite nth_error_map, Hk. simpl. f_equal.
  now apply nth_error_nth.
Qed.

(** A material in plant 7 with one storage row whose level is a space and
    one whose level is two spaces. *)
Definition active_example : Sheet.Sheets :=
  Sheet.mkSheets
    [ Sheet.mkMaterial (Str "M1") (Str "MF1") (Str "A-1") (Str "T1")
                       (Str "bolt") ]
    [ Sheet.mkPlant (Str "M1") (Int 7) (Str "D1") (Int 5) ]
    [ Sheet.mkStorage (Str "M1") (Int 7) (Str "L1") (Str "B1") (Str " ");
      Sheet.mkStorage (Str "M1") (Int 7) (Str "L2") (Str "B2") (Str "  ") ]
    [] []
    [ Sheet.mkManufacturerName (Str "MF1") (Str "Acme") ].

Definition active_export : DataFrame :=
  mkDF 2
    [ ("MaterialReference", [Str "M1"; Str "M1"]);
      ("ManufacturerName", [Str "Acme"; Str "Acme"]);
      ("ArticleNumber", [Str "A-1"; Str "A-1"]);
      ("TypeCode", [Str "T1"; Str "T1"]);
      ("ShortText", [Str "bolt"; Str "bolt"]);
      ("Plant", [Str "0007"; Str "0007"]);
      ("Disposition", [Str "D1"; Str "D1"]);
      ("ReporderPoint", [Int 5; Int 5]);
      ("SupplierName", [Str "N/A"; Str "N/A"]);
      ("SupplierArticleNumber", [Str "N/A"; Str "N/A"]);
      ("StorageLocation", [Str "L1"; Str "L2"]);
      ("StorageBin", [Str "B1"; Str "B2"]);
      ("DeletedStorageLevel", [Str "ACTIVE"; Str "N/A"]) ].

Lemma active_run :
  pipeline (Sheet.frames active_example) = Ok active_export.
Proof. vm_compute. reflexivity. Qed.

Lemma blank_level_is_active_witness :
  nth_error (col active_export "DeletedStorageLevel") 0 = Some (Str "ACTIVE").
Proof.
  refine (proj2 (proj2 (blank_level_is_active
                          active_example _ _ active_export
                          _ _ active_run)
                       0 (Sheet.mkStorage (Str "M1") (Int 7) (Str "L1")
                                          (Str "B1") (Str " "))
                       eq_refl eq_refl) 0 0 _).
  - vm_compute. reflexivity.
  - vm_compute. reflexivity.
  - vm_compute. reflexivity.
Defined.

(** ** A missing Plant *)

Lemma take_left_indexer_keeps (l r : DataFrame) (on : list string)
      (v : Series) (c : cell) :
  List.length v <= nrows l -> In c v -> In c (DF.take_left (indexer l r on) v).
Proof.
  intros Hlen Hc. unfold indexer. apply take_left_keeps; [|exact Hc].
  now rewrite length_zip_rows.
Qed.

Section MissingPlant.

Import Sheet.

Variable x : Sheets.
Variable tc : Series.

Lemma r1_reference :
  col (r1 x tc) "MaterialReference"
  = DF.take_left (idx1 x tc)
      (col (materials (prepared x tc)) "MaterialReference").
Proof. reflexivity. Qed.

(** Every Materials row is a row of the table that meets Plants, with its
    MaterialReference. *)
Lemma r1_has_material (i : nat) :
  i < List.length (materials_rows x) ->
  exists k,
    k < nrows (r1 x tc) /\
    nth k (col (r1 x tc) "MaterialReference") NA
    = nth i (col (materials (prepared x tc)) "MaterialReference") NA.
Proof.
  intros Hi.
  destruct (left_indexer_cover
              (DF.zip_rows (map (col (manufacturer_names (prepared x tc)))
                                ["ManufacturerID"])
                           (nrows (manufacturer_names (prepared x tc))))
              (DF.zip_rows (map (col (materials (prepared x tc)))
                                ["ManufacturerID"])
                           (nrows (materials (prepared x tc)))) i)
    as (oj & Hin).
  { rewrite length_zip_rows. exact Hi. }
  fold (indexer (materials (prepared x tc))
                (manufacturer_names (prepared x tc)) ["ManufacturerID"]) in Hin.
  fold (idx1 x tc) in Hin.
  apply In_nth_error in Hin. destruct Hin as (k & Hk).
  exists k. split.
  - change (nrows (r1 x tc)) with (List.length (idx1 x tc)).
    apply nth_error_Some. congruence.
  - rewrite r1_reference. apply nth_error_nth.
    unfold DF.take_left. now rewrite nth_error_map, Hk.
Qed.

(** A Plants row whose MaterialReference is that of a Materials row is in
    the table after the second join, with its Plant. *)
Lemma r2_has_plant (i j : nat) :
  i < List.length (materials_rows x) ->
  j < List.length (plants_rows x) ->
  DF.key_eqb
    (nth i (col (materials (prepared x tc)) "MaterialReference") NA)
    (nth j (col (plants (prepared x tc)) "MaterialReference") NA) = true ->
  In (nth j (col (plants (prepared x tc)) "Plant") NA)
     (col (r2 x tc) "Plant").
Proof.
  intros Hi Hj Hkey.
  destruct (r1_has_material i Hi) as (k & Hk & Hnth).
  assert (Hin : In (k, Some j) (idx2 x tc)).
  { unfold idx2, indexer. apply in_left_indexer.
    exists [nth k (col (r1 x tc) "MaterialReference") NA]. split.
    - now rewrite nth_error_zip_rows.
    - apply in_matches.
      exists [nth j (col (plants (prepared x tc)) "MaterialReference") NA].
      split.
      + now rewrite nth_error_zip_rows.
      + cbn [DF.keys_eqb]. now rewrite Hnth, Hkey. }
  rewrite r2_Plant. unfold DF.take_right. apply in_map_iff.
  now exists (k, Some j).
Qed.

Lemma exported_keeps_plant (c : cell) :
  c <> NA -> In c (col (r2 x tc) "Plant") ->
  In c (col (exported x tc) "Plant").
Proof.
  intros Hc Hin. rewrite exported_Plant. apply fillna_keeps; [exact Hc|].
  apply take_left_indexer_keeps.
  { rewrite length_take_left. apply Nat.le_refl. }
  apply take_left_indexer_keeps.
  { rewrite length_take_left. apply Nat.le_refl. }
  apply take_left_indexer_keeps; [|exact Hin].
  rewrite r2_Plant, length_take_right. apply Nat.le_refl.
Qed.

End MissingPlant.

(** C10: a missing Plant cell of Plants or Storage is the string 0nan when
    the joins start: the coercion gives nan, the padding 0nan, and the
    cleaning, which makes a null of nan only, leaves it.  A Plants row with
    a missing Plant whose MaterialReference is that of a Materials row puts
    0nan, and not N/A, in the Plant column of the export. *)
Theorem missing_plant_is_0nan (x : Sheet.Sheets) (d' : Data)
        (out : DataFrame) :
  prepare (Sheet.frames x) = Ok d' ->
  pipeline (Sheet.frames x) = Ok out ->
  (Py.zfill 4 (py_str NA) = "0nan" /\
   clean_cell (Str "nan") = NA /\ clean_cell (Str "0nan") = Str "0nan") /\
  (forall j p, nth_error (Sheet.plants_rows x) j = Some p ->
               Sheet.p_Plant p = NA ->
               nth_error (col (plants d') "Plant") j = Some (Str "0nan")) /\
  (forall j s, nth_error (Sheet.storage_rows x) j = Some s ->
               Sheet.st_Plant s = NA ->
               nth_error (col (storage d') "Plant") j = Some (Str "0nan")) /\
  (forall i j p,
     nth_error (Sheet.plants_rows x) j = Some p ->
     Sheet.p_Plant p = NA ->
     i < nrows (materials d') ->
     DF.key_eqb (nth i (col (materials d') "MaterialReference") NA)
                (nth j (col (plants d') "MaterialReference") NA) = true ->
     In (Str "0nan") (col out "Plant")).
Proof.
  intros Hp H.
  destruct (sheets_trace x d' Hp) as (tc & Htc & -> & Hout).
  rewrite Hout in H. inversion H; subst out; clear H.
  assert (P : forall j p, nth_error (Sheet.plants_rows x) j = Some p ->
                Sheet.p_Plant p = NA ->
                nth_error (col (plants (prepared x tc)) "Plant") j
                = Some (Str "0nan")).
  { intros j p Hj Hna. rewrite prepared_plants_Plant, !nth_error_map, Hj.
    simpl. now rewrite Hna. }
  split; [repeat split|]. split; [exact P|]. split.
  - intros j s Hj Hna. rewrite prepared_storage_Plant, !nth_error_map, Hj.
    simpl. now rewrite Hna.
  - intros i j p Hj Hna Hi Hkey.
    apply exported_keeps_plant; [discriminate|].
    rewrite <- (nth_error_nth _ _ NA (P j p Hj Hna)).
    apply r2_has_plant with (i := i); [exact Hi| |exact Hkey].
    apply nth_error_Some. congruence.
Qed.

(** A Plants row with no Plant, for a material of the Materials sheet. *)
Definition missing_plant_example : Sheet.Sheets :=
  Sheet.mkSheets
    [ Sheet.mkMaterial (Str "M1") (Str "MF1") (Str "A-1") (Str "T1")
                       (Str "bolt") ]
    [ Sheet.mkPlant (Str "M1") NA (Str "D1") (Flt 5) ]
    [ Sheet.mkStorage (Str "M1") NA (Str "L1") (Str "B1") (Str "X") ]
    [] []
    [ Sheet.mkManufacturerName (Str "MF1") (Str "Acme") ].

Definition missing_plant_export : DataFrame :=
  mkDF 1
    [ ("MaterialReference", [Str "M1"]);
      ("ManufacturerName", [Str "Acme"]);
      ("ArticleNumber", [Str "A-1"]);
      ("TypeCode", [Str "T1"]);
      ("ShortText", [Str "bolt"]);
      ("Plant", [Str "0nan"]);
      ("Disposition", [Str "D1"]);
      ("ReporderPoint", [Flt 5]);
      ("SupplierName", [Str "N/A"]);
      ("SupplierArticleNumber", [Str "N/A"]);
      ("StorageLocation", [Str "L1"]);
      ("StorageBin", [Str "B1"]);
      ("DeletedStorageLevel", [Str "X"]) ].

Lemma missing_plant_run :
  pipeline (Sheet.frames missing_plant_example) = Ok missing_plant_export.
Proof. vm_compute. reflexivity. Qed.

Lemma missing_plant_is_0nan_witness :
  In (Str "0nan") (col missing_plant_export "Plant").
Proof.
  refine (proj2 (proj2 (proj2 (missing_plant_is_0nan
                                 missing_plant_example _ missing_plant_export
                                 _ missing_plant_run)))
                0 0 (Sheet.mkPlant (Str "M1") NA (Str "D1") (Flt 5))
                eq_refl eq_refl _ _).
  - vm_compute. reflexivity.
  - vm_compute. apply Nat.le_refl.
  - vm_compute. reflexivity.
Defined.

(** ** The end-to-end scenario *)




Lemma length_clean_column (v : Series) :
  List.length (clean_column v) = List.length v.
Proof.
  destruct (dtype_object_dec v) as [E|E].
  - now rewrite (clean_column_object v E), length_map.
  - now rewrite (clean_column_numeric v E).
Qed.



Section Scenario.

Import Sheet.

(* the fields of the one Materials row that the scenario leaves open *)
Variables art txt : cell.
Variable ps : list Plant.
Variable sus : list Supplier.
Variable sts : list Storage.
Variable sns : list SupplierName.

Definition scenario : Sheets :=
  mkSheets [ mkMaterial (Str "M1") (Str "MF1") art NA txt ]
           ps sts sus sns
           [ mkManufacturerName (Str "MF1") (Str "Acme") ].

(* no row of Plants, Suppliers or Storage is for M1 *)
Hypothesis no_plant :
  forall p, In p ps -> Py.strip (py_str (p_MaterialReference p)) <> "M1".
Hypothesis no_supplier :
  forall s, In s sus -> Py.strip (py_str (s_MaterialReference s)) <> "M1".
Hypothesis no_storage :
  forall s, In s sts -> Py.strip (py_str (st_MaterialReference s)) <> "M1".
(* every row of SupplierNames has a SupplierID *)
Hypothesis supplier_ids :
  forall n, In n sns -> Py.strip (py_str (sn_SupplierID n)) <> ""
                        /\ Py.strip (py_str (sn_SupplierID n)) <> "nan".

Let tc : Series := [Str "TC00000000M1"].







Let out : DataFrame := exported scenario tc.



End Scenario.






(** ** Runs of the whole pipeline *)

(** Two materials, one in two plants with two suppliers, cells with blanks
    and the text nan. *)
Definition fan_out_example : Sheet.Sheets :=
  Sheet.mkSheets
    [ Sheet.mkMaterial (Str "M1") (Str "MF1") (Str " A-1 ") NA (Str "nan");
      Sheet.mkMaterial (Str "M2") (Str "MF9") (Str "  ") (Str "T2")
                       (Str "nut") ]
    [ Sheet.mkPlant (Str "M1") (Int 7) (Str "D1") (Int 5);
      Sheet.mkPlant (Str "M1") (Int 8) (Str "D2") (Int 6) ]
    [ Sheet.mkStorage (Str "M1") (Int 7) (Str "L1") (Str "B1") (Str " ") ]
    [ Sheet.mkSupplier (Str "M1") (Int 1) (Str "S-1");
      Sheet.mkSupplier (Str "M1") (Int 2) (Str "S-2") ]
    [ Sheet.mkSupplierName (Int 1) (Str "One") ]
    [ Sheet.mkManufacturerName (Str "MF1") (Str "Acme") ].

Definition fan_out_export : DataFrame :=
  mkDF 5
    [ ("MaterialReference",
       [Str "M1"; Str "M1"; Str "M1"; Str "M1"; Str "M2"]);
      ("ManufacturerName",
       [Str "Acme"; Str "Acme"; Str "Acme"; Str "Acme"; Str "N/A"]);
      ("ArticleNumber",
       [Str "A-1"; Str "A-1"; Str "A-1"; Str "A-1"; Str "N/A"]);
      ("TypeCode",
       [Str "TC00000000M1"; Str "TC00000000M1"; Str "TC00000000M1";
        Str "TC00000000M1"; Str "T2"]);
      ("ShortText",
       [Str "N/A"; Str "N/A"; Str "N/A"; Str "N/A"; Str "nut"]);
      ("Plant", [Str "0007"; Str "0007"; Str "0008"; Str "0008"; Str "N/A"]);
      ("Disposition", [Str "D1"; Str "D1"; Str "D2"; Str "D2"; Str "N/A"]);
      ("ReporderPoint", [Int 5; Int 5; Int 6; Int 6; Str "N/A"]);
      ("SupplierName",
       [Str "One"; Str "N/A"; Str "One"; Str "N/A"; Str "N/A"]);
      ("SupplierArticleNumber",
       [Str "S-1"; Str "S-2"; Str "S-1"; Str "S-2"; Str "N/A"]);
      ("StorageLocation",
       [Str "L1"; Str "L1"; Str "N/A"; Str "N/A"; Str "N/A"]);
      ("StorageBin", [Str "B1"; Str "B1"; Str "N/A"; Str "N/A"; Str "N/A"]);
      ("DeletedStorageLevel",
       [Str "ACTIVE"; Str "ACTIVE"; Str "N/A"; Str "N/A"; Str "N/A"]) ].

Lemma fan_out_run :
  pipeline (Sheet.frames fan_out_example) = Ok fan_out_export.
Proof. vm_compute. reflexivity. Qed.

Lemma sheets_labels (x : Sheet.Sheets) : loaded_labels (Sheet.frames x).
Proof.
  unfold loaded_labels, DF.columns. simpl.
  repeat split; repeat constructor; simpl; intuition discriminate.
Qed.

Lemma nulls_render_as_NA_witness :
  exists d' r5 r,
    prepare (Sheet.frames fan_out_example) = Ok d' /\
    aggregate d' = Ok r5 /\ reorder r5 = Ok r /\
    nrows fan_out_export = nrows r /\
    cols fan_out_export
    = map (fun p => (fst p, map (fun c => match c with
                                          | NA => Str "N/A"
                                          | _ => c
                                          end) (snd p))) (cols r) /\
    forall n v c, In (n, v) (cols fan_out_export) -> In c v ->
      c <> NA /\ c <> Str "" /\ c <> Str "nan" /\
      forall s, c = Str s -> Py.blank s = false.
Proof.
  exact (nulls_render_as_NA (Sheet.frames fan_out_example) fan_out_export
                            fan_out_run).
Defined.

Lemma row_count_of_export_witness :
  nrows (materials (Sheet.frames fan_out_example)) <= nrows fan_out_export.
Proof.
  exact (proj1 (row_count_of_export (Sheet.frames fan_out_example)
                                    fan_out_export fan_out_run)).
Defined.

Lemma export_columns_witness :
  DF.columns fan_out_export
  = [ "MaterialReference"; "ManufacturerName"; "ArticleNumber"; "TypeCode";
      "ShortText"; "Plant"; "Disposition"; "ReporderPoint"; "SupplierName";
      "SupplierArticleNumber"; "StorageLocation"; "StorageBin";
      "DeletedStorageLevel" ].
Proof.
  exact (proj1 (export_columns (Sheet.frames fan_out_example) fan_out_export
                               (sheets_labels fan_out_example) fan_out_run)).
Defined.

(** ** The run and the pipeline *)

Lemma prepare_stages (d d' : Data) :
  prepare d = Ok d' ->
  exists d1 d2 d3,
    replace_deleted d = Ok d1 /\ fill_typecode d1 = Ok d2 /\
    pad_plants d2 = Ok d3 /\ d' = clean_data d3.
Proof.
  unfold prepare. intros H.
  apply bind_ok in H. destruct H as (d1 & H1 & H).
  apply bind_ok in H. destruct H as (d2 & H2 & H).
  apply bind_ok in H. destruct H as (d3 & H3 & H).
  inversion H. now exists d1, d2, d3.
Qed.

(** [m] goes on with the value [a] and leaves the result file as it is. *)
Definition silent {A : Type} (m : Proc A) (a : A) : Prop :=
  forall s, exists s',
    m s = (Continue a, s') /\ result_xlsx s' = result_xlsx s.

(** [m] goes on and leaves [r] in the result file. *)
Definition writes (m : Proc unit) (r : DataFrame) : Prop :=
  forall s, exists s', m s = (Continue tt, s') /\ result_xlsx s' = Some r.

Lemma silent_seq {A B : Type} (m : Proc A) (k : A -> Proc B) (a : A) (b : B) :
  silent m a -> silent (k a) b -> silent (seqP m k) b.
Proof.
  intros Hm Hk s. destruct (Hm s) as (s1 & E1 & F1).
  destruct (Hk s1) as (s2 & E2 & F2). exists s2. unfold seqP.
  rewrite E1, E2. split; congruence.
Qed.

Lemma silent_then_writes {A : Type} (m : Proc A) (k : A -> Proc unit)
      (a : A) (r : DataFrame) :
  silent m a -> writes (k a) r -> writes (seqP m k) r.
Proof.
  intros Hm Hk s. destruct (Hm s) as (s1 & E1 & F1).
  destruct (Hk s1) as (s2 & E2 & F2). exists s2. unfold seqP.
  rewrite E1, E2. split; congruence.
Qed.

Lemma writes_then_silent (m : Proc unit) (k : unit -> Proc unit)
      (r : DataFrame) :
  writes m r -> silent (k tt) tt -> writes (seqP m k) r.
Proof.
  intros Hm Hk s. destruct (Hm s) as (s1 & E1 & F1).
  destruct (Hk s1) as (s2 & E2 & F2). exists s2. unfold seqP.
  rewrite E1, E2. split; congruence.
Qed.

Lemma silent_logging (l : level) (msg : string) : silent (logging l msg) tt.
Proof. intros s. eexists. split; reflexivity. Qed.

Lemma silent_print (msg : string) : silent (print msg) tt.
Proof. intros s. eexists. split; reflexivity. Qed.

Lemma silent_ret {A : Type} (a : A) : silent (ret a) a.
Proof. intros s. eexists. split; reflexivity. Qed.

Lemma silent_lift {A : Type} (m : result A) (a : A) :
  m = Ok a -> silent (lift m) a.
Proof. intros -> s. eexists. split; reflexivity. Qed.

Lemma writes_to_excel (r : DataFrame) : writes (to_excel r) r.
Proof. intros s. eexists. split; reflexivity. Qed.

Ltac silent_run :=
  repeat match goal with
         | |- silent (seqP _ _) _ => eapply silent_seq
         | |- silent ((fun _ => _) _) _ => cbv beta
         | |- silent (logging _ _) _ => apply silent_logging
         | |- silent (print _) _ => apply silent_print
         | |- silent (ret _) _ => apply silent_ret
         | |- silent (lift _) _ => apply silent_lift; eassumption
         end.

Lemma transformations_silent (d d1 d2 d3 : Data) :
  replace_deleted d = Ok d1 -> fill_typecode d1 = Ok d2 ->
  pad_plants d2 = Ok d3 -> silent (transformations d) d3.
Proof. intros P1 P2 P3. unfold transformations. silent_run. Qed.

Lemma cleaning_silent (d : Data) : silent (cleaning d) (clean_data d).
Proof. unfold cleaning, log_cleaned. cbv zeta. silent_run. Qed.

Lemma aggregation_silent (d : Data) (t1 t2 t3 t4 t5 : DataFrame) :
  step1 d = Ok t1 -> step2 d t1 = Ok t2 -> step3 d t2 = Ok t3 ->
  step4 d t3 = Ok t4 -> step5 d t4 = Ok t5 -> silent (aggregation d) t5.
Proof.
  intros S1 S2 S3 S4 S5. unfold aggregation, log_step. silent_run.
Qed.

Lemma formatting_silent (t r : DataFrame) :
  reorder t = Ok r -> silent (formatting t) (fill_na r).
Proof. intros H. unfold formatting. cbv zeta. silent_run. Qed.

Lemma load_data_silent (w : World) (d : Data) :
  read_all w = Loaded d -> silent (load_data w) d.
Proof. intros H. unfold load_data. rewrite H. silent_run. Qed.

Lemma export_writes (w : World) (r : DataFrame) :
  write_error w = None -> writes (export w r) r.
Proof.
  intros H. unfold export. rewrite H.
  eapply writes_then_silent; [apply writes_to_excel|]. silent_run.
Qed.

(** When the six tables load and the file can be written, the run exports
    what [pipeline] returns and ends with status 0. *)
Lemma run_exports (w : World) (d : Data) (r : DataFrame) :
  read_all w = Loaded d -> pipeline d = Ok r -> write_error w = None ->
  result_xlsx (snd (run w)) = Some r /\ exit_status (fst (run w)) = 0%Z.
Proof.
  intros Hload H Hw. apply pipeline_ok in H.
  destruct H as (d' & r5 & r' & Hp & Ha & Hr & ->).
  apply prepare_stages in Hp.
  destruct Hp as (d1 & d2 & d3 & P1 & P2 & P3 & ->).
  apply aggregate_ok in Ha.
  destruct Ha as (t1 & t2 & t3 & t4 & S1 & S2 & S3 & S4 & S5).
  assert (W : writes (main w) (fill_na r')).
  { unfold main, after_loading.
    eapply silent_then_writes; [apply silent_print|].
    eapply silent_then_writes; [apply silent_logging|].
    eapply silent_then_writes; [apply silent_logging|].
    eapply silent_then_writes; [apply load_data_silent; exact Hload|].
    eapply silent_then_writes;
      [eapply transformations_silent; eassumption|].
    eapply silent_then_writes; [apply cleaning_silent|].
    eapply silent_then_writes; [eapply aggregation_silent; eassumption|].
    eapply silent_then_writes; [apply formatting_silent; exact Hr|].
    eapply silent_then_writes; [apply silent_logging|].
    eapply writes_then_silent; [apply export_writes; exact Hw|].
    apply silent_print. }
  unfold run. destruct (W start) as (s' & E & F). rewrite E. now split.
Qed.

(** [m] ends the run and leaves the result file as it is. *)
Definition stops {A : Type} (m : Proc A) : Prop :=
  forall s, exists f s',
    m s = (f, s') /\ (forall a, f <> Continue a) /\
    result_xlsx s' = result_xlsx s.

Lemma stops_seq {A B : Type} (m : Proc A) (k : A -> Proc B) :
  stops m -> stops (seqP m k).
Proof.
  intros Hm s. destruct (Hm s) as (f & s1 & E & Hf & F).
  unfold seqP. rewrite E. destruct f as [a|n|e].
  - now elim (Hf a).
  - exists (Exit n), s1. repeat split; [discriminate|exact F].
  - exists (Uncaught e), s1. repeat split; [discriminate|exact F].
Qed.

Lemma silent_then_stops {A B : Type} (m : Proc A) (k : A -> Proc B) (a : A) :
  silent m a -> stops (k a) -> stops (seqP m k).
Proof.
  intros Hm Hk s. destruct (Hm s) as (s1 & E1 & F1).
  destruct (Hk s1) as (f & s2 & E2 & Hf & F2). exists f, s2.
  unfold seqP. rewrite E1, E2. repeat split; [exact Hf|congruence].
Qed.

Lemma stops_lift {A : Type} (m : result A) (e : exn) :
  m = Raise e -> stops (lift m).
Proof.
  intros -> s. exists (Uncaught e), s. repeat split. discriminate.
Qed.

Lemma stops_exit {A : Type} (n : Z) : stops (@exit A n).
Proof. intros s. exists (Exit n), s. repeat split. discriminate. Qed.

Ltac stops_run :=
  repeat match goal with
         | |- stops ((fun _ => _) _) => cbv beta
         | H : ?m = Raise _ |- stops (seqP (lift ?m) _) =>
             apply stops_seq; eapply stops_lift; exact H
         | H : ?m = Raise _ |- stops (lift ?m) => eapply stops_lift; exact H
         | |- stops (exit _) => apply stops_exit
         | |- stops (seqP _ _) => eapply silent_then_stops; [silent_run|]
         end.

Lemma stops_file {A : Type} (m : Proc A) :
  stops m -> result_xlsx (snd (m start)) = None.
Proof.
  intros H. destruct (H start) as (f & s' & E & _ & F). now rewrite E.
Qed.

Lemma main_stops (w : World) (d : Data) :
  read_all w = Loaded d -> stops (after_loading w d) ->
  result_xlsx (snd (run w)) = None.
Proof.
  intros Hload Hp. unfold run. apply stops_file. unfold main.
  eapply silent_then_stops; [apply silent_print|].
  eapply silent_then_stops; [apply silent_logging|].
  eapply silent_then_stops; [apply silent_logging|].
  eapply silent_then_stops; [apply load_data_silent; exact Hload|].
  exact Hp.
Qed.

Ltac phases :=
  repeat match goal with
         | |- stops ((fun _ => _) _) => cbv beta
         | |- stops (seqP (transformations _) _) =>
             eapply silent_then_stops;
             [eapply transformations_silent; eassumption|]
         | |- stops (seqP (cleaning _) _) =>
             eapply silent_then_stops; [apply cleaning_silent|]
         | |- stops (seqP (aggregation _) _) =>
             eapply silent_then_stops;
             [eapply aggregation_silent; eassumption|]
         | |- stops (seqP (formatting _) _) =>
             eapply silent_then_stops;
             [apply formatting_silent; eassumption|]
         | |- stops (seqP (logging _ _) _) =>
             eapply silent_then_stops; [apply silent_logging|]
         end.

(** * Further properties of the script *)

(** ** What a run writes to the log and the console *)

(** [m] goes on with [a], adds the lines [lg] to the log and [cs] to the
    console, and leaves the result file as it is. *)
Definition emits {A : Type} (m : Proc A) (a : A)
           (lg : list (level * string)) (cs : list string) : Prop :=
  forall s, m s = (Continue a,
                   mkEff (log s ++ lg) (console s ++ cs) (result_xlsx s)).

Lemma emits_logging (l : level) (msg : string) :
  emits (logging l msg) tt [(l, msg)] [].
Proof. intros s. unfold logging. now rewrite app_nil_r. Qed.

Lemma emits_print (msg : string) : emits (print msg) tt [] [msg].
Proof. intros s. unfold print. now rewrite app_nil_r. Qed.

Lemma emits_ret {A : Type} (a : A) : emits (ret a) a [] [].
Proof. intros [lg cs f]. unfold ret. simpl. now rewrite !app_nil_r. Qed.

Lemma emits_lift {A : Type} (m : result A) (a : A) :
  m = Ok a -> emits (lift m) a [] [].
Proof. intros -> [lg cs f]. unfold lift. simpl. now rewrite !app_nil_r. Qed.

Lemma emits_seq {A B : Type} (m : Proc A) (k : A -> Proc B) (a : A) (b : B)
      lg1 cs1 lg2 cs2 :
  emits m a lg1 cs1 -> emits (k a) b lg2 cs2 ->
  emits (seqP m k) b (lg1 ++ lg2) (cs1 ++ cs2).
Proof.
  intros Hm Hk s. unfold seqP. rewrite (Hm s), (Hk _). simpl.
  now rewrite !app_assoc.
Qed.

Lemma emits_eq {A : Type} (m : Proc A) (a : A) lg cs lg' cs' :
  emits m a lg cs -> lg = lg' -> cs = cs' -> emits m a lg' cs'.
Proof. now intros H <- <-. Qed.

Ltac emits_run :=
  repeat match goal with
         | |- emits (seqP _ _) _ _ _ => eapply emits_seq
         | |- emits ((fun _ => _) _) _ _ _ => cbv beta
         | |- emits (logging _ _) _ _ _ => apply emits_logging
         | |- emits (print _) _ _ _ => apply emits_print
         | |- emits (ret _) _ _ _ => apply emits_ret
         | |- emits (lift _) _ _ _ => apply emits_lift; eassumption
         end.

Definition null_count_line (d : Data) : string :=
  "Null TypeCode count after filling: "
  ++ Py.str_int (Z.of_nat (List.length
                             (filter isna (col (materials d) "TypeCode")))).

Lemma transformations_emits (d d1 d2 d3 : Data) :
  replace_deleted d = Ok d1 -> fill_typecode d1 = Ok d2 ->
  pad_plants d2 = Ok d3 ->
  emits (transformations d) d3
    [ (INFO, rule); (INFO, "Applying transformations...");
      (INFO, "Replaced whitespace with 'ACTIVE' in DeletedStorageLevel");
      (INFO, "Filled null TypeCode values");
      (INFO, "Converted Plant column to string with leading zeros");
      (INFO, "Transformations applied successfully."); (INFO, rule) ]
    [ "Data Quality Summary:"; "Handling null values in TypeCode...";
      null_count_line d2 ].
Proof.
  intros P1 P2 P3. unfold transformations.
  eapply emits_eq; [emits_run|reflexivity|reflexivity].
Qed.

Definition cleaned_lines (key : string) (df : DataFrame)
  : list (level * string) :=
  [ (INFO, ("Cleaning " ++ key ++ " dataset...")%string);
    (INFO, ("Cleaned " ++ key ++ ": " ++ len_str df ++ " rows")%string) ].

Lemma cleaning_emits (d : Data) :
  emits (cleaning d) (clean_data d)
    ((INFO, "Starting data cleaning process...")
       :: cleaned_lines "materials" (clean (materials d))
       ++ cleaned_lines "plants" (clean (plants d))
       ++ cleaned_lines "storage" (clean (storage d))
       ++ cleaned_lines "suppliers" (clean (suppliers d))
       ++ cleaned_lines "supplier_names" (clean (supplier_names d))
       ++ cleaned_lines "manufacturer_names" (clean (manufacturer_names d))
       ++ [(INFO, "Data cleaning completed")])
    [ "Data cleaning completed" ].
Proof.
  unfold cleaning, log_cleaned. cbv zeta.
  eapply emits_eq; [emits_run|reflexivity|reflexivity].
Qed.

Definition step_line (n : string) (r : DataFrame) : level * string :=
  (INFO, ("Step " ++ n ++ " completed: " ++ len_str r ++ " rows")%string).

Lemma aggregation_emits (d : Data) (t1 t2 t3 t4 t5 : DataFrame) :
  step1 d = Ok t1 -> step2 d t1 = Ok t2 -> step3 d t2 = Ok t3 ->
  step4 d t3 = Ok t4 -> step5 d t4 = Ok t5 ->
  emits (aggregation d) t5
    [ (INFO, rule); (INFO, "Starting data aggregation process...");
      (INFO, "Step 1: Merging materials with manufacturer names...");
      step_line "1" t1;
      (INFO, "Step 2: Merging with plants data..."); step_line "2" t2;
      (INFO, "Step 3: Merging with suppliers data..."); step_line "3" t3;
      (INFO, "Step 4: Adding supplier names..."); step_line "4" t4;
      (INFO, "Step 5: Merging with storage data..."); step_line "5" t5;
      (INFO, "Aggregation completed successfully");
      (INFO, ("Final result: " ++ len_str t5 ++ " rows, "
              ++ width_str t5 ++ " columns")%string);
      (INFO, rule) ]
    [].
Proof.
  intros S1 S2 S3 S4 S5. unfold aggregation, log_step.
  eapply emits_eq; [emits_run|reflexivity|reflexivity].
Qed.

Definition nulls_left (r : DataFrame) : string :=
  Py.str_int (Z.of_nat (count_na r)).

Lemma formatting_emits (t r : DataFrame) :
  reorder t = Ok r ->
  emits (formatting t) (fill_na r)
    [ (INFO, "Formatting result columns...");
      (INFO, ("Columns formatted: " ++ repr_labels (DF.columns r))%string);
      (INFO, "Filling null values with 'N/A'...");
      (INFO, ("Remaining null values after filling: "
              ++ nulls_left (fill_na r))%string) ]
    [ ("Remaining null values: " ++ nulls_left (fill_na r))%string;
      "FINAL RESULT SUMMARY";
      ("Total rows: " ++ len_str (fill_na r))%string ].
Proof.
  intros H. unfold formatting. cbv zeta.
  eapply emits_eq; [emits_run|reflexivity|reflexivity].
Qed.

Lemma load_data_emits (w : World) (d : Data) :
  read_all w = Loaded d ->
  emits (load_data w) d
    [ (INFO, "All files loaded successfully"); (INFO, rule) ] [].
Proof.
  intros H. unfold load_data. rewrite H.
  eapply emits_eq; [emits_run|reflexivity|reflexivity].
Qed.

Lemma emits_then {A B : Type} (m : Proc A) (k : A -> Proc B) (a : A)
      lg cs (s : Effects) :
  emits m a lg cs ->
  seqP m k s = k a (mkEff (log s ++ lg) (console s ++ cs) (result_xlsx s)).
Proof. intros H. unfold seqP. now rewrite (H s). Qed.

(** The log and the console when the export starts. *)
Definition log_before_steps (d3 : Data) : list (level * string) :=
  [ (INFO, rule); (INFO, "Starting data loading process...");
    (INFO, "All files loaded successfully"); (INFO, rule);
    (INFO, rule); (INFO, "Applying transformations...");
    (INFO, "Replaced whitespace with 'ACTIVE' in DeletedStorageLevel");
    (INFO, "Filled null TypeCode values");
    (INFO, "Converted Plant column to string with leading zeros");
    (INFO, "Transformations applied successfully."); (INFO, rule);
    (INFO, "Starting data cleaning process...") ]
  ++ cleaned_lines "materials" (clean (materials d3))
  ++ cleaned_lines "plants" (clean (plants d3))
  ++ cleaned_lines "storage" (clean (storage d3))
  ++ cleaned_lines "suppliers" (clean (suppliers d3))
  ++ cleaned_lines "supplier_names" (clean (supplier_names d3))
  ++ cleaned_lines "manufacturer_names" (clean (manufacturer_names d3))
  ++ [ (INFO, "Data cleaning completed");
       (INFO, rule); (INFO, "Starting data aggregation process...") ].

Definition step_lines (t1 t2 t3 t4 t5 : DataFrame) : list (level * string) :=
  [ (INFO, "Step 1: Merging materials with manufacturer names...");
    step_line "1" t1;
    (INFO, "Step 2: Merging with plants data..."); step_line "2" t2;
    (INFO, "Step 3: Merging with suppliers data..."); step_line "3" t3;
    (INFO, "Step 4: Adding supplier names..."); step_line "4" t4;
    (INFO, "Step 5: Merging with storage data..."); step_line "5" t5 ].

Definition log_after_steps (t5 r : DataFrame) : list (level * string) :=
  [ (INFO, "Aggregation completed successfully");
    (INFO, ("Final result: " ++ len_str t5 ++ " rows, "
            ++ width_str t5 ++ " columns")%string);
    (INFO, rule);
    (INFO, "Formatting result columns...");
    (INFO, ("Columns formatted: " ++ repr_labels (DF.columns r))%string);
    (INFO, "Filling null values with 'N/A'...") ].

Definition log_before_export (d3 : Data) (t1 t2 t3 t4 t5 r : DataFrame)
  : list (level * string) :=
  log_before_steps d3
  ++ step_lines t1 t2 t3 t4 t5
  ++ log_after_steps t5 r
  ++ [ (INFO, ("Remaining null values after filling: "
               ++ nulls_left (fill_na r))%string) ].

Definition console_before_export (d2 : Data) (r : DataFrame) : list string :=
  [ "Logging configured - output will be written to log.txt";
    "Data Quality Summary:"; "Handling null values in TypeCode...";
    null_count_line d2;
    "Data cleaning completed";
    ("Remaining null values: " ++ nulls_left (fill_na r))%string;
    "FINAL RESULT SUMMARY";
    ("Total rows: " ++ len_str (fill_na r))%string ].

(** The last lines of the script: the export and the closing message. *)
Definition finish (w : World) (r : DataFrame) : Proc unit :=
  logging INFO "Starting export to Excel..." >>
  export w r >>
  print "Process completed successfully!".

(** The export and the closing message, by what writing the file does. *)
Lemma finish_fails (w : World) (r : DataFrame) (e : string)
      (saved : option DataFrame) (s : Effects) :
  write_error w = Some (e, saved) ->
  finish w r s
  = (Exit 1,
     mkEff (log s ++ [ (INFO, "Starting export to Excel...");
                       (ERROR, ("Error exporting to Excel: " ++ e)%string) ])
           (console s ++ [ ("Error exporting to Excel: " ++ e)%string ])
           (match saved with
            | Some df => Some df
            | None => result_xlsx s
            end)).
Proof.
  intros H. unfold finish, export. rewrite H.
  unfold seqP, logging, print, exit, failed_write.
  cbn [log console result_xlsx].
  now rewrite <- app_assoc.
Qed.

Lemma finish_writes (w : World) (r : DataFrame) (s : Effects) :
  write_error w = None ->
  finish w r s
  = (Continue tt,
     mkEff (log s ++ [ (INFO, "Starting export to Excel...");
                       (INFO, ("Successfully exported " ++ len_str r
                               ++ " rows to result.xlsx")%string) ])
           (console s ++ [ ("Successfully exported " ++ len_str r
                            ++ " rows to result.xlsx")%string;
                           "Process completed successfully!" ])
           (Some r)).
Proof.
  intros H. unfold finish, export. rewrite H.
  unfold seqP, logging, print, to_excel. cbn [log console result_xlsx].
  now rewrite <- !app_assoc.
Qed.

(** The run up to the export, when every stage returns. *)
Lemma run_reaches_export (w : World) (d d1 d2 d3 : Data)
      (t1 t2 t3 t4 t5 r : DataFrame) :
  read_all w = Loaded d ->
  replace_deleted d = Ok d1 -> fill_typecode d1 = Ok d2 ->
  pad_plants d2 = Ok d3 ->
  step1 (clean_data d3) = Ok t1 -> step2 (clean_data d3) t1 = Ok t2 ->
  step3 (clean_data d3) t2 = Ok t3 -> step4 (clean_data d3) t3 = Ok t4 ->
  step5 (clean_data d3) t4 = Ok t5 -> reorder t5 = Ok r ->
  run w = finish w (fill_na r)
            (mkEff (log_before_export d3 t1 t2 t3 t4 t5 r)
                   (console_before_export d2 r) None).
Proof.
  intros Hload P1 P2 P3 S1 S2 S3 S4 S5 R.
  unfold run, main, after_loading.
  rewrite (emits_then _ _ tt _ _ _ (emits_print _)).
  rewrite (emits_then _ _ tt _ _ _ (emits_logging _ _)).
  rewrite (emits_then _ _ tt _ _ _ (emits_logging _ _)).
  rewrite (emits_then _ _ d _ _ _ (load_data_emits w d Hload)).
  rewrite (emits_then _ _ d3 _ _ _ (transformations_emits d d1 d2 d3 P1 P2 P3)).
  rewrite (emits_then _ _ _ _ _ _ (cleaning_emits d3)).
  rewrite (emits_then _ _ t5 _ _ _
             (aggregation_emits _ t1 t2 t3 t4 t5 S1 S2 S3 S4 S5)).
  rewrite (emits_then _ _ _ _ _ _ (formatting_emits t5 r R)).
  reflexivity.
Qed.

Lemma pipeline_stages (d : Data) (out : DataFrame) :
  pipeline d = Ok out ->
  exists d1 d2 d3 t1 t2 t3 t4 t5 r,
    replace_deleted d = Ok d1 /\ fill_typecode d1 = Ok d2 /\
    pad_plants d2 = Ok d3 /\
    step1 (clean_data d3) = Ok t1 /\ step2 (clean_data d3) t1 = Ok t2 /\
    step3 (clean_data d3) t2 = Ok t3 /\ step4 (clean_data d3) t3 = Ok t4 /\
    step5 (clean_data d3) t4 = Ok t5 /\ reorder t5 = Ok r /\
    out = fill_na r /\ prepare d = Ok (clean_data d3).
Proof.
  intros H. apply pipeline_ok in H.
  destruct H as (d' & r5 & r & Hp & Ha & Hr & ->).
  pose proof Hp as Hp'. apply prepare_stages in Hp.
  destruct Hp as (d1 & d2 & d3 & P1 & P2 & P3 & ->).
  apply aggregate_ok in Ha.
  destruct Ha as (t1 & t2 & t3 & t4 & S1 & S2 & S3 & S4 & S5).
  exists d1, d2, d3, t1, t2, t3, t4, r5, r. repeat split; assumption.
Qed.

Lemma log_before_export_info (d3 : Data) (t1 t2 t3 t4 t5 r : DataFrame) :
  Forall (fun p => fst p = INFO) (log_before_export d3 t1 t2 t3 t4 t5 r).
Proof.
  unfold log_before_export, log_before_steps, step_lines, log_after_steps,
    cleaned_lines, step_line.
  cbn [app]. repeat constructor.
Qed.

(** Nothing is null after [fillna]. *)
Lemma count_na_fill_na (r : DataFrame) : count_na (fill_na r) = 0.
Proof.
  unfold count_na, fill_na, DF.fillna. cbn [cols].
  induction (cols r) as [|[n v] l IH]; [reflexivity|].
  cbn [map list_sum fold_right snd]. unfold list_sum in IH. rewrite IH.
  assert (E : filter isna (Series_.fillna (Str "N/A") v) = []).
  { unfold Series_.fillna. induction v as [|c v IHv]; [reflexivity|].
    cbn [map filter]. destruct c; cbn [isna]; exact IHv. }
  now rewrite E.
Qed.

(** ** Stages outside any [try] *)

(** [m] behaves as the computation [r]: it goes on with the value of [r] or
    ends with the exception of [r], uncaught; meanwhile it logs at level
    INFO only and leaves the result file as it is. *)
Definition follows {A : Type} (m : Proc A) (r : result A) : Prop :=
  forall s, exists lg cs,
    m s = (match r with
           | Ok a => Continue a
           | Raise e => Uncaught e
           end,
           mkEff (log s ++ lg) (console s ++ cs) (result_xlsx s)) /\
    Forall (fun p => fst p = INFO) lg.

Lemma follows_seq {A B : Type} (m : Proc A) (k : A -> Proc B)
      (r : result A) (f : A -> result B) :
  follows m r -> (forall a, follows (k a) (f a)) ->
  follows (seqP m k) (bind r f).
Proof.
  intros Hm Hk s. destruct (Hm s) as (lg & cs & E & I).
  unfold seqP. rewrite E. destruct r as [a|e]; cbn [bind].
  - destruct (Hk a (mkEff (log s ++ lg) (console s ++ cs) (result_xlsx s)))
      as (lg' & cs' & E' & I').
    exists (lg ++ lg'), (cs ++ cs'). rewrite E'. cbn [log console result_xlsx].
    rewrite !app_assoc. split; [reflexivity|]. apply Forall_app. now split.
  - exists lg, cs. now split.
Qed.

Lemma follows_logging (msg : string) : follows (logging INFO msg) (Ok tt).
Proof.
  intros s. exists [(INFO, msg)], []. unfold logging.
  rewrite app_nil_r. split; [reflexivity|]. now repeat constructor.
Qed.

Lemma follows_print (msg : string) : follows (print msg) (Ok tt).
Proof.
  intros s. exists [], [msg]. unfold print.
  rewrite app_nil_r. split; [reflexivity|]. constructor.
Qed.

Lemma follows_ret {A : Type} (a : A) : follows (ret a) (Ok a).
Proof.
  intros s. exists [], []. unfold ret. rewrite !app_nil_r.
  destruct s. split; [reflexivity|]. constructor.
Qed.

Lemma follows_lift {A : Type} (r : result A) : follows (lift r) r.
Proof.
  intros s. exists [], []. unfold lift. rewrite !app_nil_r.
  destruct s, r; (split; [reflexivity|constructor]).
Qed.

Lemma follows_eq {A : Type} (m : Proc A) (r r' : result A) :
  follows m r -> r = r' -> follows m r'.
Proof. now intros H <-. Qed.

Ltac follows_run :=
  repeat match goal with
         | |- follows (seqP _ _) _ => eapply follows_seq; [|intros ?]
         | |- follows ((fun _ => _) _) _ => cbv beta
         | |- follows (logging INFO _) _ => apply follows_logging
         | |- follows (print _) _ => apply follows_print
         | |- follows (ret _) _ => apply follows_ret
         | |- follows (lift _) _ => apply follows_lift
         end.

Lemma bind_ret {A : Type} (m : result A) : bind m (fun a => Ok a) = m.
Proof. now destruct m. Qed.

Lemma transformations_follows (d : Data) :
  follows (transformations d)
          (d1 <- replace_deleted d ;; d2 <- fill_typecode d1 ;; pad_plants d2).
Proof.
  eapply follows_eq; [unfold transformations; follows_run|].
  cbn [bind]. destruct (replace_deleted d) as [d1|]; cbn [bind]; [|reflexivity].
  destruct (fill_typecode d1) as [d2|]; cbn [bind]; [|reflexivity].
  apply bind_ret.
Qed.

Lemma cleaning_follows (d : Data) : follows (cleaning d) (Ok (clean_data d)).
Proof.
  eapply follows_eq;
    [unfold cleaning, log_cleaned; cbv zeta; follows_run|reflexivity].
Qed.

Lemma aggregation_follows (d : Data) : follows (aggregation d) (aggregate d).
Proof.
  eapply follows_eq; [unfold aggregation, log_step; follows_run|].
  unfold aggregate. cbn [bind].
  destruct (step1 d) as [t1|]; cbn [bind]; [|reflexivity].
  destruct (step2 d t1) as [t2|]; cbn [bind]; [|reflexivity].
  destruct (step3 d t2) as [t3|]; cbn [bind]; [|reflexivity].
  destruct (step4 d t3) as [t4|]; cbn [bind]; [|reflexivity].
  apply bind_ret.
Qed.

Lemma formatting_follows (t : DataFrame) :
  follows (formatting t) (r <- reorder t ;; Ok (fill_na r)).
Proof.
  eapply follows_eq; [unfold formatting; cbv zeta; follows_run|].
  cbn [bind]. reflexivity.
Qed.

(** The stages between loading and export. *)
Definition stages (d : Data) : Proc DataFrame :=
  d <~ transformations d ;;
  d <~ cleaning d ;;
  r <~ aggregation d ;;
  formatting r.

Lemma stages_follow (d : Data) : follows (stages d) (pipeline d).
Proof.
  eapply follows_eq.
  - unfold stages.
    eapply follows_seq; [apply transformations_follows|intros d3].
    eapply follows_seq; [apply cleaning_follows|intros d'].
    eapply follows_seq; [apply aggregation_follows|intros r].
    apply formatting_follows.
  - unfold pipeline, prepare.
    destruct (replace_deleted d) as [d1|]; cbn [bind]; [|reflexivity].
    destruct (fill_typecode d1) as [d2|]; cbn [bind]; [|reflexivity].
    destruct (pad_plants d2) as [d3|]; cbn [bind]; reflexivity.
Qed.

Lemma seqP_assoc {A B C : Type} (m : Proc A) (k : A -> Proc B)
      (h : B -> Proc C) (s : Effects) :
  seqP (seqP m k) h s = seqP m (fun a => seqP (k a) h) s.
Proof. unfold seqP. destruct (m s) as [[a|n|e] s']; reflexivity. Qed.

Lemma after_loading_stages (w : World) (d : Data) (s : Effects) :
  after_loading w d s
  = seqP (stages d) (finish w) s.
Proof.
  unfold after_loading, stages, finish, seqP.
  destruct (transformations d s) as [[d3|n|e] s1]; try reflexivity.
  destruct (cleaning d3 s1) as [[d'|n|e] s2]; try reflexivity.
  destruct (aggregation d' s2) as [[r|n|e] s3]; reflexivity.
Qed.

(** The lines of a run before the stages start. *)
Lemma main_loaded (w : World) (d : Data) :
  read_all w = Loaded d ->
  run w = after_loading w d
            (mkEff [ (INFO, rule); (INFO, "Starting data loading process...");
                     (INFO, "All files loaded successfully"); (INFO, rule) ]
                   [ "Logging configured - output will be written to log.txt" ]
                   None).
Proof.
  intros H. unfold run, main.
  rewrite (emits_then _ _ tt _ _ _ (emits_print _)).
  rewrite (emits_then _ _ tt _ _ _ (emits_logging _ _)).
  rewrite (emits_then _ _ tt _ _ _ (emits_logging _ _)).
  rewrite (emits_then _ _ d _ _ _ (load_data_emits w d H)).
  reflexivity.
Qed.

Lemma main_not_loaded (w : World) :
  (forall d, read_all w <> Loaded d) ->
  exists msg e,
    run w = (Exit 1,
             mkEff [ (INFO, rule); (INFO, "Starting data loading process...");
                     (ERROR, msg) ]
                   [ "Logging configured - output will be written to log.txt";
                     ("Error: " ++ e)%string ]
                   None).
Proof.
  intros H. unfold run, main, load_data.
  destruct (read_all w) as [d|e|e].
  - now elim (H d).
  - exists ("File not found: " ++ e)%string, e. reflexivity.
  - exists ("An unexpected error occurred: " ++ e)%string, e. reflexivity.
Qed.

(** The outcome and the result file of a run, for every state of the
    files. *)
Lemma run_result (w : World) :
  (fst (run w), result_xlsx (snd (run w)))
  = match read_all w with
    | Loaded d =>
        match pipeline d with
        | Ok r =>
            match write_error w with
            | None => (Continue tt, Some r)
            | Some (_, saved) => (Exit 1, saved)
            end
        | Raise e => (Uncaught e, None)
        end
    | _ => (Exit 1, None)
    end.
Proof.
  destruct (read_all w) as [d|e|e] eqn:Hload;
    [|unfold run, main, load_data; rewrite Hload; reflexivity..].
  pose proof (main_loaded w d Hload) as R.
  rewrite after_loading_stages in R. unfold seqP at 1 in R.
  match type of R with
  | context [stages d ?s] =>
      destruct (stages_follow d s) as (lg & cs & Es & _)
  end.
  rewrite Es in R. rewrite R.
  destruct (pipeline d) as [r|e]; [|reflexivity].
  destruct (write_error w) as [[e saved]|] eqn:Hw.
  - rewrite (finish_fails w r e saved _ Hw). now destruct saved.
  - rewrite (finish_writes w r _ Hw). reflexivity.
Qed.

(** X1: the outcome of a run, for every state of the files.  The run ends
    with [exit(1)] when a read fails or the export fails, with the uncaught
    exception of the first stage that raises one, and normally otherwise.
    [result.xlsx] holds what the pipeline returns when the run ends
    normally, what the failed write saved when the export fails, and is not
    written otherwise.  So the exit status is 0 only with the whole result
    in the file, and it is 1 whenever no file is written. *)
Theorem run_outcome (w : World) :
  (fst (run w), result_xlsx (snd (run w)))
  = match read_all w with
    | Loaded d =>
        match pipeline d with
        | Ok r =>
            match write_error w with
            | None => (Continue tt, Some r)
            | Some (_, saved) => (Exit 1, saved)
            end
        | Raise e => (Uncaught e, None)
        end
    | _ => (Exit 1, None)
    end /\
  (exit_status (fst (run w)) = 0%Z ->
   exists d r,
     read_all w = Loaded d /\ pipeline d = Ok r /\ write_error w = None /\
     result_xlsx (snd (run w)) = Some r) /\
  (result_xlsx (snd (run w)) = None -> exit_status (fst (run w)) = 1%Z).
Proof.
  pose proof (run_result w) as E. split; [exact E|].
  destruct (read_all w) as [d|e|e] eqn:Hl;
    [destruct (pipeline d) as [r|e] eqn:Hp;
     [destruct (write_error w) as [[e saved]|] eqn:Hw|]|..];
    inversion E as [[F R]]; rewrite F; cbn [exit_status];
    (split; [intros H0; try discriminate H0|intros H0; try reflexivity]).
  - exists d, r. repeat split; first [assumption|reflexivity].
  - rewrite R in H0. discriminate H0.
Qed.

(** X2: an exception raised between loading and export is not caught and
    not logged: the run ends with it (status 1), the log holds the four
    lines of a successful load followed by lines at level INFO only, and no
    result file is written. *)
Theorem stage_failure_is_not_logged (w : World) (d : Data) (e : exn) :
  read_all w = Loaded d -> pipeline d = Raise e ->
  fst (run w) = Uncaught e /\
  exit_status (fst (run w)) = 1%Z /\
  (exists lg,
     log (snd (run w))
     = [ (INFO, rule); (INFO, "Starting data loading process...");
         (INFO, "All files loaded successfully"); (INFO, rule) ] ++ lg /\
     Forall (fun p => fst p = INFO) lg) /\
  Forall (fun p => fst p = INFO) (log (snd (run w))) /\
  result_xlsx (snd (run w)) = None.
Proof.
  intros Hload Hp.
  pose proof (main_loaded w d Hload) as R.
  rewrite after_loading_stages in R. unfold seqP at 1 in R.
  match type of R with
  | context [stages d ?s] =>
      destruct (stages_follow d s) as (lg & cs & Es & I)
  end.
  rewrite Es, Hp in R. rewrite R. cbn [fst snd log result_xlsx exit_status].
  repeat split; [exists lg; now split|].
  apply Forall_app. split; [now repeat constructor|exact I].
Qed.

(** A workbook whose storage sheet has no DeletedStorageLevel column. *)
Definition no_level_world : World :=
  mkWorld (fun f _ =>
             if String.eqb f "storage.xlsx"
             then Loaded (mkDF 1 [ ("MaterialReference", [Str "M1"]);
                                   ("Plant", [Int 7]) ])
             else Loaded (mkDF 0 []))
          None.

Lemma stage_failure_is_not_logged_witness :
  fst (run no_level_world) = Uncaught (KeyError "DeletedStorageLevel") /\
  exit_status (fst (run no_level_world)) = 1%Z.
Proof.
  refine ((fun H => conj (proj1 H) (proj1 (proj2 H)))
            (stage_failure_is_not_logged no_level_world _ _ _ _));
    vm_compute; reflexivity.
Defined.

(** X3: the script names the column it replaces in: without a column
    DeletedStorageLevel in the storage sheet the first transformation raises
    KeyError and the run ends there, whatever else the six sheets hold. *)
Theorem missing_level_column (w : World) (d : Data) :
  read_all w = Loaded d ->
  ~ In "DeletedStorageLevel" (DF.columns (storage d)) ->
  pipeline d = Raise (KeyError "DeletedStorageLevel") /\
  run w
  = (Uncaught (KeyError "DeletedStorageLevel"),
     mkEff [ (INFO, rule); (INFO, "Starting data loading process...");
             (INFO, "All files loaded successfully"); (INFO, rule);
             (INFO, rule); (INFO, "Applying transformations...") ]
           [ "Logging configured - output will be written to log.txt" ]
           None).
Proof.
  intros Hload Hc.
  assert (L : DF.lookup "DeletedStorageLevel" (cols (storage d)) = None).
  { unfold DF.columns in Hc. induction (cols (storage d)) as [|[n v] l IH];
      [reflexivity|].
    cbn [DF.lookup]. destruct (String.eqb n "DeletedStorageLevel") eqn:E.
    - apply String.eqb_eq in E. elim Hc. now left.
    - apply IH. intros H. apply Hc. now right. }
  assert (P : replace_deleted d = Raise (KeyError "DeletedStorageLevel")).
  { unfold replace_deleted, DF.getitem. now rewrite L. }
  split; [unfold pipeline, prepare; now rewrite P|].
  rewrite (main_loaded w d Hload).
  unfold after_loading, transformations.
  rewrite !seqP_assoc.
  rewrite (emits_then _ _ tt _ _ _ (emits_logging _ _)).
  rewrite !seqP_assoc.
  rewrite (emits_then _ _ tt _ _ _ (emits_logging _ _)).
  rewrite !seqP_assoc.
  unfold seqP at 1. unfold lift. rewrite P. reflexivity.
Qed.

Lemma missing_level_column_witness :
  pipeline (mkData (mkDF 0 []) (mkDF 0 [])
                   (mkDF 1 [ ("MaterialReference", [Str "M1"]);
                             ("Plant", [Int 7]) ])
                   (mkDF 0 []) (mkDF 0 []) (mkDF 0 []))
  = Raise (KeyError "DeletedStorageLevel").
Proof.
  refine (proj1 (missing_level_column no_level_world _ _ _)).
  - vm_compute. reflexivity.
  - cbn. intros [H|[H|[]]]; discriminate H.
Defined.

(** The six sheets as the files of a run; [err] is what writing the result
    raises, if anything. *)
Definition sheets_world (x : Sheet.Sheets)
           (err : option (string * option DataFrame)) : World :=
  mkWorld (fun f _ =>
             let d := Sheet.frames x in
             if String.eqb f "materials.xlsx" then Loaded (materials d)
             else if String.eqb f "plants.xlsx" then Loaded (plants d)
             else if String.eqb f "storage.xlsx" then Loaded (storage d)
             else if String.eqb f "suppliers.xlsx" then Loaded (suppliers d)
             else if String.eqb f "supplier-names.xlsx"
                  then Loaded (supplier_names d)
             else if String.eqb f "manufacturer-names.xlsx"
                  then Loaded (manufacturer_names d)
             else FileNotFoundError f)
          err.

Lemma sheets_world_loads (x : Sheet.Sheets)
      (err : option (string * option DataFrame)) :
  read_all (sheets_world x err) = Loaded (Sheet.frames x).
Proof. reflexivity. Qed.




(** X5: the log and the console of a successful run.  When the tables
    load, every stage returns and the file is written, the run ends with
    status 0 and every line of the log is at level INFO; the log has, in
    this order, the five step lines with the row count of each join, the
    count of nulls left after the fill, which is always 0, and the export
    line with the row count of the export as its last line; the console
    has the count of nulls left, 0, the row count and the closing
    message. *)
Theorem successful_run_log (w : World) (d : Data) (out : DataFrame) :
  read_all w = Loaded d -> pipeline d = Ok out -> write_error w = None ->
  exists d' t1 t2 t3 t4 t5,
    prepare d = Ok d' /\
    step1 d' = Ok t1 /\ step2 d' t1 = Ok t2 /\ step3 d' t2 = Ok t3 /\
    step4 d' t3 = Ok t4 /\ step5 d' t4 = Ok t5 /\
    exit_status (fst (run w)) = 0%Z /\
    Forall (fun p => fst p = INFO) (log (snd (run w))) /\
    (exists lg lg',
       log (snd (run w))
       = lg
         ++ [ (INFO, "Step 1: Merging materials with manufacturer names...");
              (INFO, ("Step 1 completed: " ++ len_str t1 ++ " rows")%string);
              (INFO, "Step 2: Merging with plants data...");
              (INFO, ("Step 2 completed: " ++ len_str t2 ++ " rows")%string);
              (INFO, "Step 3: Merging with suppliers data...");
              (INFO, ("Step 3 completed: " ++ len_str t3 ++ " rows")%string);
              (INFO, "Step 4: Adding supplier names...");
              (INFO, ("Step 4 completed: " ++ len_str t4 ++ " rows")%string);
              (INFO, "Step 5: Merging with storage data...");
              (INFO, ("Step 5 completed: " ++ len_str t5 ++ " rows")%string) ]
         ++ lg'
         ++ [ (INFO, "Remaining null values after filling: 0");
              (INFO, "Starting export to Excel...");
              (INFO, ("Successfully exported " ++ len_str out
                      ++ " rows to result.xlsx")%string) ]) /\
    In "Remaining null values: 0" (console (snd (run w))) /\
    In ("Total rows: " ++ len_str out)%string (console (snd (run w))) /\
    In "Process completed successfully!" (console (snd (run w))).
Proof.
  intros Hload Hp Hw.
  destruct (pipeline_stages d out Hp)
    as (d1 & d2 & d3 & t1 & t2 & t3 & t4 & t5 & r
        & P1 & P2 & P3 & S1 & S2 & S3 & S4 & S5 & R & -> & Hd).
  exists (clean_data d3), t1, t2, t3, t4, t5.
  repeat (split; [assumption|]).
  rewrite (run_reaches_export w d d1 d2 d3 t1 t2 t3 t4 t5 r
             Hload P1 P2 P3 S1 S2 S3 S4 S5 R).
  rewrite (finish_writes w _ _ Hw).
  pose proof (log_before_export_info d3 t1 t2 t3 t4 t5 r) as I.
  cbn [fst snd log console result_xlsx exit_status].
  split; [reflexivity|]. split.
  { apply Forall_app. split; [exact I|]. now repeat constructor. }
  unfold log_before_export, console_before_export, nulls_left.
  rewrite (count_na_fill_na r).
  change (Py.str_int (Z.of_nat 0)) with "0".
  split.
  - exists (log_before_steps d3), (log_after_steps t5 r).
    set (A := log_before_steps d3). set (B := log_after_steps t5 r).
    unfold step_lines, step_line.
    rewrite <- !app_assoc. reflexivity.
  - split; [|split]; apply in_or_app.
    + left. do 5 right. now left.
    + left. do 7 right. now left.
    + right. right. now left.
Qed.

Lemma successful_run_log_witness :
  exists d' t1 t2 t3 t4 t5,
    prepare (Sheet.frames fan_out_example) = Ok d' /\
    step1 d' = Ok t1 /\ step2 d' t1 = Ok t2 /\ step3 d' t2 = Ok t3 /\
    step4 d' t3 = Ok t4 /\ step5 d' t4 = Ok t5 /\
    exit_status (fst (run (sheets_world fan_out_example None))) = 0%Z.
Proof.
  destruct (successful_run_log (sheets_world fan_out_example None)
              (Sheet.frames fan_out_example) fan_out_export
              (sheets_world_loads fan_out_example None) fan_out_run eq_refl)
    as (d' & t1 & t2 & t3 & t4 & t5 & H1 & H2 & H3 & H4 & H5 & H6 & H7 & _).
  exists d', t1, t2, t3, t4, t5.
  exact (conj H1 (conj H2 (conj H3 (conj H4 (conj H5 (conj H6 H7)))))).
Defined.

(** * The rows of the export *)

(** [df[c].iloc[i]] *)
Definition value (df : DataFrame) (c : string) (i : nat) : cell :=
  nth i (col df c) NA.

(** The cell of the right row that a left join pairs with a left row, a
    null when it pairs it with none. *)
Definition right_value (df : DataFrame) (c : string) (oj : option nat) : cell :=
  match oj with
  | Some j => value df c j
  | None => NA
  end.

(** A cell after [fillna('N/A')]. *)
Definition shown (c : cell) : cell := if isna c then Str "N/A" else c.

(** The right row [oj] is one that a left join on [on] gives to a left row
    with the key [key]: a row of [r] with a matching key, or no row when no
    row of [r] has a matching key. *)
Definition joined (r : DataFrame) (oj : option nat) (key : list cell)
           (on : list string) : Prop :=
  match oj with
  | Some j =>
      j < nrows r /\
      DF.keys_eqb key (map (fun c => value r c j) on) = true
  | None =>
      forall j, j < nrows r ->
                DF.keys_eqb key (map (fun c => value r c j) on) = false
  end.

Lemma nth_error_lt {A : Type} (l : list A) (i : nat) (a : A) :
  nth_error l i = Some a -> i < List.length l.
Proof. intros H. apply nth_error_Some. now rewrite H. Qed.

Lemma nth_take_left (idx : list (nat * option nat)) (v : Series) (k : nat) :
  k < List.length idx ->
  nth k (DF.take_left idx v) NA = nth (fst (nth k idx (0, None))) v NA.
Proof.
  intros H. unfold DF.take_left.
  rewrite (nth_indep _ NA (nth (fst (0, @None nat)) v NA))
    by now rewrite length_map.
  apply (map_nth (fun p => nth (fst p) v NA)).
Qed.

Lemma nth_take_right (idx : list (nat * option nat)) (v : Series) (k : nat) :
  k < List.length idx ->
  nth k (DF.take_right idx v) NA
  = match snd (nth k idx (0, None)) with
    | Some j => nth j v NA
    | None => NA
    end.
Proof.
  intros H. unfold DF.take_right.
  rewrite (nth_indep _ NA
             ((fun p : nat * option nat =>
                 match snd p with Some j => nth j v NA | None => NA end)
                (0, None)))
    by now rewrite length_map.
  apply (map_nth (fun p : nat * option nat =>
                    match snd p with Some j => nth j v NA | None => NA end)).
Qed.

Lemma nth_fillna (v : Series) (k : nat) :
  k < List.length v ->
  nth k (Series_.fillna (Str "N/A") v) NA = shown (nth k v NA).
Proof.
  intros H. unfold Series_.fillna.
  rewrite (nth_indep _ NA ((fun c => if isna c then Str "N/A" else c) NA))
    by now rewrite length_map.
  apply (map_nth (fun c => if isna c then Str "N/A" else c)).
Qed.

(** The row at position [k] of a left join: its left row is a row of the
    left table and its right row is joined to the key of that left row. *)
Lemma indexer_row (l r : DataFrame) (on : list string) (k : nat) :
  k < List.length (indexer l r on) ->
  fst (nth k (indexer l r on) (0, None)) < nrows l /\
  joined r (snd (nth k (indexer l r on) (0, None)))
         (map (fun c => value l c (fst (nth k (indexer l r on) (0, None))))
              on)
         on.
Proof.
  intros Hk. pose proof (nth_In _ (0, @None nat) Hk) as Hin.
  destruct (nth k (indexer l r on) (0, None)) as [i oj]. cbn [fst snd].
  unfold indexer in Hin. apply in_left_indexer in Hin.
  destruct Hin as (key & Hkey & Hm).
  assert (Hi : i < nrows l).
  { apply nth_error_lt in Hkey. now rewrite length_zip_rows in Hkey. }
  rewrite (nth_error_zip_rows _ _ _ Hi) in Hkey.
  inversion Hkey as [Ek]; clear Hkey. rewrite map_map in Ek.
  split; [exact Hi|].
  unfold value. rewrite Ek. clear Ek.
  destruct oj as [j|]; cbn [joined]; unfold value.
  - apply in_matches in Hm. destruct Hm as (rk & Hrk & Heq).
    assert (Hj : j < nrows r).
    { apply nth_error_lt in Hrk. now rewrite length_zip_rows in Hrk. }
    rewrite (nth_error_zip_rows _ _ _ Hj) in Hrk.
    inversion Hrk as [Er]; clear Hrk. rewrite map_map in Er.
    split; [exact Hj|]. now rewrite Er.
  - intros j Hj.
    destruct (DF.keys_eqb key (map (fun c => nth j (col r c) NA) on)) eqn:E;
      [|reflexivity].
    assert (Hin : In j (DF.matches key
                          (DF.zip_rows (map (col r) on) (nrows r)))).
    { apply in_matches. eexists. split.
      - apply (nth_error_zip_rows _ _ _ Hj).
      - now rewrite map_map. }
    rewrite Hm in Hin. destruct Hin.
Qed.

Lemma value_left (r' : DataFrame) (idx : list (nat * option nat))
      (r : DataFrame) (c : string) (k : nat) :
  col r' c = DF.take_left idx (col r c) -> k < List.length idx ->
  value r' c k = value r c (fst (nth k idx (0, None))).
Proof. intros E H. unfold value. rewrite E. now apply nth_take_left. Qed.

Lemma value_right (r' : DataFrame) (idx : list (nat * option nat))
      (r : DataFrame) (c : string) (k : nat) :
  col r' c = DF.take_right idx (col r c) -> k < List.length idx ->
  value r' c k = right_value r c (snd (nth k idx (0, None))).
Proof.
  intros E H. unfold value, right_value. rewrite E.
  rewrite nth_take_right by exact H.
  now destruct (snd (nth k idx (0, None))).
Qed.

Lemma value_shown (out r : DataFrame) (c : string) (k : nat) :
  col out c = Series_.fillna (Str "N/A") (col r c) ->
  k < List.length (col r c) ->
  value out c k = shown (value r c k).
Proof. intros E H. unfold value. rewrite E. now apply nth_fillna. Qed.

Lemma indexer_row_complete (l r : DataFrame) (on : list string) (i : nat)
      (oj : option nat) :
  i < nrows l ->
  joined r oj (map (fun c => value l c i) on) on ->
  exists k, k < List.length (indexer l r on) /\
            nth k (indexer l r on) (0, None) = (i, oj).
Proof.
  intros Hi J.
  assert (Hin : In (i, oj) (indexer l r on)).
  { unfold indexer. apply in_left_indexer.
    exists (map (fun c => value l c i) on). split.
    - rewrite (nth_error_zip_rows _ _ _ Hi). now rewrite map_map.
    - destruct oj as [j|]; cbn [joined] in J.
      + destruct J as [Hj E]. apply in_matches. eexists. split.
        * apply (nth_error_zip_rows _ _ _ Hj).
        * now rewrite map_map.
      + apply matches_nil. intros rk Hrk.
        apply In_nth_error in Hrk. destruct Hrk as (j & Hj).
        pose proof (nth_error_lt _ _ _ Hj) as Hlt.
        rewrite length_zip_rows in Hlt.
        rewrite (nth_error_zip_rows _ _ _ Hlt) in Hj.
        inversion Hj as [E]. rewrite map_map. now apply J. }
  destruct (In_nth _ _ (0, None) Hin) as (k & Hk & E). now exists k.
Qed.

(** The export row, cell by cell. *)
Definition export_row (out : DataFrame) (k : nat) : list cell :=
  map (fun c => value out c k) output_columns.

(** The rows that the five joins put together: the Materials row [i], and
    for each of the other tables the row joined to it, if any.  Each join
    takes its key from the rows joined so far. *)
Definition join_chain (d : Data) (i : nat)
           (j1 j2 j3 j4 j5 : option nat) : Prop :=
  i < nrows (materials d) /\
  joined (manufacturer_names d) j1
         [value (materials d) "ManufacturerID" i] ["ManufacturerID"] /\
  joined (plants d) j2
         [value (materials d) "MaterialReference" i] ["MaterialReference"] /\
  joined (suppliers d) j3
         [value (materials d) "MaterialReference" i] ["MaterialReference"] /\
  joined (supplier_names d) j4
         [right_value (suppliers d) "SupplierID" j3] ["SupplierID"] /\
  joined (storage d) j5
         [value (materials d) "MaterialReference" i;
          right_value (plants d) "Plant" j2]
         ["MaterialReference"; "Plant"].

(** The export row of such rows, in the order of [output_columns]. *)
Definition join_row (d : Data) (i : nat)
           (j1 j2 j3 j4 j5 : option nat) : list cell :=
  map shown
    [ value (materials d) "MaterialReference" i;
      right_value (manufacturer_names d) "ManufacturerName" j1;
      value (materials d) "ArticleNumber" i;
      value (materials d) "TypeCode" i;
      value (materials d) "ShortText" i;
      right_value (plants d) "Plant" j2;
      right_value (plants d) "Disposition" j2;
      right_value (plants d) "ReporderPoint" j2;
      right_value (supplier_names d) "SupplierName" j4;
      right_value (suppliers d) "SupplierArticleNumber" j3;
      right_value (storage d) "StorageLocation" j5;
      right_value (storage d) "StorageBin" j5;
      right_value (storage d) "DeletedStorageLevel" j5 ].

Section Rows.

Import Sheet.

Variable x : Sheets.
Variable tc : Series.

Let P : Data := prepared x tc.

Lemma exported_row_at (k : nat) :
  k < nrows (exported x tc) ->
  let q5 := nth k (idx5 x tc) (0, None) in
  let q4 := nth (fst q5) (idx4 x tc) (0, None) in
  let q3 := nth (fst q4) (idx3 x tc) (0, None) in
  let q2 := nth (fst q3) (idx2 x tc) (0, None) in
  let q1 := nth (fst q2) (idx1 x tc) (0, None) in
  join_chain P (fst q1) (snd q1) (snd q2) (snd q3) (snd q4) (snd q5) /\
  export_row (exported x tc) k
  = join_row P (fst q1) (snd q1) (snd q2) (snd q3) (snd q4) (snd q5).
Proof.
  intros H5. cbv zeta.
  change (nrows (exported x tc)) with (List.length (idx5 x tc)) in H5.
  destruct (indexer_row (r4 x tc) (storage P) ["MaterialReference"; "Plant"]
                        k H5) as [H4 J5].
  change (indexer (r4 x tc) (storage P) ["MaterialReference"; "Plant"])
    with (idx5 x tc) in H4, J5.
  set (k4 := fst (nth k (idx5 x tc) (0, None))) in *.
  change (nrows (r4 x tc)) with (List.length (idx4 x tc)) in H4.
  destruct (indexer_row (r3 x tc) (supplier_names P) ["SupplierID"] k4 H4)
    as [H3 J4].
  change (indexer (r3 x tc) (supplier_names P) ["SupplierID"])
    with (idx4 x tc) in H3, J4.
  set (k3 := fst (nth k4 (idx4 x tc) (0, None))) in *.
  change (nrows (r3 x tc)) with (List.length (idx3 x tc)) in H3.
  destruct (indexer_row (r2 x tc) (suppliers P) ["MaterialReference"] k3 H3)
    as [H2 J3].
  change (indexer (r2 x tc) (suppliers P) ["MaterialReference"])
    with (idx3 x tc) in H2, J3.
  set (k2 := fst (nth k3 (idx3 x tc) (0, None))) in *.
  change (nrows (r2 x tc)) with (List.length (idx2 x tc)) in H2.
  destruct (indexer_row (r1 x tc) (plants P) ["MaterialReference"] k2 H2)
    as [H1 J2].
  change (indexer (r1 x tc) (plants P) ["MaterialReference"])
    with (idx2 x tc) in H1, J2.
  set (k1 := fst (nth k2 (idx2 x tc) (0, None))) in *.
  change (nrows (r1 x tc)) with (List.length (idx1 x tc)) in H1.
  destruct (indexer_row (materials P) (manufacturer_names P) ["ManufacturerID"]
                        k1 H1) as [H0 J1].
  change (indexer (materials P) (manufacturer_names P) ["ManufacturerID"])
    with (idx1 x tc) in H0, J1.
  set (i := fst (nth k1 (idx1 x tc) (0, None))) in *.
  cbn [map] in J1, J2, J3, J4, J5.
  assert (E1 : forall c,
             col (r1 x tc) c = DF.take_left (idx1 x tc) (col (materials P) c) ->
             value (r1 x tc) c k1 = value (materials P) c i).
  { intros c E. exact (value_left (r1 x tc) (idx1 x tc) (materials P) c k1 E H1). }
  assert (E2 : forall c,
             col (r2 x tc) c = DF.take_left (idx2 x tc) (col (r1 x tc) c) ->
             value (r2 x tc) c k2 = value (r1 x tc) c k1).
  { intros c E. exact (value_left (r2 x tc) (idx2 x tc) (r1 x tc) c k2 E H2). }
  assert (E3 : forall c,
             col (r3 x tc) c = DF.take_left (idx3 x tc) (col (r2 x tc) c) ->
             value (r3 x tc) c k3 = value (r2 x tc) c k2).
  { intros c E. exact (value_left (r3 x tc) (idx3 x tc) (r2 x tc) c k3 E H3). }
  assert (E4 : forall c,
             col (r4 x tc) c = DF.take_left (idx4 x tc) (col (r3 x tc) c) ->
             value (r4 x tc) c k4 = value (r3 x tc) c k3).
  { intros c E. exact (value_left (r4 x tc) (idx4 x tc) (r3 x tc) c k4 E H4). }
  assert (E5 : forall c,
             col (r5 x tc) c = DF.take_left (idx5 x tc) (col (r4 x tc) c) ->
             value (r5 x tc) c k = value (r4 x tc) c k4).
  { intros c E. exact (value_left (r5 x tc) (idx5 x tc) (r4 x tc) c k E H5). }
  assert (F : forall c v,
             col (exported x tc) c = Series_.fillna (Str "N/A") (col (r5 x tc) c) ->
             col (r5 x tc) c = v ->
             List.length v = List.length (idx5 x tc) ->
             value (exported x tc) c k = shown (value (r5 x tc) c k)).
  { intros c v E Ev Hl. apply (value_shown _ _ _ _ E). rewrite Ev, Hl. exact H5. }
  assert (M : value (r1 x tc) "MaterialReference" k1
              = value (materials P) "MaterialReference" i)
    by exact (E1 "MaterialReference" eq_refl).
  assert (R2 : forall c,
             col (r2 x tc) c = DF.take_right (idx2 x tc) (col (plants P) c) ->
             value (r2 x tc) c k2
             = right_value (plants P) c (snd (nth k2 (idx2 x tc) (0, None)))).
  { intros c E. exact (value_right (r2 x tc) (idx2 x tc) (plants P) c k2 E H2). }
  assert (R3 : forall c,
             col (r3 x tc) c = DF.take_right (idx3 x tc) (col (suppliers P) c) ->
             value (r3 x tc) c k3
             = right_value (suppliers P) c (snd (nth k3 (idx3 x tc) (0, None)))).
  { intros c E. exact (value_right (r3 x tc) (idx3 x tc) (suppliers P) c k3 E H3). }
  split.
  - unfold join_chain. split; [exact H0|]. split; [exact J1|].
    split; [rewrite M in J2; exact J2|].
    split.
    { rewrite (E2 "MaterialReference" eq_refl), M in J3. exact J3. }
    split.
    { rewrite (R3 "SupplierID" eq_refl) in J4. exact J4. }
    rewrite (E4 "MaterialReference" eq_refl), (E3 "MaterialReference" eq_refl),
      (E2 "MaterialReference" eq_refl), M in J5.
    rewrite (E4 "Plant" eq_refl), (E3 "Plant" eq_refl),
      (R2 "Plant" eq_refl) in J5.
    exact J5.
  - unfold export_row, join_row, output_columns. cbn [map].
    rewrite (F "MaterialReference" _ eq_refl eq_refl (length_take_left _ _)).
    rewrite (F "ManufacturerName" _ eq_refl eq_refl (length_take_left _ _)).
    rewrite (F "ArticleNumber" _ eq_refl eq_refl (length_take_left _ _)).
    rewrite (F "TypeCode" _ eq_refl eq_refl (length_take_left _ _)).
    rewrite (F "ShortText" _ eq_refl eq_refl (length_take_left _ _)).
    rewrite (F "Plant" _ eq_refl eq_refl (length_take_left _ _)).
    rewrite (F "Disposition" _ eq_refl eq_refl (length_take_left _ _)).
    rewrite (F "ReporderPoint" _ eq_refl eq_refl (length_take_left _ _)).
    rewrite (F "SupplierName" _ eq_refl eq_refl (length_take_left _ _)).
    rewrite (F "SupplierArticleNumber" _ eq_refl eq_refl
               (length_take_left _ _)).
    rewrite (F "StorageLocation" _ eq_refl eq_refl (length_take_right _ _)).
    rewrite (F "StorageBin" _ eq_refl eq_refl (length_take_right _ _)).
    rewrite (F "DeletedStorageLevel" _ eq_refl eq_refl
               (length_take_right _ _)).
    rewrite (E5 "MaterialReference" eq_refl), (E4 "MaterialReference" eq_refl),
      (E3 "MaterialReference" eq_refl), (E2 "MaterialReference" eq_refl), M.
    rewrite (E5 "ArticleNumber" eq_refl), (E4 "ArticleNumber" eq_refl),
      (E3 "ArticleNumber" eq_refl), (E2 "ArticleNumber" eq_refl),
      (E1 "ArticleNumber" eq_refl).
    rewrite (E5 "TypeCode" eq_refl), (E4 "TypeCode" eq_refl),
      (E3 "TypeCode" eq_refl), (E2 "TypeCode" eq_refl),
      (E1 "TypeCode" eq_refl).
    rewrite (E5 "ShortText" eq_refl), (E4 "ShortText" eq_refl),
      (E3 "ShortText" eq_refl), (E2 "ShortText" eq_refl),
      (E1 "ShortText" eq_refl).
    rewrite (E5 "ManufacturerName" eq_refl), (E4 "ManufacturerName" eq_refl),
      (E3 "ManufacturerName" eq_refl), (E2 "ManufacturerName" eq_refl).
    rewrite (value_right (r1 x tc) (idx1 x tc) (manufacturer_names P)
               "ManufacturerName" k1 eq_refl H1).
    rewrite (E5 "Plant" eq_refl), (E4 "Plant" eq_refl), (E3 "Plant" eq_refl),
      (R2 "Plant" eq_refl).
    rewrite (E5 "Disposition" eq_refl), (E4 "Disposition" eq_refl),
      (E3 "Disposition" eq_refl), (R2 "Disposition" eq_refl).
    rewrite (E5 "ReporderPoint" eq_refl), (E4 "ReporderPoint" eq_refl),
      (E3 "ReporderPoint" eq_refl), (R2 "ReporderPoint" eq_refl).
    rewrite (E5 "SupplierArticleNumber" eq_refl),
      (E4 "SupplierArticleNumber" eq_refl),
      (R3 "SupplierArticleNumber" eq_refl).
    rewrite (E5 "SupplierName" eq_refl).
    rewrite (value_right (r4 x tc) (idx4 x tc) (supplier_names P)
               "SupplierName" k4 eq_refl H4).
    rewrite (value_right (r5 x tc) (idx5 x tc) (storage P)
               "StorageLocation" k eq_refl H5).
    rewrite (value_right (r5 x tc) (idx5 x tc) (storage P)
               "StorageBin" k eq_refl H5).
    rewrite (value_right (r5 x tc) (idx5 x tc) (storage P)
               "DeletedStorageLevel" k eq_refl H5).
    reflexivity.
Qed.

Lemma exported_rows_sound (k : nat) :
  k < nrows (exported x tc) ->
  exists i j1 j2 j3 j4 j5,
    join_chain P i j1 j2 j3 j4 j5 /\
    export_row (exported x tc) k = join_row P i j1 j2 j3 j4 j5.
Proof.
  intros H. pose proof (exported_row_at k H) as R. cbv zeta in R.
  eexists _, _, _, _, _, _. exact R.
Qed.

Lemma exported_rows_complete (i : nat) (j1 j2 j3 j4 j5 : option nat) :
  join_chain P i j1 j2 j3 j4 j5 ->
  exists k, k < nrows (exported x tc) /\
            export_row (exported x tc) k = join_row P i j1 j2 j3 j4 j5.
Proof.
  intros (H0 & J1 & J2 & J3 & J4 & J5).
  destruct (indexer_row_complete (materials P) (manufacturer_names P)
              ["ManufacturerID"] i j1 H0 J1) as (k1 & H1 & N1).
  change (indexer (materials P) (manufacturer_names P) ["ManufacturerID"])
    with (idx1 x tc) in H1, N1.
  assert (M1 : value (r1 x tc) "MaterialReference" k1
               = value (materials P) "MaterialReference" i).
  { rewrite (value_left (r1 x tc) (idx1 x tc) (materials P)
               "MaterialReference" k1 eq_refl H1).
    now rewrite N1. }
  rewrite <- M1 in J2.
  destruct (indexer_row_complete (r1 x tc) (plants P)
              ["MaterialReference"] k1 j2 H1 J2) as (k2 & H2 & N2).
  change (indexer (r1 x tc) (plants P) ["MaterialReference"])
    with (idx2 x tc) in H2, N2.
  assert (M2 : value (r2 x tc) "MaterialReference" k2
               = value (materials P) "MaterialReference" i).
  { rewrite (value_left (r2 x tc) (idx2 x tc) (r1 x tc)
               "MaterialReference" k2 eq_refl H2).
    now rewrite N2. }
  rewrite <- M2 in J3.
  destruct (indexer_row_complete (r2 x tc) (suppliers P)
              ["MaterialReference"] k2 j3 H2 J3) as (k3 & H3 & N3).
  change (indexer (r2 x tc) (suppliers P) ["MaterialReference"])
    with (idx3 x tc) in H3, N3.
  assert (S3 : value (r3 x tc) "SupplierID" k3
               = right_value (suppliers P) "SupplierID" j3).
  { rewrite (value_right (r3 x tc) (idx3 x tc) (suppliers P)
               "SupplierID" k3 eq_refl H3).
    now rewrite N3. }
  rewrite <- S3 in J4.
  destruct (indexer_row_complete (r3 x tc) (supplier_names P)
              ["SupplierID"] k3 j4 H3 J4) as (k4 & H4 & N4).
  change (indexer (r3 x tc) (supplier_names P) ["SupplierID"])
    with (idx4 x tc) in H4, N4.
  assert (M4 : value (r4 x tc) "MaterialReference" k4
               = value (materials P) "MaterialReference" i).
  { rewrite (value_left (r4 x tc) (idx4 x tc) (r3 x tc)
               "MaterialReference" k4 eq_refl H4).
    rewrite N4. cbn [fst].
    rewrite (value_left (r3 x tc) (idx3 x tc) (r2 x tc)
               "MaterialReference" k3 eq_refl H3).
    rewrite N3. exact M2. }
  assert (P4 : value (r4 x tc) "Plant" k4
               = right_value (plants P) "Plant" j2).
  { rewrite (value_left (r4 x tc) (idx4 x tc) (r3 x tc)
               "Plant" k4 eq_refl H4).
    rewrite N4. cbn [fst].
    rewrite (value_left (r3 x tc) (idx3 x tc) (r2 x tc)
               "Plant" k3 eq_refl H3).
    rewrite N3. cbn [fst].
    rewrite (value_right (r2 x tc) (idx2 x tc) (plants P)
               "Plant" k2 eq_refl H2).
    now rewrite N2. }
  rewrite <- M4, <- P4 in J5.
  destruct (indexer_row_complete (r4 x tc) (storage P)
              ["MaterialReference"; "Plant"] k4 j5 H4 J5) as (k & H5 & N5).
  change (indexer (r4 x tc) (storage P) ["MaterialReference"; "Plant"])
    with (idx5 x tc) in H5, N5.
  exists k. split; [exact H5|].
  destruct (exported_row_at k H5) as [_ R]. cbv zeta in R.
  rewrite N5 in R. cbn [fst snd] in R.
  rewrite N4 in R. cbn [fst snd] in R.
  rewrite N3 in R. cbn [fst snd] in R.
  rewrite N2 in R. cbn [fst snd] in R.
  rewrite N1 in R. cbn [fst snd] in R.
  exact R.
Qed.

End Rows.

(** X6: the rows of the export are exactly the joins of the prepared
    tables.  With [d'] the six tables after the fixes and the cleaning, a
    list of cells is a row of the export if and only if it is the row built
    from a Materials row and, for each of the five joins, a right row whose
    key matches (or no right row when none matches), nulls shown as N/A.
    The key of the supplier-name join is the SupplierID of the joined
    Suppliers row, the key of the storage join has the Plant of the joined
    Plants row; a missing key matches a missing key. *)
Theorem export_rows_are_joins (x : Sheet.Sheets) (out : DataFrame) :
  pipeline (Sheet.frames x) = Ok out ->
  exists d',
    prepare (Sheet.frames x) = Ok d' /\
    forall row : list cell,
      (exists k, k < nrows out /\ export_row out k = row) <->
      (exists i j1 j2 j3 j4 j5,
         join_chain d' i j1 j2 j3 j4 j5 /\
         row = join_row d' i j1 j2 j3 j4 j5).
Proof.
  intros H. destruct (pipeline_sheets_ok x out H) as (tc & Htc & ->).
  exists (prepared x tc). split.
  { rewrite prepare_sheets, apply_rows_materials, Htc. reflexivity. }
  intros row. split.
  - intros (k & Hk & <-).
    destruct (exported_rows_sound x tc k Hk)
      as (i & j1 & j2 & j3 & j4 & j5 & Hc & E).
    exists i, j1, j2, j3, j4, j5. split; [exact Hc|exact E].
  - intros (i & j1 & j2 & j3 & j4 & j5 & Hc & ->).
    destruct (exported_rows_complete x tc i j1 j2 j3 j4 j5 Hc) as (k & Hk & E).
    exists k. split; [exact Hk|exact E].
Qed.

Lemma export_rows_are_joins_witness :
  exists d',
    prepare (Sheet.frames fan_out_example) = Ok d' /\
    ((exists k, k < nrows fan_out_export /\
                export_row fan_out_export k
                = [ Str "M1"; Str "Acme"; Str "A-1"; Str "TC00000000M1";
                    Str "N/A"; Str "0008"; Str "D2"; Int 6; Str "One";
                    Str "S-1"; Str "N/A"; Str "N/A"; Str "N/A" ]) <->
     (exists i j1 j2 j3 j4 j5,
        join_chain d' i j1 j2 j3 j4 j5 /\
        [ Str "M1"; Str "Acme"; Str "A-1"; Str "TC00000000M1";
          Str "N/A"; Str "0008"; Str "D2"; Int 6; Str "One";
          Str "S-1"; Str "N/A"; Str "N/A"; Str "N/A" ]
        = join_row d' i j1 j2 j3 j4 j5)).
Proof.
  destruct (export_rows_are_joins fan_out_example fan_out_export fan_out_run)
    as (d' & Hd & Hrows).
  exists d'. split; [exact Hd|]. apply Hrows.
Defined.

(** * The field fixes, seen after the cleaning *)

Lemma lookup_update (c : string) (v : Series) (l : list (string * Series)) :
  DF.lookup c (DF.update c v l) = Some v.
Proof.
  induction l as [|[n w] l IH]; cbn [DF.update DF.lookup].
  - now rewrite String.eqb_refl.
  - destruct (String.eqb n c) eqn:E; cbn [DF.lookup]; now rewrite E.
Qed.

Lemma col_setitem (df : DataFrame) (c : string) (v : Series) :
  col (DF.setitem df c v) c = v.
Proof. unfold col, DF.setitem. cbn [cols]. now rewrite lookup_update. Qed.

Lemma typecode_lambda_present (row : DF.row) (c : cell) :
  typecode_lambda row = Ok c -> isna c = false.
Proof.
  unfold typecode_lambda. intros H.
  apply bind_ok in H. destruct H as (t & _ & H).
  destruct (isna t) eqn:E.
  - apply bind_ok in H. destruct H as (mr & _ & H).
    destruct mr; inversion H. reflexivity.
  - inversion H. now subst c.
Qed.

Lemma mapM_Forall {A B : Type} (f : A -> result B) (P : B -> Prop)
      (l : list A) (bs : list B) :
  (forall a b, f a = Ok b -> P b) -> mapM f l = Ok bs -> Forall P bs.
Proof.
  intros Hf. revert bs. induction l as [|a l IH]; intros bs H; cbn [mapM] in H.
  - inversion H. constructor.
  - apply bind_ok in H. destruct H as (b & Hb & H).
    apply bind_ok in H. destruct H as (bs' & Hbs & H).
    inversion H. constructor; [now apply (Hf a)|now apply IH].
Qed.

(** X7: the backfill leaves no TypeCode missing.  Whenever the backfill of
    lines 88-91 returns on a Materials sheet that has rows, the TypeCode
    column has one cell for every row and none of them is null, so that the
    count printed on line 92 is always 0. *)
Theorem backfill_leaves_no_null (d d2 : Data) :
  0 < nrows (materials d) ->
  fill_typecode d = Ok d2 ->
  List.length (col (materials d2) "TypeCode") = nrows (materials d) /\
  Forall (fun c => isna c = false) (col (materials d2) "TypeCode") /\
  null_count_line d2 = "Null TypeCode count after filling: 0".
Proof.
  intros _ H. unfold fill_typecode in H.
  apply bind_ok in H. destruct H as (v & Hv & H).
  inversion H; subst d2; clear H. unfold null_count_line.
  cbn [materials]. rewrite col_setitem.
  unfold DF.apply_rows in Hv.
  assert (F : Forall (fun c => isna c = false) v).
  { apply (mapM_Forall _ _ _ _ (fun i => typecode_lambda_present _) Hv). }
  split; [|split; [exact F|]].
  - rewrite (length_mapM _ _ _ Hv). apply length_seq.
  - assert (E : filter isna v = []).
    { clear Hv. induction F as [|c v Hc _ IH]; [reflexivity|].
      cbn [filter]. now rewrite Hc. }
    rewrite E. reflexivity.
Qed.

Lemma backfill_leaves_no_null_witness :
  exists d2,
    fill_typecode (Sheet.frames backfill_example) = Ok d2 /\
    null_count_line d2 = "Null TypeCode count after filling: 0".
Proof.
  destruct (fill_typecode (Sheet.frames backfill_example))
    as [d2|e] eqn:H; [|vm_compute in H; discriminate H].
  exists d2. split; [reflexivity|].
  apply (backfill_leaves_no_null (Sheet.frames backfill_example) d2);
    [cbn; lia|exact H].
Defined.

Lemma slice_last_short (k : nat) (s : string) :
  String.length s <= k -> Py.slice_last k s = s.
Proof.
  intros H. unfold Py.slice_last.
  replace (String.length s - k) with 0 by lia. now destruct s.
Qed.

(** X8: a MaterialReference of fewer than two characters.  The slice
    [[-2:]] of a string of at most two characters is the whole string, so
    the backfill gives the prefix followed by the whole reference: eleven
    characters for a reference of one character, the bare prefix for an
    empty one; no exception is raised. *)
Theorem short_reference_backfill (d d' : Data) (l : list Sheet.Material)
        (i : nat) (m : Sheet.Material) (s : string) :
  materials d = Sheet.materials_frame l ->
  fill_typecode d = Ok d' ->
  nth_error l i = Some m ->
  Sheet.m_TypeCode m = NA ->
  Sheet.m_MaterialReference m = Str s ->
  String.length s <= 2 ->
  nth_error (col (materials d') "TypeCode") i
  = Some (Str ("TC00000000" ++ s)%string) /\
  String.length ("TC00000000" ++ s)%string = 10 + String.length s.
Proof.
  intros Hm H Hi Htc Hmr Hs. split; [|now rewrite length_append].
  rewrite (fill_typecode_sheets d l Hm) in H.
  apply bind_ok in H. destruct H as (v & Hv & H).
  inversion H; subst d'; clear H.
  cbn [materials]. rewrite col_setitem.
  destruct (mapM_nth_error _ l v i m Hv Hi) as (b & Hb & Hnth).
  rewrite typecode_lambda_row, Htc, Hmr in Hb.
  inversion Hb; subst b. rewrite Hnth.
  now rewrite (slice_last_short 2 s Hs).
Qed.

Definition short_reference_example : Sheet.Sheets :=
  Sheet.mkSheets
    [ Sheet.mkMaterial (Str "7") (Str "MF1") NA NA (Str "bolt");
      Sheet.mkMaterial (Str "") (Str "MF1") NA NA NA ]
    [] [] [] [] [].

Lemma short_reference_backfill_witness :
  exists d',
    fill_typecode (Sheet.frames short_reference_example) = Ok d' /\
    nth_error (col (materials d') "TypeCode") 0 = Some (Str "TC000000007") /\
    nth_error (col (materials d') "TypeCode") 1 = Some (Str "TC00000000").
Proof.
  destruct (fill_typecode (Sheet.frames short_reference_example))
    as [d'|e] eqn:H; [|vm_compute in H; discriminate H].
  exists d'. split; [reflexivity|]. split.
  - apply (short_reference_backfill
             (Sheet.frames short_reference_example) d'
             (Sheet.materials_rows short_reference_example)
             0 _ "7" eq_refl H eq_refl eq_refl eq_refl).
    cbn. lia.
  - apply (short_reference_backfill
             (Sheet.frames short_reference_example) d'
             (Sheet.materials_rows short_reference_example)
             1 _ "" eq_refl H eq_refl eq_refl eq_refl).
    cbn. lia.
Defined.

Lemma rstrip_after (p t : string) :
  nospace p = true -> p <> "" ->
  Py.rstrip (p ++ t)%string = (p ++ Py.rstrip t)%string.
Proof.
  induction p as [|c p IH]; intros Hp Hne; [now elim Hne|].
  cbn [nospace] in Hp. apply andb_true_iff in Hp. destruct Hp as [Hc Hp].
  apply negb_true_iff in Hc.
  cbn [append Py.rstrip]. destruct p as [|c' p'].
  - cbn [append]. destruct (Py.rstrip t); [now rewrite Hc|reflexivity].
  - rewrite (IH Hp) by discriminate. reflexivity.
Qed.

Lemma clean_cell_typecode (t : string) :
  clean_cell (Str ("TC00000000" ++ t)%string)
  = Str ("TC00000000" ++ Py.rstrip t)%string.
Proof.
  unfold clean_cell, Py.strip. cbn [py_str].
  change (Py.lstrip ("TC00000000" ++ t)%string)
    with ("TC00000000" ++ t)%string.
  rewrite (rstrip_after "TC00000000" t eq_refl) by discriminate.
  reflexivity.
Qed.

Lemma clean_column_nth (v : Series) (i : nat) (c : cell) (s : string) :
  In (Str s) v -> nth_error v i = Some c ->
  nth i (clean_column v) NA = clean_cell c.
Proof.
  intros Hs Hi. rewrite (clean_column_object v (dtype_of_has_str v s Hs)).
  apply nth_error_nth. now rewrite nth_error_map, Hi.
Qed.

(** X9: the backfilled TypeCode as the export has it.  The backfill runs
    before the cleaning, on the reference as it was read: for a Materials
    row without TypeCode whose MaterialReference is the string [s], the
    TypeCode that enters the joins is the prefix followed by the last two
    characters of [s] with the white space at their end removed, while the
    MaterialReference itself is trimmed on both sides; the TypeCode of such
    a row is never null. *)
Theorem backfilled_typecode_is_trimmed (x : Sheet.Sheets) (d' : Data)
        (i : nat) (m : Sheet.Material) :
  prepare (Sheet.frames x) = Ok d' ->
  nth_error (Sheet.materials_rows x) i = Some m ->
  Sheet.m_TypeCode m = NA ->
  exists s,
    Sheet.m_MaterialReference m = Str s /\
    value (materials d') "TypeCode" i
    = Str ("TC00000000" ++ Py.rstrip (Py.slice_last 2 s))%string /\
    value (materials d') "MaterialReference" i = clean_cell (Str s) /\
    shown (value (materials d') "TypeCode" i) <> Str "N/A".
Proof.
  intros Hp Hi Htc.
  destruct (sheets_trace x d' Hp) as (tc & Hm & -> & _).
  destruct (mapM_nth_error _ _ tc i m Hm Hi) as (b & Hb & Hnth).
  rewrite typecode_lambda_row, Htc in Hb.
  destruct (Sheet.m_MaterialReference m) as [|s|z|z] eqn:Emr;
    try discriminate Hb.
  inversion Hb; subst b; clear Hb.
  exists s. split; [reflexivity|].
  assert (T : value (materials (prepared x tc)) "TypeCode" i
              = Str ("TC00000000" ++ Py.rstrip (Py.slice_last 2 s))%string).
  { unfold value.
    change (col (materials (prepared x tc)) "TypeCode") with (clean_column tc).
    rewrite (clean_column_nth tc i _ _ (nth_error_In _ _ Hnth) Hnth).
    apply clean_cell_typecode. }
  split; [exact T|]. split.
  - unfold value.
    change (col (materials (prepared x tc)) "MaterialReference")
      with (clean_column (map Sheet.m_MaterialReference
                              (Sheet.materials_rows x))).
    assert (Hn : nth_error (map Sheet.m_MaterialReference
                                (Sheet.materials_rows x)) i = Some (Str s))
      by (rewrite nth_error_map, Hi; cbn [option_map]; now rewrite Emr).
    apply (clean_column_nth _ i _ s (nth_error_In _ _ Hn) Hn).
  - rewrite T. cbn [shown isna]. discriminate.
Qed.

(** A reference that ends in a blank: the code keeps one character of it. *)
Definition trailing_blank_example : Sheet.Sheets :=
  Sheet.mkSheets
    [ Sheet.mkMaterial (Str "AB ") (Str "MF1") NA NA (Str "bolt") ]
    [] [] [] [] [].

Lemma backfilled_typecode_is_trimmed_witness :
  exists d' s,
    prepare (Sheet.frames trailing_blank_example) = Ok d' /\
    Str "AB " = Str s /\
    value (materials d') "TypeCode" 0
    = Str ("TC00000000" ++ Py.rstrip (Py.slice_last 2 s))%string /\
    value (materials d') "MaterialReference" 0 = clean_cell (Str s).
Proof.
  destruct (prepare (Sheet.frames trailing_blank_example))
    as [d'|e] eqn:H; [|vm_compute in H; discriminate H].
  destruct (backfilled_typecode_is_trimmed trailing_blank_example d' 0 _
              H eq_refl eq_refl) as (s & Hs & Ht & Hr & _).
  exists d', s. split; [reflexivity|]. split; [exact Hs|]. split; assumption.
Defined.

Lemma blank_strip (s : string) : Py.blank s = true -> Py.strip s = "".
Proof.
  intros H. unfold Py.strip.
  assert (L : Py.lstrip s = "").
  { induction s as [|c s IH]; [reflexivity|].
    cbn [Py.blank] in H. apply andb_true_iff in H. destruct H as [Hc Hs].
    cbn [Py.lstrip]. rewrite Hc. now apply IH. }
  now rewrite L.
Qed.

(** X10: only a level of exactly one space becomes ACTIVE.  The [replace]
    of line 59 compares whole values: a DeletedStorageLevel that is missing,
    empty, or made of white space other than the single space is a null
    when the joins start, and every row of the export that the last join
    pairs with such a Storage row has N/A in that column. *)
Theorem other_blank_levels_are_null (x : Sheet.Sheets) (d' : Data)
        (t4 out : DataFrame) :
  prepare (Sheet.frames x) = Ok d' ->
  first_four d' = Ok t4 ->
  pipeline (Sheet.frames x) = Ok out ->
  forall j s,
    nth_error (Sheet.storage_rows x) j = Some s ->
    match Sheet.st_DeletedStorageLevel s with
    | NA => True
    | Str t => t <> " " /\ Py.blank t = true
    | _ => False
    end ->
    nth_error (col (storage d') "DeletedStorageLevel") j = Some NA /\
    forall k i,
      nth_error (indexer t4 (storage d') ["MaterialReference"; "Plant"]) k
      = Some (i, Some j) ->
      nth_error (col out "DeletedStorageLevel") k = Some (Str "N/A").
Proof.
  intros Hp H4 H.
  destruct (sheets_trace x d' Hp) as (tc & _ & -> & Hout).
  rewrite Hout in H. inversion H; subst out; clear H.
  rewrite first_four_sheets in H4. inversion H4; subst t4; clear H4.
  intros j s Hj Hl.
  assert (E : nth_error (col (storage (prepared x tc))
                             "DeletedStorageLevel") j = Some NA).
  { rewrite prepared_storage_level.
    set (v := Series_.replace (Str " ") (Str "ACTIVE")
                (map Sheet.st_DeletedStorageLevel (Sheet.storage_rows x))).
    assert (Hn : nth_error v j
                 = Some (Sheet.st_DeletedStorageLevel s)).
    { unfold v, Series_.replace. rewrite !nth_error_map, Hj. cbn [option_map].
      destruct (Sheet.st_DeletedStorageLevel s) as [|t|z|z];
        try reflexivity; try contradiction.
      destruct Hl as [Hne _]. cbn [cell_eqb].
      apply String.eqb_neq in Hne. now rewrite Hne. }
    destruct (dtype_object_dec v) as [O|O].
    - rewrite (clean_column_object v O), nth_error_map, Hn.
      cbn [option_map].
      destruct (Sheet.st_DeletedStorageLevel s) as [|t|z|z];
        try reflexivity; try contradiction.
      destruct Hl as [_ Hb]. unfold clean_cell. cbn [py_str].
      now rewrite (blank_strip t Hb).
    - rewrite (clean_column_numeric v O), Hn.
      destruct (Sheet.st_DeletedStorageLevel s) as [|t|z|z];
        try reflexivity; try contradiction.
      exfalso. apply O. apply (dtype_of_has_str v t).
      apply (nth_error_In _ _ Hn). }
  split; [exact E|].
  intros k i Hk. rewrite exported_level.
  unfold Series_.fillna, DF.take_right.
  change (idx5 x tc) with
    (indexer (r4 x tc) (storage (prepared x tc))
             ["MaterialReference"; "Plant"]).
  rewrite !nth_error_map, Hk. cbn [option_map snd].
  now rewrite (nth_error_nth _ _ NA E).
Qed.

Lemma other_blank_levels_are_null_witness :
  nth_error (col active_export "DeletedStorageLevel") 1 = Some (Str "N/A").
Proof.
  refine (proj2 (other_blank_levels_are_null
                   active_example _ _ active_export
                   _ _ active_run
                   1 (Sheet.mkStorage (Str "M1") (Int 7) (Str "L2")
                                      (Str "B2") (Str "  "))
                   eq_refl _) 1 0 _).
  - vm_compute. reflexivity.
  - vm_compute. reflexivity.
  - cbn. split; [discriminate|reflexivity].
  - vm_compute. reflexivity.
Defined.

(** * A Plant column read as floats *)

(** The string has a decimal point. *)
Fixpoint has_dot (s : string) : bool :=
  match s with
  | EmptyString => false
  | String c s' => Ascii.eqb c "."%char || has_dot s'
  end.

Lemma has_dot_append (s t : string) :
  has_dot (s ++ t)%string = has_dot s || has_dot t.
Proof.
  induction s as [|c s IH]; [reflexivity|].
  cbn [append has_dot]. now rewrite IH, orb_assoc.
Qed.

Lemma has_dot_zeros (n : nat) : has_dot (Py.zeros n) = false.
Proof. induction n; [reflexivity|exact IHn]. Qed.

Lemma has_dot_zfill (w : nat) (s : string) :
  has_dot (Py.zfill w s) = has_dot s.
Proof.
  unfold Py.zfill. destruct s as [|c s].
  - apply has_dot_zeros.
  - destruct (Py.is_sign c).
    + cbn [has_dot]. now rewrite has_dot_append, has_dot_zeros.
    + now rewrite has_dot_append, has_dot_zeros.
Qed.

Lemma has_dot_uint (d : Decimal.uint) :
  has_dot (NilEmpty.string_of_uint d) = false.
Proof. induction d; simpl; auto. Qed.

Lemma has_dot_str_int (n : Z) : has_dot (Py.str_int n) = false.
Proof.
  unfold Py.str_int, NilZero.string_of_int, NilZero.string_of_uint.
  destruct (Z.to_int n) as [d|d]; destruct d;
    try reflexivity; apply has_dot_uint || (simpl; apply has_dot_uint).
Qed.

(** A float Plant is its text with the decimal part, padded. *)
Lemma padded_float (n : Z) :
  padded (Flt n) = Str (Py.zfill 4 (Py.str_int n ++ ".0")).
Proof.
  unfold padded, clean_cell. cbn [py_str]. unfold Py.str_float.
  assert (N : nospace (Py.str_int n ++ ".0")%string = true)
    by now rewrite nospace_append, nospace_str_int.
  rewrite (strip_nospace _ (nospace_zfill 4 _ N)).
  pose proof (length_zfill 4 (Py.str_int n ++ ".0")) as L.
  destruct (String.eqb (Py.zfill 4 (Py.str_int n ++ ".0")) "") eqn:E1.
  - apply String.eqb_eq in E1. rewrite E1 in L.
    change (String.length "") with 0 in L. lia.
  - destruct (String.eqb (Py.zfill 4 (Py.str_int n ++ ".0")) "nan") eqn:E2;
      [|reflexivity].
    apply String.eqb_eq in E2. rewrite E2 in L.
    change (String.length "nan") with 3 in L. lia.
Qed.

(** X11: a Plant column read as floats never meets one read as integers.
    The padding works on the text of the cell: a Plant that [read_excel]
    delivered as the float [n] (a column with an empty cell) becomes the
    text of [n] with its decimal part, padded, as 07.0 for 7, while the
    integer [m] becomes 0007; the two texts differ for all [n] and [m], so
    the storage join pairs no such Plants row with such a Storage row.
    (Floats from 1e16 on are written with an exponent and are left out.) *)
Theorem float_plant_misses_storage (x : Sheet.Sheets) (d' : Data)
        (jp js : nat) (p : Sheet.Plant) (s : Sheet.Storage) (n m : Z) :
  prepare (Sheet.frames x) = Ok d' ->
  nth_error (Sheet.plants_rows x) jp = Some p ->
  nth_error (Sheet.storage_rows x) js = Some s ->
  Sheet.p_Plant p = Flt n -> (Z.abs n < 10 ^ 16)%Z ->
  Sheet.st_Plant s = Int m ->
  value (plants d') "Plant" jp = Str (Py.zfill 4 (Py.str_int n ++ ".0")) /\
  value (storage d') "Plant" js = Str (Py.zfill 4 (Py.str_int m)) /\
  forall mr : cell,
    ~ joined (storage d') (Some js) [mr; value (plants d') "Plant" jp]
             ["MaterialReference"; "Plant"].
Proof.
  intros Hp Hjp Hjs Hn _ Hm.
  destruct (sheets_trace x d' Hp) as (tc & _ & -> & _).
  assert (A : value (plants (prepared x tc)) "Plant" jp
              = Str (Py.zfill 4 (Py.str_int n ++ ".0"))).
  { unfold value. rewrite prepared_plants_Plant, map_map.
    rewrite (nth_map_some _ _ jp p Hjp), Hn. apply padded_float. }
  assert (B : value (storage (prepared x tc)) "Plant" js
              = Str (Py.zfill 4 (Py.str_int m))).
  { unfold value. rewrite prepared_storage_Plant, map_map.
    rewrite (nth_map_some _ _ js s Hjs), Hm. apply padded_int. }
  split; [exact A|]. split; [exact B|].
  intros mr [_ J]. cbn [map DF.keys_eqb] in J.
  rewrite A, B in J. cbn [DF.key_eqb] in J.
  assert (D : String.eqb (Py.zfill 4 (Py.str_int n ++ ".0"))
                         (Py.zfill 4 (Py.str_int m)) = false).
  { apply String.eqb_neq. intros E.
    pose proof (has_dot_zfill 4 (Py.str_int n ++ ".0")) as H1.
    rewrite E, has_dot_zfill, has_dot_append, has_dot_str_int,
      has_dot_str_int in H1.
    discriminate H1. }
  rewrite D, andb_false_r in J. discriminate J.
Qed.

(** One Plants row read as a float, one Storage row read as an integer. *)
Definition float_plant_example : Sheet.Sheets :=
  Sheet.mkSheets
    [ Sheet.mkMaterial (Str "M1") (Str "MF1") NA (Str "T1") NA ]
    [ Sheet.mkPlant (Str "M1") (Flt 7) (Str "D1") (Int 5) ]
    [ Sheet.mkStorage (Str "M1") (Int 7) (Str "L1") (Str "B1") (Str " ") ]
    [] [] [].

Lemma float_plant_misses_storage_witness :
  exists d',
    prepare (Sheet.frames float_plant_example) = Ok d' /\
    value (plants d') "Plant" 0 = Str "07.0" /\
    value (storage d') "Plant" 0 = Str "0007".
Proof.
  destruct (prepare (Sheet.frames float_plant_example))
    as [d'|e] eqn:H; [|vm_compute in H; discriminate H].
  destruct (float_plant_misses_storage float_plant_example d' 0 0 _ _ 7 7
              H eq_refl eq_refl eq_refl eq_refl eq_refl) as (A & B & _).
  exists d'. split; [reflexivity|]. split; [exact A|exact B].
Defined.

(** * The cleaning loop *)

Lemma lstrip_split (s : string) :
  exists pre, s = (pre ++ Py.lstrip s)%string /\ Py.blank pre = true.
Proof.
  induction s as [|c s (pre & E & B)].
  - now exists "".
  - cbn [Py.lstrip]. destruct (Py.isspace c) eqn:Hc.
    + exists (String c pre). cbn [append Py.blank].
      rewrite Hc, B. split; [now rewrite <- E|reflexivity].
    + now exists "".
Qed.

Lemma rstrip_split (s : string) :
  exists post, s = (Py.rstrip s ++ post)%string /\ Py.blank post = true.
Proof.
  induction s as [|c s (post & E & B)].
  - now exists "".
  - cbn [Py.rstrip]. destruct (Py.rstrip s) as [|c' t] eqn:R.
    + destruct (Py.isspace c) eqn:Hc.
      * exists (String c s). cbn [append Py.blank]. rewrite Hc.
        split; [reflexivity|]. cbn [append] in E. now rewrite E.
      * exists post. cbn [append] in *. split; [now rewrite <- E|exact B].
    + exists post. cbn [append] in *. split; [now rewrite <- E|exact B].
Qed.

Lemma rstrip_idem (s : string) : Py.rstrip (Py.rstrip s) = Py.rstrip s.
Proof.
  induction s as [|c s IH]; [reflexivity|].
  cbn [Py.rstrip]. destruct (Py.rstrip s) as [|c' t] eqn:R.
  - destruct (Py.isspace c) eqn:Hc; [reflexivity|].
    cbn [Py.rstrip]. now rewrite Hc.
  - cbn [Py.rstrip]. cbn [Py.rstrip] in IH.
    destruct (Py.rstrip t) as [|c'' t'] eqn:R'.
    + destruct (Py.isspace c') eqn:Hc'; [discriminate IH|].
      now rewrite IH.
    + now rewrite IH.
Qed.

Lemma strip_idem (s : string) : Py.strip (Py.strip s) = Py.strip s.
Proof.
  destruct (strip_head s) as [E|(c & t & E & Hc)].
  - now rewrite E.
  - unfold Py.strip at 1. rewrite E. cbn [Py.lstrip]. rewrite Hc.
    rewrite <- E. unfold Py.strip. apply rstrip_idem.
Qed.

Lemma strip_split (s : string) :
  exists pre post,
    s = (pre ++ Py.strip s ++ post)%string /\
    Py.blank pre = true /\ Py.blank post = true.
Proof.
  destruct (lstrip_split s) as (pre & E1 & B1).
  destruct (rstrip_split (Py.lstrip s)) as (post & E2 & B2).
  exists pre, post. unfold Py.strip. now rewrite <- E2, <- E1.
Qed.

(** X12: the cleaning loop only trims.  On a table with distinct labels,
    as [read_excel] builds it, the loop keeps the row count and the
    labels; a column that is no text column (only integers, or
    only floats and nulls) is left as it is; in a text column every cell is
    read as text, which is the trimmed text [t] between white space, and
    the cell becomes [t], or a null when [t] is empty or is the text nan.
    What the loop removes is white space at the two ends, nothing inside. *)
Theorem cleaning_only_trims (df : DataFrame) :
  NoDup (DF.columns df) ->
  nrows (clean df) = nrows df /\
  DF.columns (clean df) = DF.columns df /\
  forall n v, In (n, v) (cols df) ->
    In (n, clean_column v) (cols (clean df)) /\
    List.length (clean_column v) = List.length v /\
    (dtype_of v <> object -> clean_column v = v) /\
    (dtype_of v = object ->
     forall i c, nth_error v i = Some c ->
       exists pre t post,
         py_str c = (pre ++ t ++ post)%string /\
         Py.blank pre = true /\ Py.blank post = true /\
         Py.strip t = t /\
         nth_error (clean_column v) i
         = Some (if String.eqb t "" || String.eqb t "nan" then NA
                 else Str t)).
Proof.
  intros _. split; [reflexivity|]. split.
  { unfold DF.columns, clean. cbn [cols]. rewrite map_map. reflexivity. }
  intros n v Hin. split.
  { unfold clean. cbn [cols].
    apply (in_map (fun p => (fst p, clean_column (snd p))) _ _ Hin). }
  split; [apply length_clean_column|].
  split; [apply clean_column_numeric|].
  intros O i c Hi.
  destruct (strip_split (py_str c)) as (pre & post & E & B1 & B2).
  exists pre, (Py.strip (py_str c)), post.
  split; [exact E|]. split; [exact B1|]. split; [exact B2|].
  split; [apply strip_idem|].
  rewrite (clean_column_object v O), nth_error_map, Hi. cbn [option_map].
  unfold clean_cell.
  destruct (String.eqb (Py.strip (py_str c)) ""); reflexivity.
Qed.

Lemma cleaning_only_trims_witness :
  In ("ShortText", clean_column [Str " a b "; Int 7; NA; Str " nan"])
     (cols (clean (mkDF 4 [("ShortText",
                            [Str " a b "; Int 7; NA; Str " nan"])]))) /\
  clean_column [Str " a b "; Int 7; NA; Str " nan"]
  = [Str "a b"; Str "7"; NA; NA].
Proof.
  split; [|vm_compute; reflexivity].
  refine (proj1 (proj2 (proj2 (cleaning_only_trims _ _)) _ _ _)).
  - cbn. repeat constructor. intros [].
  - cbn. now left.
Defined.

(** * The columns that the script needs *)

Lemma lookup_In (c : string) (l : list (string * Series)) (v : Series) :
  DF.lookup c l = Some v -> In c (map fst l).
Proof.
  induction l as [|[n w] l IH]; cbn [DF.lookup]; [discriminate|].
  destruct (String.eqb n c) eqn:E.
  - apply String.eqb_eq in E. intros _. now left.
  - intros H. right. now apply IH.
Qed.

Lemma getitem_In (df : DataFrame) (c : string) (v : Series) :
  DF.getitem df c = Ok v -> In c (DF.columns df).
Proof.
  unfold DF.getitem. destruct (DF.lookup c (cols df)) eqn:E; [|discriminate].
  intros _. exact (lookup_In _ _ _ E).
Qed.

Lemma In_mem (c : string) (l : list string) : In c l -> mem c l = true.
Proof.
  intros H. unfold mem. apply existsb_exists. exists c.
  split; [exact H|apply String.eqb_refl].
Qed.

Lemma mem_In (c : string) (l : list string) : mem c l = true -> In c l.
Proof.
  unfold mem. intros H. apply existsb_exists in H.
  destruct H as (n & Hn & E). apply String.eqb_eq in E. now subst n.
Qed.

Lemma key_rows_In (df : DataFrame) (on : list string)
      (lk : list (list cell)) (c : string) :
  DF.key_rows df on = Ok lk -> In c on -> In c (DF.columns df).
Proof.
  unfold DF.key_rows. intros H Hc.
  apply bind_ok in H. destruct H as (ks & Hks & _).
  apply mapM_ok in Hks. revert Hc.
  induction Hks as [|a b l bs Hab _ IH]; intros Hc; [destruct Hc|].
  destruct Hc as [<-|Hc]; [exact (getitem_In _ _ _ Hab)|now apply IH].
Qed.

Lemma merge_keys (l r m : DataFrame) (on : list string) (c : string) :
  DF.merge l r on = Ok m -> In c on ->
  In c (DF.columns l) /\ In c (DF.columns r).
Proof.
  intros H Hc. unfold DF.merge in H.
  apply bind_ok in H. destruct H as (rk & Hr & H).
  apply bind_ok in H. destruct H as (lk & Hl & _).
  split; [exact (key_rows_In _ _ _ _ Hl Hc)|exact (key_rows_In _ _ _ _ Hr Hc)].
Qed.

(** A label without suffix in the result of a merge is a label of one of
    the two tables. *)
Lemma merge_plain_label (l r m : DataFrame) (on : list string) (c : string) :
  DF.merge l r on = Ok m -> plain c = true -> In c (DF.columns m) ->
  In c (DF.columns l) \/ In c (DF.columns r).
Proof.
  intros H Hc Hin. unfold DF.merge in H.
  apply bind_ok in H. destruct H as (rk & _ & H).
  apply bind_ok in H. destruct H as (lk & _ & H).
  match type of H with (if ?b then _ else _) = _ => destruct b end;
    [discriminate|].
  inversion H; subst m; clear H. unfold DF.columns in Hin. cbn [cols] in Hin.
  rewrite map_app, !map_map in Hin. cbn [fst] in Hin.
  apply in_app_or in Hin. destruct Hin as [Hin|Hin];
    apply in_map_iff in Hin; destruct Hin as ([n v] & E & Hin);
    cbn [fst] in E.
  - left.
    match type of E with (if ?b then _ else _) = _ => destruct b end.
    + now elim (proj1 (plain_not_suffixed c n Hc)).
    + subst n. apply (in_map fst) in Hin. exact Hin.
  - right. apply filter_In in Hin. destruct Hin as [Hin _].
    match type of E with (if ?b then _ else _) = _ => destruct b end.
    + now elim (proj2 (plain_not_suffixed c n Hc)).
    + subst n. apply (in_map fst) in Hin. exact Hin.
Qed.

Lemma drop_column_labels (df df' : DataFrame) (c : string) :
  DF.drop_column df c = Ok df' ->
  In c (DF.columns df) /\
  forall n, In n (DF.columns df') -> In n (DF.columns df).
Proof.
  unfold DF.drop_column. destruct (mem c (DF.columns df)) eqn:E;
    [|discriminate].
  intros H. inversion H; subst df'; clear H.
  split; [now apply mem_In|].
  intros n Hn. unfold DF.columns in *. cbn [cols] in Hn.
  apply in_map_iff in Hn. destruct Hn as (p & <- & Hp).
  apply filter_In in Hp. apply in_map. apply Hp.
Qed.

Lemma getitem_list_needs (df df' : DataFrame) (names : list string)
      (c : string) :
  DF.getitem_list df names = Ok df' -> In c names -> In c (DF.columns df).
Proof.
  unfold DF.getitem_list. intros H Hc.
  apply bind_ok in H. destruct H as (cs & Hcs & _).
  apply mapM_ok in Hcs. revert Hc.
  induction Hcs as [|a b l bs Hab _ IH]; intros Hc; [destruct Hc|].
  destruct Hc as [<-|Hc]; [|now apply IH].
  destruct (filter (fun p => String.eqb (fst p) a) (cols df))
    as [|[n v] t] eqn:F; [discriminate|].
  assert (Hin : In (n, v) (filter (fun p => String.eqb (fst p) a) (cols df)))
    by (rewrite F; now left).
  apply filter_In in Hin. destruct Hin as [Hin E]. cbn [fst] in E.
  apply String.eqb_eq in E. subst n.
  apply (in_map fst) in Hin. exact Hin.
Qed.

Lemma setitem_columns (df : DataFrame) (c : string) (v : Series) :
  In c (DF.columns df) -> DF.columns (DF.setitem df c v) = DF.columns df.
Proof.
  intros H. pose proof (In_mem _ _ H) as M.
  unfold DF.columns, DF.setitem in *. cbn [cols].
  rewrite update_labels. now rewrite M.
Qed.

Lemma setitem_columns_In (df : DataFrame) (c n : string) (v : Series) :
  In n (DF.columns (DF.setitem df c v)) -> n = c \/ In n (DF.columns df).
Proof.
  unfold DF.columns, DF.setitem. cbn [cols]. rewrite update_labels.
  destruct (mem c (map fst (cols df))); [now right|].
  intros H. apply in_app_or in H. destruct H as [H|[H|[]]]; auto.
Qed.

Lemma clean_columns (df : DataFrame) : DF.columns (clean df) = DF.columns df.
Proof. unfold DF.columns, clean. cbn [cols]. now rewrite map_map. Qed.

Lemma pad_plant_columns (df df' : DataFrame) :
  pad_plant df = Ok df' ->
  In "Plant" (DF.columns df) /\ DF.columns df' = DF.columns df.
Proof.
  unfold pad_plant. intros H. apply bind_ok in H. destruct H as (v & Hv & H).
  inversion H; subst df'; clear H.
  pose proof (getitem_In _ _ _ Hv) as Hin.
  split; [exact Hin|now apply setitem_columns].
Qed.

(** The labels of the six tables when the joins start. *)
Lemma prepare_columns (d d' : Data) :
  prepare d = Ok d' ->
  In "DeletedStorageLevel" (DF.columns (storage d)) /\
  In "Plant" (DF.columns (plants d)) /\
  In "Plant" (DF.columns (storage d)) /\
  (forall c, In c (DF.columns (materials d')) ->
             c = "TypeCode" \/ In c (DF.columns (materials d))) /\
  DF.columns (plants d') = DF.columns (plants d) /\
  DF.columns (storage d') = DF.columns (storage d) /\
  DF.columns (suppliers d') = DF.columns (suppliers d) /\
  DF.columns (supplier_names d') = DF.columns (supplier_names d) /\
  DF.columns (manufacturer_names d') = DF.columns (manufacturer_names d).
Proof.
  intros H. apply prepare_stages in H.
  destruct H as (d1 & d2 & d3 & P1 & P2 & P3 & ->).
  unfold replace_deleted in P1. apply bind_ok in P1.
  destruct P1 as (v & Hv & P1). inversion P1; subst d1; clear P1.
  pose proof (getitem_In _ _ _ Hv) as Hlevel.
  unfold fill_typecode in P2. apply bind_ok in P2.
  destruct P2 as (t & _ & P2). inversion P2; subst d2; clear P2.
  cbn [materials plants storage suppliers supplier_names manufacturer_names]
    in P3.
  unfold pad_plants in P3. apply bind_ok in P3.
  destruct P3 as (p & Hp & P3). apply bind_ok in P3.
  destruct P3 as (s & Hs & P3). inversion P3; subst d3; clear P3.
  cbn [materials plants storage suppliers supplier_names manufacturer_names]
    in *.
  destruct (pad_plant_columns _ _ Hp) as [Pp Cp].
  destruct (pad_plant_columns _ _ Hs) as [Ps Cs].
  rewrite (setitem_columns _ _ _ Hlevel) in Ps, Cs.
  unfold clean_data.
  cbn [materials plants storage suppliers supplier_names manufacturer_names].
  rewrite !clean_columns.
  repeat split; try assumption.
  intros c Hc. now apply setitem_columns_In in Hc.
Qed.

(** The labels of all six tables, as loaded. *)
Definition loaded_columns (d : Data) : list string :=
  DF.columns (materials d) ++ DF.columns (manufacturer_names d)
  ++ DF.columns (plants d) ++ DF.columns (suppliers d)
  ++ DF.columns (supplier_names d) ++ DF.columns (storage d).

(** X13: the columns that the script needs.  The pipeline returns only if
    the sheets carry the labels that the script names: DeletedStorageLevel
    and Plant in storage, Plant in plants, the join keys on the side of
    each joined table, ManufacturerID in materials, and every one of the
    thirteen output labels in one of the six sheets, ReporderPoint in this
    spelling among them (TypeCode apart, which the backfill may add).  Any
    of them missing raises an exception before anything is exported. *)
Theorem pipeline_needs_columns (d : Data) (out : DataFrame) :
  pipeline d = Ok out ->
  In "DeletedStorageLevel" (DF.columns (storage d)) /\
  In "Plant" (DF.columns (plants d)) /\
  In "Plant" (DF.columns (storage d)) /\
  In "ManufacturerID" (DF.columns (materials d)) /\
  In "ManufacturerID" (DF.columns (manufacturer_names d)) /\
  In "MaterialReference" (DF.columns (plants d)) /\
  In "MaterialReference" (DF.columns (suppliers d)) /\
  In "SupplierID" (DF.columns (supplier_names d)) /\
  In "MaterialReference" (DF.columns (storage d)) /\
  forall c, In c output_columns ->
            c = "TypeCode" \/ In c (loaded_columns d).
Proof.
  intros H. apply pipeline_ok in H.
  destruct H as (d' & t5 & r & Hp & Ha & Hr & _).
  destruct (prepare_columns d d' Hp)
    as (L1 & L2 & L3 & Cm & Cp & Cst & Csu & Csn & Cmn).
  apply aggregate_ok in Ha.
  destruct Ha as (t1 & t2 & t3 & t4 & S1 & S2 & S3 & S4 & S5).
  unfold step1 in S1. apply bind_ok in S1. destruct S1 as (m1 & M1 & D1).
  unfold step2 in S2. unfold step3 in S3.
  unfold step4 in S4. apply bind_ok in S4. destruct S4 as (m4 & M4 & D4).
  unfold step5 in S5.
  destruct (merge_keys _ _ _ _ "ManufacturerID" M1) as [K1l K1r];
    [now left|].
  destruct (merge_keys _ _ _ _ "MaterialReference" S2) as [_ K2r];
    [now left|].
  destruct (merge_keys _ _ _ _ "MaterialReference" S3) as [_ K3r];
    [now left|].
  destruct (merge_keys _ _ _ _ "SupplierID" M4) as [_ K4r]; [now left|].
  destruct (merge_keys _ _ _ _ "MaterialReference" S5) as [_ K5r];
    [now left|].
  rewrite Cmn in K1r. rewrite Cp in K2r. rewrite Csu in K3r.
  rewrite Csn in K4r. rewrite Cst in K5r.
  repeat (split; [assumption|]).
  split.
  { destruct (Cm _ K1l) as [E|E]; [discriminate E|exact E]. }
  repeat (split; [assumption|]).
  intros c Hc. pose proof (plain_output_columns c Hc) as Pc.
  pose proof (getitem_list_needs _ _ _ c Hr Hc) as I5.
  unfold loaded_columns. rewrite !in_app_iff.
  destruct (merge_plain_label _ _ _ _ c S5 Pc I5) as [I4|I];
    [|rewrite Cst in I; tauto].
  apply (proj2 (drop_column_labels _ _ _ D4)) in I4.
  destruct (merge_plain_label _ _ _ _ c M4 Pc I4) as [I3|I];
    [|rewrite Csn in I; tauto].
  destruct (merge_plain_label _ _ _ _ c S3 Pc I3) as [I2|I];
    [|rewrite Csu in I; tauto].
  destruct (merge_plain_label _ _ _ _ c S2 Pc I2) as [I1|I];
    [|rewrite Cp in I; tauto].
  apply (proj2 (drop_column_labels _ _ _ D1)) in I1.
  destruct (merge_plain_label _ _ _ _ c M1 Pc I1) as [I0|I];
    [|rewrite Cmn in I; tauto].
  destruct (Cm _ I0) as [E|E]; tauto.
Qed.

Lemma pipeline_needs_columns_witness :
  In "DeletedStorageLevel"
     (DF.columns (storage (Sheet.frames fan_out_example))) /\
  In "Plant" (DF.columns (plants (Sheet.frames fan_out_example))).
Proof.
  refine ((fun H => conj (proj1 H) (proj1 (proj2 H)))
            (pipeline_needs_columns (Sheet.frames fan_out_example)
                                    fan_out_export fan_out_run)).
Defined.

(** The Plants sheet with the fourth column under the label ReorderPoint. *)
Definition reorder_point_frames : Data :=
  let d := Sheet.frames fan_out_example in
  mkData (materials d)
         (mkDF (nrows (plants d))
               (map (fun p => (if String.eqb (fst p) "ReporderPoint"
                               then "ReorderPoint" else fst p, snd p))
                    (cols (plants d))))
         (storage d) (suppliers d) (supplier_names d) (manufacturer_names d).

Lemma reorder_point_raises :
  pipeline reorder_point_frames = Raise (KeyError "ReporderPoint").
Proof. vm_compute. reflexivity. Qed.

(** * The order of the export *)

(** [src] lists the positions below [n] in increasing order, each at least
    once. *)
Definition ordered_cover (src : list nat) (n : nat) : Prop :=
  StronglySorted le src /\ forall i, In i src <-> i < n.

Lemma sorted_app (l1 l2 : list nat) :
  StronglySorted le l1 -> StronglySorted le l2 ->
  (forall a b, In a l1 -> In b l2 -> a <= b) ->
  StronglySorted le (l1 ++ l2).
Proof.
  intros H1 H2 H. induction H1 as [|a l1 S1 IH F]; [exact H2|].
  cbn [app]. constructor.
  - apply IH. intros a' b Ha Hb. apply H; [now right|exact Hb].
  - apply Forall_app. split; [exact F|].
    apply Forall_forall. intros b Hb. apply H; [now left|exact Hb].
Qed.

Lemma sorted_constant (l : list nat) (a : nat) :
  (forall b, In b l -> b = a) -> StronglySorted le l.
Proof.
  induction l as [|b l IH]; intros H; constructor.
  - apply IH. intros c Hc. apply H. now right.
  - apply Forall_forall. intros c Hc.
    rewrite (H b (or_introl eq_refl)), (H c (or_intror Hc)). apply le_n.
Qed.

Lemma sorted_nth (l : list nat) (a b : nat) :
  StronglySorted le l -> a <= b -> b < List.length l ->
  nth a l 0 <= nth b l 0.
Proof.
  intros S. revert a b. induction S as [|x l S IH F]; intros a b Hab Hb.
  - cbn in Hb. lia.
  - destruct b as [|b]; [replace a with 0 by lia; apply le_n|].
    cbn [List.length] in Hb. destruct a as [|a]; cbn [nth].
    + rewrite Forall_forall in F. apply F. apply nth_In. lia.
    + apply IH; lia.
Qed.

Lemma fan_out_fst (rk : list (list cell)) (p : nat * list cell)
      (q : nat * option nat) :
  In q (fan_out rk p) -> fst q = fst p.
Proof.
  unfold fan_out. destruct (DF.matches (snd p) rk) as [|j ms].
  - intros [<-|[]]. reflexivity.
  - intros H. apply in_map_iff in H. destruct H as (j' & <- & _). reflexivity.
Qed.

Lemma fan_out_sorted (rk lk : list (list cell)) (a : nat) :
  StronglySorted le
    (map fst (flat_map (fan_out rk) (combine (seq a (List.length lk)) lk))) /\
  forall i,
    In i (map fst (flat_map (fan_out rk)
                            (combine (seq a (List.length lk)) lk))) ->
    a <= i.
Proof.
  revert a. induction lk as [|k lk IH]; intros a.
  - split; [constructor|intros i []].
  - cbn [List.length seq combine flat_map]. rewrite map_app.
    destruct (IH (S a)) as [S B].
    assert (C : forall b, In b (map fst (fan_out rk (a, k))) -> b = a).
    { intros b Hb. apply in_map_iff in Hb. destruct Hb as (q & <- & Hq).
      apply (fan_out_fst rk (a, k) q Hq). }
    split.
    + apply sorted_app; [exact (sorted_constant _ a C)|exact S|].
      intros b c Hb Hc. rewrite (C b Hb). apply B in Hc. lia.
    + intros i Hi. apply in_app_or in Hi. destruct Hi as [Hi|Hi].
      * rewrite (C i Hi). apply le_n.
      * apply B in Hi. lia.
Qed.

(** The left rows of a left join come in their order, each at least once. *)
Lemma indexer_ordered (l r : DataFrame) (on : list string) :
  ordered_cover (map fst (indexer l r on)) (nrows l).
Proof.
  unfold indexer. split.
  - rewrite left_indexer_unfold. apply fan_out_sorted.
  - intros i. split.
    + intros H. apply in_map_iff in H. destruct H as ([i' oj] & <- & H).
      apply left_indexer_bound in H. now rewrite length_zip_rows in H.
    + intros H.
      destruct (left_indexer_cover
                  (DF.zip_rows (map (col r) on) (nrows r))
                  (DF.zip_rows (map (col l) on) (nrows l)) i) as (oj & Hin).
      * now rewrite length_zip_rows.
      * apply (in_map fst) in Hin. exact Hin.
Qed.

Lemma ordered_cover_compose (src js : list nat) (n : nat) :
  ordered_cover src n -> ordered_cover js (List.length src) ->
  ordered_cover (map (fun j => nth j src 0) js) n.
Proof.
  intros [S1 C1] [S2 C2]. split.
  - assert (B : forall j, In j js -> j < List.length src)
      by (intros j Hj; now apply C2).
    clear C2. induction S2 as [|j js S2 IH F]; [constructor|].
    cbn [map]. constructor.
    + apply IH. intros j' Hj'. apply B. now right.
    + apply Forall_forall. intros i Hi.
      apply in_map_iff in Hi. destruct Hi as (j' & <- & Hj').
      rewrite Forall_forall in F.
      apply (sorted_nth src j j' S1 (F j' Hj')). apply B. now right.
  - intros i. split.
    + intros H. apply in_map_iff in H. destruct H as (j & <- & Hj).
      apply C1. apply nth_In. now apply C2.
    + intros H. apply C1 in H.
      destruct (In_nth _ _ 0 H) as (j & Hj & E).
      apply in_map_iff. exists j. split; [exact E|now apply C2].
Qed.

Lemma take_left_sources (idx : list (nat * option nat)) (v : Series)
      (src : list nat) :
  (forall p, In p idx -> fst p < List.length src) ->
  DF.take_left idx (map (fun i => nth i v NA) src)
  = map (fun i => nth i v NA) (map (fun j => nth j src 0) (map fst idx)).
Proof.
  intros H. unfold DF.take_left. rewrite !map_map.
  apply map_ext_in. intros p Hp.
  rewrite (nth_indep _ NA ((fun i => nth i v NA) 0))
    by (rewrite length_map; now apply H).
  apply (map_nth (fun i => nth i v NA)).
Qed.

Lemma indexer_fst_bound (l r : DataFrame) (on : list string)
      (p : nat * option nat) :
  In p (indexer l r on) -> fst p < nrows l.
Proof.
  intros H. apply (in_map fst) in H.
  now apply (proj2 (indexer_ordered l r on)) in H.
Qed.

Section Order.

Import Sheet.

Variable x : Sheets.
Variable tc : Series.

(** The Materials row of every row, join after join. *)
Definition src1 : list nat := map fst (idx1 x tc).
Definition src2 : list nat := map (fun j => nth j src1 0) (map fst (idx2 x tc)).
Definition src3 : list nat := map (fun j => nth j src2 0) (map fst (idx3 x tc)).
Definition src4 : list nat := map (fun j => nth j src3 0) (map fst (idx4 x tc)).
Definition src5 : list nat := map (fun j => nth j src4 0) (map fst (idx5 x tc)).

Lemma src5_ordered : ordered_cover src5 (List.length (materials_rows x)).
Proof.
  assert (O1 : ordered_cover src1 (List.length (materials_rows x)))
    by apply (indexer_ordered (materials (prepared x tc))
                (manufacturer_names (prepared x tc)) ["ManufacturerID"]).
  assert (O2 : ordered_cover src2 (List.length (materials_rows x))).
  { apply (ordered_cover_compose _ _ _ O1).
    unfold src1. rewrite length_map.
    apply (indexer_ordered (r1 x tc) (plants (prepared x tc))
             ["MaterialReference"]). }
  assert (O3 : ordered_cover src3 (List.length (materials_rows x))).
  { apply (ordered_cover_compose _ _ _ O2).
    unfold src2. rewrite !length_map.
    apply (indexer_ordered (r2 x tc) (suppliers (prepared x tc))
             ["MaterialReference"]). }
  assert (O4 : ordered_cover src4 (List.length (materials_rows x))).
  { apply (ordered_cover_compose _ _ _ O3).
    unfold src3. rewrite !length_map.
    apply (indexer_ordered (r3 x tc) (supplier_names (prepared x tc))
             ["SupplierID"]). }
  apply (ordered_cover_compose _ _ _ O4).
  unfold src4. rewrite !length_map.
  apply (indexer_ordered (r4 x tc) (storage (prepared x tc))
           ["MaterialReference"; "Plant"]).
Qed.

Lemma through_joins (v : Series) :
  DF.take_left (idx5 x tc)
    (DF.take_left (idx4 x tc)
       (DF.take_left (idx3 x tc)
          (DF.take_left (idx2 x tc) (DF.take_left (idx1 x tc) v))))
  = map (fun i => nth i v NA) src5.
Proof.
  assert (E1 : DF.take_left (idx1 x tc) v = map (fun i => nth i v NA) src1).
  { unfold DF.take_left, src1. now rewrite map_map. }
  rewrite E1.
  rewrite (take_left_sources (idx2 x tc) v src1).
  2: { intros p Hp. unfold src1. rewrite length_map.
       apply (indexer_fst_bound (r1 x tc) _ _ p Hp). }
  fold src2.
  rewrite (take_left_sources (idx3 x tc) v src2).
  2: { intros p Hp. unfold src2. rewrite !length_map.
       apply (indexer_fst_bound (r2 x tc) _ _ p Hp). }
  fold src3.
  rewrite (take_left_sources (idx4 x tc) v src3).
  2: { intros p Hp. unfold src3. rewrite !length_map.
       apply (indexer_fst_bound (r3 x tc) _ _ p Hp). }
  fold src4.
  rewrite (take_left_sources (idx5 x tc) v src4).
  2: { intros p Hp. unfold src4. rewrite !length_map.
       apply (indexer_fst_bound (r4 x tc) _ _ p Hp). }
  reflexivity.
Qed.

Lemma exported_materials_column (c : string) :
  In c ["MaterialReference"; "ArticleNumber"; "TypeCode"; "ShortText"] ->
  col (exported x tc) c
  = map (fun i => shown (value (materials (prepared x tc)) c i)) src5.
Proof.
  intros H.
  assert (E : col (exported x tc) c
              = Series_.fillna (Str "N/A")
                  (DF.take_left (idx5 x tc)
                     (DF.take_left (idx4 x tc)
                        (DF.take_left (idx3 x tc)
                           (DF.take_left (idx2 x tc)
                              (DF.take_left (idx1 x tc)
                                 (col (materials (prepared x tc)) c))))))).
  { destruct H as [<-|[<-|[<-|[<-|[]]]]]; reflexivity. }
  rewrite E, through_joins. unfold Series_.fillna. now rewrite map_map.
Qed.

End Order.

(** X14: the export keeps the order of Materials.  There is a list of
    Materials positions, one for every row of the export, that goes through
    all the Materials rows in their order, each at least once, and gives
    the four Materials columns of the export: cell for cell the cleaned
    value of that Materials row, N/A for a null.  So the rows of one
    material are consecutive, and no Materials row is dropped or moved. *)
Theorem export_keeps_material_order (x : Sheet.Sheets) (out : DataFrame) :
  pipeline (Sheet.frames x) = Ok out ->
  exists d' src,
    prepare (Sheet.frames x) = Ok d' /\
    List.length src = nrows out /\
    StronglySorted le src /\
    (forall i, In i src <-> i < List.length (Sheet.materials_rows x)) /\
    forall c,
      In c ["MaterialReference"; "ArticleNumber"; "TypeCode"; "ShortText"] ->
      col out c = map (fun i => shown (value (materials d') c i)) src.
Proof.
  intros H. destruct (pipeline_sheets_ok x out H) as (tc & Htc & ->).
  exists (prepared x tc), (src5 x tc). split.
  { rewrite prepare_sheets, apply_rows_materials, Htc. reflexivity. }
  split.
  { unfold src5. rewrite !length_map. reflexivity. }
  destruct (src5_ordered x tc) as [S C].
  split; [exact S|]. split; [exact C|].
  apply exported_materials_column.
Qed.

Lemma export_keeps_material_order_witness :
  exists d' src,
    prepare (Sheet.frames fan_out_example) = Ok d' /\
    List.length src = nrows fan_out_export /\
    StronglySorted le src /\
    (forall i, In i src <->
               i < List.length (Sheet.materials_rows fan_out_example)).
Proof.
  destruct (export_keeps_material_order fan_out_example fan_out_export
              fan_out_run) as (d' & src & H1 & H2 & H3 & H4 & _).
  exists d', src. exact (conj H1 (conj H2 (conj H3 H4))).
Defined.

(** * The first read that fails *)

Lemma run_file_not_found (w : World) (e : string) :
  read_all w = FileNotFoundError e ->
  run w = (Exit 1,
           mkEff [ (INFO, rule); (INFO, "Starting data loading process...");
                   (ERROR, ("File not found: " ++ e)%string) ]
                 [ "Logging configured - output will be written to log.txt";
                   ("Error: " ++ e)%string ]
                 None).
Proof. intros H. unfold run, main, load_data. rewrite H. reflexivity. Qed.

Lemma run_other_error (w : World) (e : string) :
  read_all w = OtherError e ->
  run w = (Exit 1,
           mkEff [ (INFO, rule); (INFO, "Starting data loading process...");
                   (ERROR, ("An unexpected error occurred: " ++ e)%string) ]
                 [ "Logging configured - output will be written to log.txt";
                   ("Error: " ++ e)%string ]
                 None).
Proof. intros H. unfold run, main, load_data. rewrite H. reflexivity. Qed.

(** What a read that fails reports. *)
Definition failure_of {A : Type} (m : load A) : option (level * string) :=
  match m with
  | Loaded _ => None
  | FileNotFoundError e => Some (ERROR, ("File not found: " ++ e)%string)
  | OtherError e =>
      Some (ERROR, ("An unexpected error occurred: " ++ e)%string)
  end.

(** X15: the reads happen in the order of the dict literal and the first
    one that fails decides what is reported.  If the files before the
    [k]-th load and the [k]-th read fails, the log ends with the ERROR line
    of that failure (File not found for a missing file, An unexpected error
    occurred for anything else), whatever the state of the later files; it
    is the only ERROR line and the run ends with [exit(1)]. *)
Theorem first_failed_read_is_reported (w : World) (k : nat)
        (f s : string) (line : level * string) :
  nth_error sources k = Some (f, s) ->
  (forall k' f' s', k' < k -> nth_error sources k' = Some (f', s') ->
                    exists df, read_excel w f' s' = Loaded df) ->
  failure_of (read_excel w f s) = Some line ->
  failure_of (read_all w) = Some line /\
  fst (run w) = Exit 1 /\
  log (snd (run w))
  = [ (INFO, rule); (INFO, "Starting data loading process..."); line ].
Proof.
  intros Hk Hbefore Hfail.
  assert (R : failure_of (read_all w) = Some line).
  { unfold read_all.
    destruct k as [|[|[|[|[|[|k]]]]]];
      cbn [nth_error sources] in Hk;
      [| | | | | |destruct k; discriminate Hk];
      inversion Hk; subst f s; clear Hk;
      repeat match goal with
             | |- context [load_bind (read_excel w ?a ?b) _] =>
                 match goal with
                 | H : failure_of (read_excel w a b) = _ |- _ => fail 1
                 | _ => idtac
                 end;
                 first
                   [ destruct (Hbefore 0 a b ltac:(lia) eq_refl) as (? & ->)
                   | destruct (Hbefore 1 a b ltac:(lia) eq_refl) as (? & ->)
                   | destruct (Hbefore 2 a b ltac:(lia) eq_refl) as (? & ->)
                   | destruct (Hbefore 3 a b ltac:(lia) eq_refl) as (? & ->)
                   | destruct (Hbefore 4 a b ltac:(lia) eq_refl) as (? & ->) ];
                 cbn [load_bind]
             end;
      match goal with
      | |- failure_of (load_bind (read_excel w ?a ?b) _) = _ =>
          destruct (read_excel w a b);
          [discriminate Hfail|exact Hfail|exact Hfail]
      end. }
  split; [exact R|].
  destruct (read_all w) as [d|e|e] eqn:E; cbn [failure_of] in R;
    [discriminate R|inversion R; subst line..].
  - rewrite (run_file_not_found w e E). now split.
  - rewrite (run_other_error w e E). now split.
Qed.

Lemma first_failed_read_is_reported_witness :
  log (snd (run world_without_storage))
  = [ (INFO, rule); (INFO, "Starting data loading process...");
      (ERROR, "File not found: No such file: 'storage.xlsx'") ].
Proof.
  refine (proj2 (proj2 (first_failed_read_is_reported world_without_storage
                          2 "storage.xlsx" "storage" _ eq_refl _ eq_refl))).
  intros k' f' s' Hk' Hn.
  destruct k' as [|[|k']]; [| |lia]; inversion Hn; now eexists.
Defined.

(** * Missing join keys *)

(** Every key has a right row joined to it, or none. *)
Lemma joined_exists (r : DataFrame) (key : list cell) (on : list string) :
  exists oj, joined r oj key on.
Proof.
  destruct (DF.matches key (DF.zip_rows (map (col r) on) (nrows r)))
    as [|j ms] eqn:M.
  - exists None. cbn [joined]. intros j Hj.
    destruct (DF.keys_eqb key (map (fun c => value r c j) on)) eqn:E;
      [|reflexivity].
    assert (Hin : In j (DF.matches key
                          (DF.zip_rows (map (col r) on) (nrows r)))).
    { apply in_matches. eexists. split.
      - apply (nth_error_zip_rows _ _ _ Hj).
      - rewrite map_map. exact E. }
    rewrite M in Hin. destruct Hin.
  - exists (Some j). cbn [joined].
    assert (Hin : In j (DF.matches key
                          (DF.zip_rows (map (col r) on) (nrows r))))
      by (rewrite M; now left).
    apply in_matches in Hin. destruct Hin as (rk & Hrk & E).
    pose proof (nth_error_lt _ _ _ Hrk) as Hj.
    rewrite length_zip_rows in Hj.
    rewrite (nth_error_zip_rows _ _ _ Hj) in Hrk.
    inversion Hrk as [Er]. rewrite map_map in Er.
    split; [exact Hj|]. unfold value. now rewrite Er.
Qed.

(** X16: a missing key matches a missing key.  A Materials row that no
    Suppliers row matches has no SupplierID after the third join, and the
    fourth join pairs it with every SupplierNames row whose SupplierID is
    missing: the export then has a row of that material with the
    SupplierName of such a row, beside the N/A of SupplierArticleNumber. *)
Theorem missing_supplier_id_matches (x : Sheet.Sheets) (out : DataFrame)
        (d' : Data) (i j : nat) :
  pipeline (Sheet.frames x) = Ok out ->
  prepare (Sheet.frames x) = Ok d' ->
  i < nrows (materials d') ->
  (forall j3, j3 < nrows (suppliers d') ->
     DF.key_eqb (value (materials d') "MaterialReference" i)
                (value (suppliers d') "MaterialReference" j3) = false) ->
  j < nrows (supplier_names d') ->
  value (supplier_names d') "SupplierID" j = NA ->
  exists k,
    k < nrows out /\
    value out "MaterialReference" k
    = shown (value (materials d') "MaterialReference" i) /\
    value out "SupplierName" k
    = shown (value (supplier_names d') "SupplierName" j) /\
    value out "SupplierArticleNumber" k = Str "N/A".
Proof.
  intros Hout Hp Hi Hnone Hj Hna.
  destruct (sheets_trace x d' Hp) as (tc & _ & -> & Hx).
  rewrite Hx in Hout. inversion Hout; subst out; clear Hout Hx.
  destruct (joined_exists (manufacturer_names (prepared x tc))
              [value (materials (prepared x tc)) "ManufacturerID" i]
              ["ManufacturerID"]) as (j1 & J1).
  destruct (joined_exists (plants (prepared x tc))
              [value (materials (prepared x tc)) "MaterialReference" i]
              ["MaterialReference"]) as (j2 & J2).
  destruct (joined_exists (storage (prepared x tc))
              [value (materials (prepared x tc)) "MaterialReference" i;
               right_value (plants (prepared x tc)) "Plant" j2]
              ["MaterialReference"; "Plant"]) as (j5 & J5).
  assert (C : join_chain (prepared x tc) i j1 j2 None (Some j) j5).
  { unfold join_chain. repeat (split; [assumption|]).
    split; [|split; [|exact J5]].
    - cbn [joined map DF.keys_eqb]. intros j3 H3.
      now rewrite (Hnone j3 H3).
    - cbn [joined map DF.keys_eqb right_value]. split; [exact Hj|].
      now rewrite Hna. }
  destruct (exported_rows_complete x tc i j1 j2 None (Some j) j5 C)
    as (k & Hk & E).
  exists k. split; [exact Hk|].
  unfold export_row, join_row, output_columns in E. cbn [map] in E.
  pose proof (f_equal (fun l => nth 0 l NA) E) as E1.
  pose proof (f_equal (fun l => nth 8 l NA) E) as E9.
  pose proof (f_equal (fun l => nth 9 l NA) E) as E10.
  cbn [nth] in E1, E9, E10.
  split; [exact E1|]. split; [exact E9|exact E10].
Qed.

(** A material without supplier, a supplier name without SupplierID. *)
Definition stray_name_example : Sheet.Sheets :=
  Sheet.mkSheets
    [ Sheet.mkMaterial (Str "M1") (Str "MF1") NA (Str "T1") NA ]
    [] [] []
    [ Sheet.mkSupplierName NA (Str "Nobody") ]
    [].

Lemma missing_supplier_id_matches_witness :
  exists out d' k,
    pipeline (Sheet.frames stray_name_example) = Ok out /\
    prepare (Sheet.frames stray_name_example) = Ok d' /\
    k < nrows out /\
    value out "SupplierName" k
    = shown (value (supplier_names d') "SupplierName" 0).
Proof.
  destruct (pipeline (Sheet.frames stray_name_example))
    as [out|e] eqn:H; [|vm_compute in H; discriminate H].
  destruct (prepare (Sheet.frames stray_name_example))
    as [d'|e] eqn:Hp; [|vm_compute in Hp; discriminate Hp].
  assert (D : d' = prepared stray_name_example [Str "T1"]).
  { vm_compute in Hp. inversion Hp. vm_compute. reflexivity. }
  destruct (missing_supplier_id_matches stray_name_example out d' 0 0 H Hp)
    as (k & Hk & _ & Hn & _).
  - rewrite D. vm_compute. lia.
  - rewrite D. intros j3 H3. vm_compute in H3. lia.
  - rewrite D. vm_compute. lia.
  - rewrite D. vm_compute. reflexivity.
  - exists out, d', k. split; [reflexivity|]. split; [reflexivity|].
    split; [exact Hk|exact Hn].
Defined.
